(** * Long-form memory: extraction, storage and retrieval

    A shallow embedding of the Python sources

    - [memory_model.py]      (the [Memory] record, [MemoryType])
    - [memory_extractor.py]  ([MemoryExtractor])
    - [memory_storage.py]    ([MemoryStorage], the SQLite table and the
                              volatile embeddings dict)
    - [memory_retriever.py]  ([MemoryRetriever], the relevance score)
    - [long_form_memory.py]  ([LongFormMemorySystem])

    Conventions of the embedding.

    - Python [str] is [string]; texts are taken to be ASCII, so that
      [str.lower], [str.split], [str.strip] and the regular-expression
      classes [\w], [\s], [[a-z]] are the ASCII ones.
    - Python [int] is [Z].  Python [float] is idealised as a real number
      ([R]): rounding, infinities and NaN are not modelled.  The weighted
      average is given a second time in binary64 arithmetic ([Binary64]), to
      evaluate it on the weights of the code as the interpreter does.
    - The SQLite table [memories] is the list of its rows in rowid order; the
      database is assumed to be open and its statements to succeed.
    - [datetime.now()] and [hashlib.md5] belong to the environment; they are
      section variables, and the clock is threaded as a counter of readings.
    - The records are typed as the dataclasses declare their fields.
    - An exception that a [try] of the code catches is a [None] (or [false])
      result at the place where it is caught. *)

From Stdlib Require Import Reals Lra Lia ZArith String Ascii List Bool Floats.
From stdpp Require Import gmap strings list pretty.
Import ListNotations.

Set Warnings "-register-all,-inexact-float".

Local Open Scope string_scope.
Local Open Scope Z_scope.

(* ===================================================================== *)
(** * Python strings *)
(* ===================================================================== *)

Module PyStr.

Abbreviation chars := list_ascii_of_string.
Abbreviation str := string_of_list_ascii.

Definition code (c : ascii) : N := N_of_ascii c.

Definition in_range (lo hi : N) (c : ascii) : bool :=
  ((lo <=? code c) && (code c <=? hi))%N.

Definition is_lower : ascii -> bool := in_range 97 122.
Definition is_upper : ascii -> bool := in_range 65 90.
Definition is_digit : ascii -> bool := in_range 48 57.

(** [str.isspace] on ASCII: tab, newline, VT, FF, CR, the separators
    0x1c-0x1f and the space. *)
Definition is_space (c : ascii) : bool :=
  in_range 9 13 c || in_range 28 31 c || (code c =? 32)%N.

(** The class [\w] on ASCII: letters, digits and the underscore. *)
Definition is_word (c : ascii) : bool :=
  is_lower c || is_upper c || is_digit c || (code c =? 95)%N.

Definition lower_char (c : ascii) : ascii :=
  if is_upper c then ascii_of_N (code c + 32) else c.

(** [s.lower()] *)
Definition lower (s : string) : string := str (map lower_char (chars s)).

(** [s.split()]: the maximal runs of non-space characters. *)
Fixpoint split_ws (cur : list ascii) (l : list ascii) : list string :=
  match l with
  | [] => match cur with [] => [] | _ => [str (rev cur)] end
  | c :: l' =>
      if is_space c
      then match cur with
           | [] => split_ws [] l'
           | _ => str (rev cur) :: split_ws [] l'
           end
      else split_ws (c :: cur) l'
  end.

Definition split (s : string) : list string := split_ws [] (chars s).

Fixpoint lstrip_chars (l : list ascii) : list ascii :=
  match l with
  | c :: l' => if is_space c then lstrip_chars l' else l
  | [] => []
  end.

(** [s.strip()] *)
Definition strip (s : string) : string :=
  str (rev (lstrip_chars (rev (lstrip_chars (chars s))))).

Fixpoint is_prefix (p l : list ascii) : bool :=
  match p, l with
  | [], _ => true
  | a :: p', b :: l' => Ascii.eqb a b && is_prefix p' l'
  | _ :: _, [] => false
  end.

Fixpoint contains_chars (p l : list ascii) : bool :=
  is_prefix p l || match l with [] => false | _ :: l' => contains_chars p l' end.

(** [sub in s] *)
Definition contains (sub s : string) : bool := contains_chars (chars sub) (chars s).

(** [s[:n]] for a non-negative literal [n] *)
Definition take (n : nat) (s : string) : string := str (firstn n (chars s)).

(** [s.replace(a, b)] for single characters [a] and [b] *)
Definition replace_char (a b : ascii) (s : string) : string :=
  str (map (fun c => if Ascii.eqb c a then b else c) (chars s)).

(** [len(s)] *)
Definition len (s : string) : Z := Z.of_nat (String.length s).

(** [sep.join(l)] *)
Fixpoint join (sep : string) (l : list string) : string :=
  match l with
  | [] => ""
  | [x] => x
  | x :: l' => x ++ sep ++ join sep l'
  end.

(** [str(n)] of an integer, as an f-string interpolates it *)
Definition of_int (n : Z) : string := pretty n.

End PyStr.

(* ===================================================================== *)
(** * Regular expressions ([re]) *)
(* ===================================================================== *)

(** A backtracking matcher for the fragment of [re] the sources use:
    literals, classes, concatenation, alternation (leftmost alternative
    first), greedy and lazy bounded repetition, capturing groups and [$].
    Matching is by continuations: a matcher consumes a prefix of the input
    and hands the rest, with the groups captured so far, to its continuation;
    an alternative that makes the continuation fail is abandoned for the next
    one, as [re] does. *)
Module Re.

Inductive regex : Type :=
| Eps
| Chr (c : ascii)
| Cls (p : ascii -> bool)
| Seq (r1 r2 : regex)
| Alt (r1 r2 : regex)
| Rep (greedy : bool) (lo : nat) (hi : option nat) (r : regex)
| Grp (i : nat) (r : regex)
| Eos.

(** Groups captured so far: group number and captured text, latest first. *)
Definition captures := list (nat * list ascii).

Definition result := (list ascii * captures)%type.
Definition cont := list ascii -> captures -> option result.
Definition matcher := list ascii -> captures -> cont -> option result.

Definition first_of (a b : option result) : option result :=
  match a with Some _ => a | None => b end.

(** [r{lo,hi}]: [cnt] iterations are done.  A greedy repetition tries one
    more iteration before it lets the continuation run, a lazy one lets the
    continuation run first.  An iteration that consumes nothing ends the
    loop; the input length bounds the number of iterations. *)
Fixpoint rep_loop (m : matcher) (greedy : bool) (lo : nat) (hi : option nat)
    (fuel cnt : nat) (s : list ascii) (caps : captures) (k : cont) : option result :=
  let stop := if (lo <=? cnt)%nat then k s caps else None in
  let more :=
    match fuel with
    | O => None
    | S fuel' =>
        if match hi with Some h => (cnt <? h)%nat | None => true end
        then m s caps (fun s' caps' =>
               if (length s' <? length s)%nat
               then rep_loop m greedy lo hi fuel' (S cnt) s' caps' k
               else None)
        else None
    end in
  if greedy then first_of more stop else first_of stop more.

Fixpoint rmatch (r : regex) : matcher :=
  match r with
  | Eps => fun s caps k => k s caps
  | Chr c => fun s caps k =>
      match s with
      | a :: s' => if Ascii.eqb a c then k s' caps else None
      | [] => None
      end
  | Cls p => fun s caps k =>
      match s with
      | a :: s' => if p a then k s' caps else None
      | [] => None
      end
  | Seq r1 r2 => fun s caps k =>
      rmatch r1 s caps (fun s' caps' => rmatch r2 s' caps' k)
  | Alt r1 r2 => fun s caps k =>
      first_of (rmatch r1 s caps k) (rmatch r2 s caps k)
  | Rep greedy lo hi r' => fun s caps k =>
      rep_loop (rmatch r') greedy lo hi (S (length s)) 0 s caps k
  | Grp i r' => fun s caps k =>
      rmatch r' s caps (fun s' caps' =>
        k s' ((i, firstn (length s - length s') s) :: caps'))
  | Eos => fun s caps k =>
      (* end of string, or just before a final newline *)
      match s with
      | [] => k s caps
      | [c] => if Ascii.eqb c "010" then k s caps else None
      | _ => None
      end
  end.

(** A match that starts at the head of [s]: what is left and the groups. *)
Definition match_here (r : regex) (s : list ascii) : option result :=
  rmatch r s [] (fun s' caps => Some (s', caps)).

Fixpoint group_text (i : nat) (caps : captures) : string :=
  match caps with
  | [] => ""
  | (j, t) :: caps' => if (i =? j)%nat then PyStr.str t else group_text i caps'
  end.

(** The texts of groups [1..n]. *)
Definition groups (n : nat) (caps : captures) : list string :=
  map (fun i => group_text i caps) (seq 1 n).

(** The non-overlapping matches, leftmost first; after a match the scan
    resumes where it ended (one character further on after an empty match). *)
Fixpoint scan (fuel : nat) (r : regex) (s : list ascii) : list (list ascii * captures) :=
  match fuel with
  | O => []
  | S fuel' =>
      match match_here r s with
      | Some (s', caps) =>
          (firstn (length s - length s') s, caps) ::
          (if (length s' <? length s)%nat then scan fuel' r s'
           else match s with [] => [] | _ :: t => scan fuel' r t end)
      | None => match s with [] => [] | _ :: t => scan fuel' r t end
      end
  end.

(** [re.findall(r, s)] for a pattern with [n >= 1] groups: the groups of
    each match (a string when [n = 1], a tuple otherwise). *)
Definition findall (n : nat) (r : regex) (s : string) : list (list string) :=
  map (fun m => groups n (snd m)) (scan (S (String.length s)) r (PyStr.chars s)).

(** [re.findall] for a pattern with exactly one group. *)
Definition findall1 (r : regex) (s : string) : list string :=
  map (fun m => group_text 1 (snd m)) (scan (S (String.length s)) r (PyStr.chars s)).

(** [re.search(r, s)] followed by [.group(0)]. *)
Definition search (r : regex) (s : string) : option string :=
  match scan (S (String.length s)) r (PyStr.chars s) with
  | m :: _ => Some (PyStr.str (fst m))
  | [] => None
  end.

(** ** Pattern syntax *)

Fixpoint lit_chars (l : list ascii) : regex :=
  match l with
  | [] => Eps
  | [c] => Chr c
  | c :: l' => Seq (Chr c) (lit_chars l')
  end.

Definition lit (s : string) : regex := lit_chars (PyStr.chars s).

Fixpoint seqs (l : list regex) : regex :=
  match l with
  | [] => Eps
  | [r] => r
  | r :: l' => Seq r (seqs l')
  end.

Fixpoint alts (l : list regex) : regex :=
  match l with
  | [] => Cls (fun _ => false)
  | [r] => r
  | r :: l' => Alt r (alts l')
  end.

Definition star (r : regex) : regex := Rep true 0 None r.     (* r*   *)
Definition plus (r : regex) : regex := Rep true 1 None r.     (* r+   *)
Definition plus_lazy (r : regex) : regex := Rep false 1 None r. (* r+? *)
Definition opt (r : regex) : regex := Rep true 0 (Some 1%nat) r. (* r? *)
Definition at_least (n : nat) (r : regex) : regex := Rep true n None r. (* r{n,} *)

(** [.] without DOTALL: any character but the newline. *)
Definition dot : regex := Cls (fun c => negb (Ascii.eqb c "010")).
(** [.] under DOTALL *)
Definition dot_all : regex := Cls (fun _ => true).
Definition az : regex := Cls PyStr.is_lower.                   (* [a-z]  *)
Definition az_space : regex :=
  Cls (fun c => PyStr.is_lower c || Ascii.eqb c " ").          (* [a-z ] *)
Definition digit : regex := Cls PyStr.is_digit.                (* [0-9]  *)
Definition space : regex := Cls PyStr.is_space.                (* \s     *)

End Re.

(* ===================================================================== *)
(** * memory_model.py *)
(* ===================================================================== *)

(** Python values that reach [json]: the metadata of a memory, the items of a
    model response, the dictionary [Memory.to_dict] builds.  [PNdarray] is a
    numpy array, which [json] cannot encode. *)
Inductive pyval : Type :=
| PNone
| PBool (b : bool)
| PInt (n : Z)
| PFloat (x : R)
| PStr (s : string)
| PList (l : list pyval)
| PDict (d : list (string * pyval))
| PNdarray (v : list R).

(** An embedding as a caller passes it (a list of floats) or as the store
    hands it back (the numpy array of its side-table). *)
Inductive embedding_value : Type :=
| EList (v : list R)
| ENdarray (v : list R).

Definition vector (e : embedding_value) : list R :=
  match e with EList v | ENdarray v => v end.

(** [class Memory] *)
Record Memory : Type := mkMemory {
  memory_id : string;
  type : string;
  key : string;
  value : string;
  source_turn : Z;
  confidence : R;
  created_at : string;
  last_accessed_turn : option Z;
  access_count : Z;
  embedding : option embedding_value;
  metadata : option (list (string * pyval))
}.

(** [class MemoryType] *)
Module MemoryType.
Definition PREFERENCE := "preference".
Definition FACT := "fact".
Definition ENTITY := "entity".
Definition CONSTRAINT := "constraint".
Definition COMMITMENT := "commitment".
Definition INSTRUCTION := "instruction".
Definition all_types : list string :=
  [PREFERENCE; FACT; ENTITY; CONSTRAINT; COMMITMENT; INSTRUCTION].
End MemoryType.

(** ** The [json] module

    A JSON text is represented by the value it denotes: [json_dumps] gives
    the text for a value [json] can encode and raises [TypeError] ([None])
    on a numpy array anywhere inside it; [json_loads] reads a text written
    by [json_dumps] back. *)
Inductive json_text : Type := JsonText (v : pyval).

Fixpoint json_serializable (v : pyval) : bool :=
  match v with
  | PList l => forallb json_serializable l
  | PDict d => forallb (fun kv => json_serializable (snd kv)) d
  | PNdarray _ => false
  | _ => true
  end.

Definition json_dumps (v : pyval) : option json_text :=
  if json_serializable v then Some (JsonText v) else None.

Definition json_loads (t : json_text) : pyval :=
  match t with JsonText v => v end.

Definition opt_int (o : option Z) : pyval :=
  match o with Some n => PInt n | None => PNone end.

(** [Memory.to_dict]: [dataclasses.asdict], the fields in declaration order.
    [asdict] copies a list field as a list and any other object, a numpy
    array included, as it is. *)
Definition to_dict (m : Memory) : pyval :=
  PDict [ ("memory_id", PStr (memory_id m));
          ("type", PStr (type m));
          ("key", PStr (key m));
          ("value", PStr (value m));
          ("source_turn", PInt (source_turn m));
          ("confidence", PFloat (confidence m));
          ("created_at", PStr (created_at m));
          ("last_accessed_turn", opt_int (last_accessed_turn m));
          ("access_count", PInt (access_count m));
          ("embedding", match embedding m with
                        | None => PNone
                        | Some (EList v) => PList (map PFloat v)
                        | Some (ENdarray v) => PNdarray v
                        end);
          ("metadata", match metadata m with
                       | None => PNone
                       | Some d => PDict d
                       end) ].

(** [data['embedding'] = None] on a dictionary *)
Fixpoint dict_set (k : string) (v : pyval) (d : list (string * pyval)) : list (string * pyval) :=
  match d with
  | [] => [(k, v)]
  | (k', v') :: d' => if String.eqb k' k then (k, v) :: d' else (k', v') :: dict_set k v d'
  end.

Fixpoint dict_get (k : string) (d : list (string * pyval)) : option pyval :=
  match d with
  | [] => None
  | (k', v) :: d' => if String.eqb k' k then Some v else dict_get k d'
  end.

(** [Memory.to_json]: the dictionary with its embedding set to [None],
    encoded. *)
Definition to_json (m : Memory) : option json_text :=
  match to_dict m with
  | PDict d =>
      json_dumps (PDict (match dict_get "embedding" d with
                         | Some _ => dict_set "embedding" PNone d
                         | None => d
                         end))
  | _ => None
  end.


(** [class ConversationTurn] *)
Record ConversationTurn : Type := mkTurn {
  turn_id : Z;
  user_message : string;
  assistant_message : option string;
  timestamp : option string;
  extracted_memories : option (list string);
  retrieved_memories : option (list string)
}.

(* ===================================================================== *)
(** * memory_extractor.py *)
(* ===================================================================== *)

(** ** Reading the clock

    Every [datetime.now()] is one reading of the clock; a computation is a
    function of the number of readings made so far. *)
Definition Clock (A : Type) : Type := nat -> A * nat.

Definition ret {A} (a : A) : Clock A := fun n => (a, n).

Definition bind {A B} (c : Clock A) (f : A -> Clock B) : Clock B :=
  fun n => let (a, n') := c n in f a n'.

Notation "x <- c ;; k" := (bind c (fun x => k))
  (at level 100, c at next level, right associativity).

(** [for x in xs: body], the list [memories] being the loop's state. *)
Fixpoint for_each {A S} (xs : list A) (body : A -> S -> Clock S) (s : S) : Clock S :=
  match xs with
  | [] => ret s
  | x :: xs' => s' <- body x s ;; for_each xs' body s'
  end.

Module Patterns.
Import Re.

Definition boring_phrases : list string :=
  [ "how are you"; "how's the weather"; "what's the latest";
    "tell me a joke"; "what day is it"; "what can you help";
    "that's interesting"; "thanks"; "i see"; "okay"; "sure";
    "can you explain"; "here to help" ].

(** [(?:\.|$|,)] *)
Definition stop : regex := alts [Chr "."; Eos; Chr ","].

Definition pref_patterns : list regex :=
  [ (* (?:my |i )prefer (?:to )?(.+?)(?:\.|$|,) *)
    seqs [alts [lit "my "; lit "i "]; lit "prefer "; opt (lit "to ");
          Grp 1 (plus_lazy dot); stop];
    (* (?:always|never) (.+?)(?:\.|$|,) *)
    seqs [alts [lit "always"; lit "never"]; Chr " "; Grp 1 (plus_lazy dot); stop];
    (* (?:language is|speak|communicate in) ([a-z]+) *)
    seqs [alts [lit "language is"; lit "speak"; lit "communicate in"]; Chr " ";
          Grp 1 (plus az)] ].

Definition fact_patterns : list regex :=
  [ (* (?:my name is|i am|i'm) ([a-z ]{3,}) *)
    seqs [alts [lit "my name is"; lit "i am"; lit "i'm"]; Chr " ";
          Grp 1 (at_least 3 az_space)];
    (* (?:i live in|i'm from|from) ([a-z ]{3,}) *)
    seqs [alts [lit "i live in"; lit "i'm from"; lit "from"]; Chr " ";
          Grp 1 (at_least 3 az_space)];
    (* (?:i work at|work for) ([a-z ]{3,}) *)
    seqs [alts [lit "i work at"; lit "work for"]; Chr " ";
          Grp 1 (at_least 3 az_space)];
    (* allergic to ([a-z]+) *)
    seqs [lit "allergic to "; Grp 1 (plus az)];
    (* (?:i'm|i am) (?:a |an )?([a-z]+ (?:engineer|developer|designer|manager)) *)
    seqs [alts [lit "i'm"; lit "i am"]; Chr " "; opt (alts [lit "a "; lit "an "]);
          Grp 1 (seqs [plus az; Chr " ";
                       alts [lit "engineer"; lit "developer"; lit "designer";
                             lit "manager"]])] ].

(** [[0-9]+\s*(?:am|pm|AM|PM)] *)
Definition clock_time : regex :=
  seqs [plus digit; star space; alts [lit "am"; lit "pm"; lit "AM"; lit "PM"]].

(** The commitment patterns, each with its number of groups. *)
Definition commitment_patterns : list (nat * regex) :=
  [ (* (?:meeting|call|appointment).+?(?:at|@) ([0-9]+\s*(?:am|pm|AM|PM)) *)
    (1%nat, seqs [alts [lit "meeting"; lit "call"; lit "appointment"]; plus_lazy dot;
                  alts [lit "at"; Chr "@"]; Chr " "; Grp 1 clock_time]);
    (* (?:every|each) ([a-z]+day).+?([0-9]+\s*(?:am|pm|AM|PM)) *)
    (2%nat, seqs [alts [lit "every"; lit "each"]; Chr " ";
                  Grp 1 (seqs [plus az; lit "day"]); plus_lazy dot; Grp 2 clock_time]);
    (* birthday.+?on ([a-z]+ [0-9]+) *)
    (1%nat, seqs [lit "birthday"; plus_lazy dot; lit "on ";
                  Grp 1 (seqs [plus az; Chr " "; plus digit])]) ].

(** [\[.*\]] under [re.DOTALL] *)
Definition json_array : regex := seqs [Chr "["; star dot_all; Chr "]"].

End Patterns.

(** The double quote, for the text of the prompt. *)
Definition dq : string := String "034" EmptyString.

Section MemoryExtractor.

(** [hashlib.md5(s.encode()).hexdigest()] *)
Variable md5_hexdigest : string -> string.
(** [datetime.now().isoformat()] at the n-th reading of the clock *)
Variable isoformat_now : nat -> string.
(** The scanner of [json.loads] on a [str]; [None] is [JSONDecodeError]. *)
Variable json_scan : string -> option json_text.
(** [self.llm_client]; the handle itself is never called. *)
Variable llm_client : option unit.

Definition now : Clock string := fun n => (isoformat_now n, S n).

(** [_build_extraction_prompt] and [.format(user_message=, assistant_message=)] *)
Definition extraction_prompt (user_message assistant_message : string) : string :=
  "You are a memory extraction system. Extract ONLY important information worth remembering.

Memory Types:
- preference: User preferences (e.g., " ++ dq ++ "prefers calls after 11 AM" ++ dq ++ ")
- fact: Facts about the user (e.g., " ++ dq ++ "lives in San Francisco" ++ dq ++ ")
- entity: Important people/places (e.g., " ++ dq ++ "mother's name is Sarah" ++ dq ++ ")
- constraint: Limitations (e.g., " ++ dq ++ "cannot work weekends" ++ dq ++ ")
- commitment: Plans/promises (e.g., " ++ dq ++ "meeting Friday at 2 PM" ++ dq ++ ")
- instruction: Standing rules (e.g., " ++ dq ++ "always use formal tone" ++ dq ++ ")

Conversation:
User: " ++ user_message ++ "
Assistant: " ++ assistant_message ++ "

Return JSON array of memories (or [] if nothing important):
[
  {
    " ++ dq ++ "type" ++ dq ++ ": " ++ dq ++ "preference" ++ dq ++ ",
    " ++ dq ++ "key" ++ dq ++ ": " ++ dq ++ "language_preference" ++ dq ++ ",
    " ++ dq ++ "value" ++ dq ++ ": " ++ dq ++ "Kannada" ++ dq ++ ",
    " ++ dq ++ "confidence" ++ dq ++ ": 0.95,
    " ++ dq ++ "rationale" ++ dq ++ ": " ++ dq ++ "User explicitly stated" ++ dq ++ "
  }
]

Be selective - casual chat doesn't need to be stored.".

(** [_make_memory_id] *)
Definition _make_memory_id (key : string) (turn : Z) : Clock string :=
  t <- now ;;
  let unique_str := key ++ "_" ++ PyStr.of_int turn ++ "_" ++ t in
  let hash_val := PyStr.take 8 (md5_hexdigest unique_str) in
  ret ("mem_" ++ hash_val).

(** [Memory(...)] with the defaults of the dataclass for the fields the
    extractor leaves out. *)
Definition new_memory (mem_id type key value : string) (turn : Z) (conf : R)
    (created : string) (meta : option (list (string * pyval))) : Memory :=
  mkMemory mem_id type key value turn conf created None 0 None meta.

(** The body of the loops over [pref_patterns] and [fact_patterns]. *)
Definition single_group_matches (patterns : list Re.regex) (text : string)
    (min_len : Z) (id_prefix key_prefix mem_type : string) (conf : R) (turn_num : Z)
    (memories : list Memory) : Clock (list Memory) :=
  for_each patterns (fun pattern memories =>
    let matches := Re.findall1 pattern text in
    for_each matches (fun match_ memories =>
      if min_len <? PyStr.len (PyStr.strip match_) then
        mem_id <- _make_memory_id (id_prefix ++ match_) turn_num ;;
        let key := key_prefix ++ PyStr.replace_char " " "_" (PyStr.take 20 match_) in
        created <- now ;;
        ret (memories ++ [new_memory mem_id mem_type key (PyStr.strip match_)
                                      turn_num conf created None])%list
      else ret memories) memories) memories.

(** The body of the loop over [commitment_patterns]. *)
Definition commitment_matches (text : string) (turn_num : Z) (memories : list Memory)
    : Clock (list Memory) :=
  for_each Patterns.commitment_patterns (fun pattern memories =>
    let matches := Re.findall (fst pattern) (snd pattern) text in
    for_each matches (fun match_ memories =>
      (* a single group is the string itself, several are joined *)
      let val := PyStr.join " " match_ in
      if 2 <? PyStr.len (PyStr.strip val) then
        mem_id <- _make_memory_id ("commitment_" ++ val) turn_num ;;
        let key := "commitment_" ++ PyStr.of_int (Z.of_nat (length memories)) in
        created <- now ;;
        ret (memories ++ [new_memory mem_id MemoryType.COMMITMENT key (PyStr.strip val)
                                      turn_num 0.75%R created None])%list
      else ret memories) memories) memories.

(** [_extract_with_patterns] *)
Definition _extract_with_patterns (user_msg asst_msg : string) (turn_num : Z)
    : Clock (list Memory) :=
  let memories : list Memory := [] in
  let msg_lower := PyStr.lower user_msg in
  (* Skip short or casual messages *)
  if Z.of_nat (length (PyStr.split user_msg)) <? 5 then ret memories
  else if existsb (fun phrase => PyStr.contains phrase msg_lower) Patterns.boring_phrases
  then ret memories
  else
    let text := msg_lower in
    (* Look for preferences *)
    memories <- single_group_matches Patterns.pref_patterns text 3
                  "pref_" "preference_" MemoryType.PREFERENCE 0.85%R turn_num memories ;;
    (* Look for facts about the user *)
    memories <- single_group_matches Patterns.fact_patterns text 2
                  "fact_" "user_" MemoryType.FACT 0.8%R turn_num memories ;;
    (* Look for commitments/plans *)
    commitment_matches text turn_num memories.

(** [_call_llm]: [None] is the [ValueError] raised without a client.  The
    call itself is a placeholder that answers the empty array. *)
Definition _call_llm (prompt : string) : option string :=
  match llm_client with
  | None => None
  | Some _ => Some "[]"
  end.

(** [_parse_llm_response] *)
Definition _parse_llm_response (response : string) : pyval :=
  match Re.search Patterns.json_array response with
  | Some text =>
      match json_scan text with
      | Some t => json_loads t
      | None => PList []
      end
  | None => PList []
  end.

Definition number (v : pyval) : option R :=
  match v with
  | PFloat x => Some x
  | PInt n => Some (IZR n)
  | _ => None
  end.

(** One iteration of the loop over the parsed items; [None] is an exception
    ([KeyError] for a missing key, [TypeError] for an item that is not a
    dictionary).  The record is typed as the dataclass declares it: an item
    whose [type], [key] or [value] is not a string, or whose [confidence] is
    not a number, has no [Memory] and is counted with the exceptions. *)
Definition memory_of_item (item : pyval) (turn_num : Z) : Clock (option Memory) :=
  match item with
  | PDict d =>
      match dict_get "key" d with
      | Some (PStr k) =>
          mem_id <- _make_memory_id k turn_num ;;
          match dict_get "type" d, dict_get "value" d with
          | Some (PStr t), Some (PStr v) =>
              match number (default (PFloat 0.8%R) (dict_get "confidence" d)) with
              | Some conf =>
                  created <- now ;;
                  let rationale := default (PStr "") (dict_get "rationale" d) in
                  ret (Some (new_memory mem_id t k v turn_num conf created
                                        (Some [("rationale", rationale)])))
              | None => ret None
              end
          | _, _ => ret None
          end
      | _ => ret None
      end
  | _ => ret None
  end.

Fixpoint memories_of_items (items : list pyval) (turn_num : Z) (memories : list Memory)
    : Clock (option (list Memory)) :=
  match items with
  | [] => ret (Some memories)
  | item :: items' =>
      r <- memory_of_item item turn_num ;;
      match r with
      | Some mem => memories_of_items items' turn_num (memories ++ [mem])%list
      | None => ret None
      end
  end.

(** [_extract_with_llm]: any exception inside the [try] falls back to the
    pattern strategy. *)
Definition _extract_with_llm (user_msg asst_msg : string) (turn_num : Z)
    : Clock (list Memory) :=
  let prompt := extraction_prompt user_msg asst_msg in
  r <- match _call_llm prompt with
       | Some response =>
           match _parse_llm_response response with
           | PList extracted => memories_of_items extracted turn_num []
           | _ => ret None
           end
       | None => ret None
       end ;;
  match r with
  | Some memories => ret memories
  | None => _extract_with_patterns user_msg asst_msg turn_num
  end.

(** [extract_memories] *)
Definition extract_memories (user_msg assistant_msg : string) (turn_num : Z)
    (use_llm : bool) : Clock (list Memory) :=
  if use_llm && bool_decide (is_Some llm_client)
  then _extract_with_llm user_msg assistant_msg turn_num
  else _extract_with_patterns user_msg assistant_msg turn_num.

End MemoryExtractor.

(* ===================================================================== *)
(** * memory_storage.py *)
(* ===================================================================== *)

(** A row of the table [memories].  [row_metadata] is the TEXT column with
    the encoded metadata, [row_active] the INTEGER flag. *)
Record Row : Type := mkRow {
  row_memory_id : string;
  row_type : string;
  row_key : string;
  row_value : string;
  row_source_turn : Z;
  row_confidence : R;
  row_created_at : string;
  row_last_accessed_turn : option Z;
  row_access_count : Z;
  row_metadata : option json_text;
  row_active : Z
}.

(** [class MemoryStorage]: the table, in rowid order, and the dict
    [self.embeddings]. *)
Record MemoryStorage : Type := mkStorage {
  memories : list Row;
  embeddings : gmap string (list R)
}.

(** A fresh database. *)
Definition empty_storage : MemoryStorage := mkStorage [] ∅.

Definition has_id (memory_id : string) (r : Row) : bool :=
  String.eqb (row_memory_id r) memory_id.

Definition is_active (r : Row) : bool := row_active r =? 1.

(** [MemoryStorage.save]: [INSERT OR REPLACE] deletes the row that holds the
    primary key, if any, and inserts the new row, which gets the next rowid.
    [json.dumps] raising inside the [try] leaves the table as it was and
    gives [False]. *)
Definition save (st : MemoryStorage) (memory : Memory) : MemoryStorage * bool :=
  let meta_json :=
    match metadata memory with
    | Some ((_ :: _) as d) =>
        match json_dumps (PDict d) with
        | Some t => Some (Some t)
        | None => None
        end
    | _ => Some None
    end in
  match meta_json with
  | None => (st, false)
  | Some meta =>
      let row := mkRow (memory_id memory) (type memory) (key memory) (value memory)
                       (source_turn memory) (confidence memory) (created_at memory)
                       (last_accessed_turn memory) (access_count memory) meta 1 in
      let rows := (List.filter (fun r => negb (has_id (memory_id memory) r)) (memories st)
                   ++ [row])%list in
      let embs := match embedding memory with
                  | Some e => <[memory_id memory := vector e]> (embeddings st)
                  | None => embeddings st
                  end in
      (mkStorage rows embs, true)
  end.

(** [MemoryStorage.save_batch] *)
Fixpoint save_batch (st : MemoryStorage) (mems : list Memory) : MemoryStorage * Z :=
  match mems with
  | [] => (st, 0)
  | mem :: mems' =>
      let (st1, ok) := save st mem in
      let (st2, saved) := save_batch st1 mems' in
      (st2, if ok then saved + 1 else saved)
  end.

(** The [Memory] rebuilt from a row.  A metadata text that does not denote a
    dictionary has no place in the record; [save] writes none. *)
Definition memory_of_row (st : MemoryStorage) (r : Row) : Memory :=
  mkMemory (row_memory_id r) (row_type r) (row_key r) (row_value r)
           (row_source_turn r) (row_confidence r) (row_created_at r)
           (row_last_accessed_turn r) (row_access_count r)
           (ENdarray <$> embeddings st !! row_memory_id r)
           (match row_metadata r with
            | Some t => match json_loads t with PDict d => Some d | _ => None end
            | None => None
            end).

(** [MemoryStorage.get]: [WHERE memory_id = ? AND active = 1] *)
Definition get (st : MemoryStorage) (memory_id : string) : option Memory :=
  memory_of_row st <$>
    List.find (fun r => has_id memory_id r && is_active r) (memories st).

(** [MemoryStorage.get_all].  A dataclass instance is true, so every memory
    [get] finds is kept.  The [SELECT] has no [ORDER BY]; the rows come in
    rowid order. *)
Definition get_all (st : MemoryStorage) (active_only : bool) : list Memory :=
  let ids := map row_memory_id
               (List.filter (fun r => if active_only then is_active r else true)
                       (memories st)) in
  omap (get st) ids.

(** [MemoryStorage.find_by_type] *)
Definition find_by_type (st : MemoryStorage) (mem_type : string) : list Memory :=
  let ids := map row_memory_id
               (List.filter (fun r => String.eqb (row_type r) mem_type && is_active r)
                       (memories st)) in
  omap (get st) ids.

Definition touch (turn_num : Z) (r : Row) : Row :=
  mkRow (row_memory_id r) (row_type r) (row_key r) (row_value r) (row_source_turn r)
        (row_confidence r) (row_created_at r) (Some turn_num) (row_access_count r + 1)
        (row_metadata r) (row_active r).

Definition set_active (a : Z) (r : Row) : Row :=
  mkRow (row_memory_id r) (row_type r) (row_key r) (row_value r) (row_source_turn r)
        (row_confidence r) (row_created_at r) (row_last_accessed_turn r)
        (row_access_count r) (row_metadata r) a.

(** [UPDATE memories SET ... WHERE memory_id = ?] *)
Definition update_where_id (memory_id : string) (f : Row -> Row) (rows : list Row) : list Row :=
  map (fun r => if has_id memory_id r then f r else r) rows.

(** [MemoryStorage.mark_accessed] *)
Definition mark_accessed (st : MemoryStorage) (memory_id : string) (turn_num : Z)
    : MemoryStorage * bool :=
  (mkStorage (update_where_id memory_id (touch turn_num) (memories st)) (embeddings st),
   true).

(** [MemoryStorage.deactivate] *)
Definition deactivate (st : MemoryStorage) (memory_id : string) : MemoryStorage * bool :=
  (mkStorage (update_where_id memory_id (set_active 0) (memories st)) (embeddings st),
   true).

(* ===================================================================== *)
(** * memory_retriever.py *)
(* ===================================================================== *)

Local Open Scope R_scope.

(** Comparisons of floats, as decisions on the reals. *)
#[global] Instance R_eq_decision : EqDecision R := Req_dec_T.
#[global] Instance Rle_decision (x y : R) : Decision (x <= y) := Rle_dec x y.
#[global] Instance Rlt_decision (x y : R) : Decision (x < y) := Rlt_dec x y.

(** [sum(l)] *)
Definition py_sum (l : list R) : R := fold_left Rplus l 0.

(** The weighted average at the end of [_score_relevance]. *)
Definition weighted_average (scores weights : list R) : R :=
  let total_weight := py_sum weights in
  let norm_weights := map (fun w => w / total_weight) weights in
  py_sum (zip_with Rmult scores norm_weights).

(** The same average in the arithmetic of Python's floats. *)
Module Binary64.

(** [sum(l)]: the additions from left to right; adding the first float to
    the integer 0 gives that float. *)
Definition py_sum (l : list float) : float := fold_left PrimFloat.add l 0%float.

Definition weighted_average (scores weights : list float) : float :=
  let total_weight := py_sum weights in
  let norm_weights := map (fun w => (w / total_weight)%float) weights in
  py_sum (zip_with PrimFloat.mul scores norm_weights).

End Binary64.

(** [l[:k]] *)
Definition slice_to {A} (k : Z) (l : list A) : list A :=
  if (k <? 0)%Z then firstn (Z.to_nat (Z.of_nat (length l) + k)) l
  else firstn (Z.to_nat k) l.

(** [scored.sort(key=lambda x: x[1], reverse=True)]: the sort is stable, and
    stays so under [reverse]. *)
Fixpoint insert_desc {A} (x : A * R) (l : list (A * R)) : list (A * R) :=
  match l with
  | [] => [x]
  | y :: l' => if Rlt_dec (snd x) (snd y) then y :: insert_desc x l' else x :: l
  end.

Definition sort_desc {A} (l : list (A * R)) : list (A * R) := foldr insert_desc [] l.

Definition stopwords : list string :=
  [ "the"; "a"; "an"; "and"; "or"; "but"; "in"; "on"; "at";
    "to"; "for"; "of"; "with"; "by"; "from"; "is"; "are"; "was"; "were" ]%string.

Definition in_list (s : string) (l : list string) : bool := existsb (String.eqb s) l.

(** [_tokenize] *)
Definition _tokenize (text : string) : list string :=
  (* re.sub(r'[^\w\s]', ' ', text) *)
  let text := PyStr.str (map (fun c => if PyStr.is_word c || PyStr.is_space c
                                       then c else " "%char)
                             (PyStr.chars text)) in
  let words := PyStr.split text in
  List.filter (fun w => negb (in_list (PyStr.lower w) stopwords)) words.

(** [np.dot] of two vectors; [None] when their shapes differ. *)
Fixpoint np_dot (u v : list R) : option R :=
  match u, v with
  | [], [] => Some 0
  | a :: u', b :: v' => (fun d => a * b + d) <$> np_dot u' v'
  | _, _ => None
  end.

(** [np.linalg.norm] *)
Definition np_norm (u : list R) : R := R_sqrt.sqrt (py_sum (map (fun a => a * a) u)).

Section MemoryRetriever.

(** [self.embedding_model], by its [encode]; [None] from [encode] is an
    exception it raises. *)
Variable embedding_model : option (string -> option (list R)).
(** [self.max_results] *)
Variable max_results : Z.

(** [_keyword_match] *)
Definition _keyword_match (query : string) (mem : Memory) : R :=
  let query_words : gset string := list_to_set (_tokenize (PyStr.lower query)) in
  let mem_words : gset string :=
    list_to_set (_tokenize (PyStr.lower (key mem ++ " " ++ value mem)%string)) in
  if decide (query_words = ∅ ∨ mem_words = ∅) then 0
  else
    (* Jaccard similarity *)
    let overlap := query_words ∩ mem_words in
    let union := query_words ∪ mem_words in
    if decide (union = ∅) then 0 else INR (size overlap) / INR (size union).

(** [_semantic_match] *)
Definition _semantic_match (query : string) (mem : Memory) : R :=
  match embedding mem, embedding_model with
  | Some e, Some encode =>
      match encode query with
      | Some query_vec =>
          let mem_vec := vector e in
          match np_dot query_vec mem_vec with
          | Some dot =>
              let q_norm := np_norm query_vec in
              let m_norm := np_norm mem_vec in
              if decide (q_norm = 0 ∨ m_norm = 0) then 0
              else
                let sim := dot / (q_norm * m_norm) in
                (sim + 1) / 2
          | None => 0
          end
      | None => 0
      end
  | _, _ => 0
  end.

(** [_recency_score] *)
Definition _recency_score (mem : Memory) (current_turn : Z) : R :=
  let turns_ago := (current_turn - source_turn mem)%Z in
  let half_life := 100 in
  let decay := 0.693 / half_life in
  let score := exp (- decay * IZR turns_ago) in
  Rmax 0 (Rmin 1 score).

(** [_frequency_score]; [np.log1p(x)] is [ln (1 + x)]. *)
Definition _frequency_score (mem : Memory) : R :=
  if (access_count mem =? 0)%Z then 0.1
  else Rmin 1 (ln (1 + IZR (access_count mem)) / ln (1 + 20)).

(** [_score_relevance] *)
Definition _score_relevance (mem : Memory) (query : string) (turn : Z) : R :=
  (* Factor 1: Keyword matching (30%) *)
  let kw_score := _keyword_match query mem in
  let scores := [kw_score] in
  let weights := [0.3] in
  (* Factor 2: Semantic similarity if available (30%) *)
  let '(scores, weights) :=
    if bool_decide (is_Some (embedding mem)) && bool_decide (is_Some embedding_model)
    then ((scores ++ [_semantic_match query mem])%list, (weights ++ [0.3])%list)
    else (scores, weights) in
  (* Factor 3: How recent is this memory? (15%) *)
  let scores := (scores ++ [_recency_score mem turn])%list in
  let weights := (weights ++ [0.15])%list in
  (* Factor 4: How often has it been used? (10%) *)
  let scores := (scores ++ [_frequency_score mem])%list in
  let weights := (weights ++ [0.1])%list in
  (* Factor 5: Confidence of extraction (15%) *)
  let scores := (scores ++ [confidence mem])%list in
  let weights := (weights ++ [0.15])%list in
  (* Calculate weighted average *)
  weighted_average scores weights.

(** The filters, the scores, the sort and the cut of [retrieve]. *)
Definition select (all_mems : list Memory) (query : string) (current_turn : Z)
    (filter_types : option (list string)) (min_confidence : R) : list Memory :=
  let all_mems :=
    match filter_types with
    | Some ((_ :: _) as types) => List.filter (fun m => in_list (type m) types) all_mems
    | _ => all_mems
    end in
  let all_mems :=
    List.filter (fun m => bool_decide (min_confidence <= confidence m)) all_mems in
  match all_mems with
  | [] => []
  | _ =>
      let scored := map (fun mem => (mem, _score_relevance mem query current_turn))
                        all_mems in
      let scored := sort_desc scored in
      map fst (List.filter (fun ms => bool_decide (0 < snd ms)) (slice_to max_results scored))
  end.

(** [MemoryRetriever.retrieve]: the memories found and the store after the
    access tracking. *)
Definition retrieve (st : MemoryStorage) (query : string) (current_turn : Z)
    (filter_types : option (list string)) (min_confidence : R)
    : list Memory * MemoryStorage :=
  let top_mems := select (get_all st true) query current_turn filter_types
                         min_confidence in
  (top_mems,
   foldl (fun st mem => fst (mark_accessed st (memory_id mem) current_turn)) st top_mems).

End MemoryRetriever.

Local Close Scope R_scope.

(* ===================================================================== *)
(** * long_form_memory.py *)
(* ===================================================================== *)

(** [self.perf_metrics].  The latency samples are wall-clock differences;
    the lists are kept by their lengths. *)
Record PerfMetrics : Type := mkPerf {
  extraction_times : nat;
  retrieval_times : nat;
  total_extracted : Z;
  total_retrieved : Z
}.

Definition no_metrics : PerfMetrics := mkPerf 0 0 0 0.

(** The state of a [LongFormMemorySystem]. *)
Record LongFormMemorySystem : Type := mkSystem {
  storage : MemoryStorage;
  turn_count : Z;
  history : list ConversationTurn;
  perf_metrics : PerfMetrics
}.

(** The dictionary [process_turn] returns, without its two timings. *)
Record TurnResult : Type := mkResult {
  result_turn_id : Z;
  result_extracted_memories : list Memory;
  result_retrieved_memories : list Memory
}.

Section LongFormMemorySystem.

Variable md5_hexdigest : string -> string.
Variable isoformat_now : nat -> string.
Variable json_scan : string -> option json_text.
(** The arguments of [__init__] *)
Variable llm_client : option unit.
Variable embedding_model : option (string -> option (list R)).
Variable top_k : Z.
Variable auto_extract : bool.

(** [__init__] on the database [st] that [db_path] names; a new file is
    [empty_storage]. *)
Definition init (st : MemoryStorage) : LongFormMemorySystem :=
  mkSystem st 0 [] no_metrics.

(** [retrieve_memories] *)
Definition retrieve_memories (sys : LongFormMemorySystem) (query : string)
    (types : option (list string)) (min_conf : R)
    : list Memory * LongFormMemorySystem :=
  let (mems, st) := retrieve embedding_model top_k (storage sys) query
                             (turn_count sys) types min_conf in
  (mems, mkSystem st (turn_count sys) (history sys) (perf_metrics sys)).

(** [process_turn] *)
Definition process_turn (sys : LongFormMemorySystem) (user_msg : string)
    (assistant_msg : option string) (should_extract : bool)
    : Clock (TurnResult * LongFormMemorySystem) :=
  let sys := mkSystem (storage sys) (turn_count sys + 1) (history sys)
                      (perf_metrics sys) in
  (* Step 1: Retrieve relevant memories *)
  let (relevant_mems, sys) := retrieve_memories sys user_msg None 0.5%R in
  let perf := perf_metrics sys in
  let perf := mkPerf (extraction_times perf) (S (retrieval_times perf))
                     (total_extracted perf) (total_retrieved perf + 1) in
  (* Step 2: Extract new memories if requested *)
  r <-
    (if should_extract && auto_extract then
       (* assistant_msg or "" *)
       let asst := default "" assistant_msg in
       new_mems <- extract_memories md5_hexdigest isoformat_now json_scan llm_client
                     user_msg asst (turn_count sys) false ;;
       (* Save to storage *)
       let (st, saved_count) := save_batch (storage sys) new_mems in
       ret (new_mems, st,
            mkPerf (S (extraction_times perf)) (retrieval_times perf)
                   (total_extracted perf + saved_count) (total_retrieved perf))
     else ret ([], storage sys, perf)) ;;
  let '(new_mems, st, perf) := r in
  (* Record this turn *)
  stamp <- now isoformat_now ;;
  let turn := mkTurn (turn_count sys) user_msg assistant_msg (Some stamp)
                     (Some (map memory_id new_mems))
                     (Some (map memory_id relevant_mems)) in
  ret (mkResult (turn_count sys) new_mems relevant_mems,
       mkSystem st (turn_count sys) (history sys ++ [turn])%list perf).

(** [export_memories].  [writable] tells whether [open(filepath, 'w')]
    succeeds.  The result is the value returned and, when the document was
    written in full, its text. *)
Definition export_memories (sys : LongFormMemorySystem) (writable : bool)
    : Clock (bool * option json_text) :=
  let all_mems := get_all (storage sys) true in
  stamp <- now isoformat_now ;;
  let data := PDict [ ("export_timestamp", PStr stamp);
                      ("total_turns", PInt (turn_count sys));
                      ("memories", PList (map to_dict all_mems)) ] in
  if writable then
    match json_dumps data with
    | Some text => ret (true, Some text)
    | None => ret (false, None)
    end
  else ret (false, None).

(** [reset]: clears the in-memory state, not the database. *)
Definition reset (sys : LongFormMemorySystem) : LongFormMemorySystem :=
  mkSystem (storage sys) 0 [] no_metrics.

End LongFormMemorySystem.


(* ===================================================================== *)
(** * Vocabulary of the statements *)
(* ===================================================================== *)

(** The ids of the rows of the table, in rowid order. *)
Definition row_ids (st : MemoryStorage) : list string := map row_memory_id (memories st).

(** [memory_id] is the primary key of the table. *)
Definition unique_ids (st : MemoryStorage) : Prop := NoDup (row_ids st).

(** The stores that the operations of [MemoryStorage] build from a new
    database. *)
Inductive store_reachable : MemoryStorage -> Prop :=
| store_new : store_reachable empty_storage
| store_save st memory : store_reachable st -> store_reachable (fst (save st memory))
| store_mark_accessed st memory_id turn_num :
    store_reachable st -> store_reachable (fst (mark_accessed st memory_id turn_num))
| store_deactivate st memory_id :
    store_reachable st -> store_reachable (fst (deactivate st memory_id)).


(** The metadata as [save] writes it: an empty dictionary is false and is
    stored as NULL. *)
Definition stored_metadata (m : Memory) : option json_text :=
  match metadata m with
  | Some ((_ :: _) as d) => Some (JsonText (PDict d))
  | _ => None
  end.

Definition metadata_serializable (m : Memory) : Prop :=
  forall d, metadata m = Some d -> json_serializable (PDict d) = true.



(** [0 <= confidence <= 1] *)
Definition confidence_in_range (m : Memory) : Prop := (0 <= confidence m <= 1)%R.


(** The weights divided by their sum, as [_score_relevance] normalizes them. *)
Definition renormalized (weights : list R) : list R :=
  map (fun w => (w / py_sum weights)%R) weights.


(** A memory as the pattern strategy builds it, at a turn: one of the three
    families, with the confidence of the family, no metadata, never
    accessed. *)
Inductive pattern_memory (turn_num : Z) : Memory -> Prop :=
| pattern_preference mem_id key value created :
    pattern_memory turn_num
      (new_memory mem_id MemoryType.PREFERENCE key value turn_num 0.85%R created None)
| pattern_fact mem_id key value created :
    pattern_memory turn_num
      (new_memory mem_id MemoryType.FACT key value turn_num 0.8%R created None)
| pattern_commitment mem_id key value created :
    pattern_memory turn_num
      (new_memory mem_id MemoryType.COMMITMENT key value turn_num 0.75%R created None).

(** The claim on access turns: a row that was accessed was accessed at its
    source turn or later. *)
Definition access_after_source (r : Row) : Prop :=
  forall t, row_last_accessed_turn r = Some t -> row_source_turn r <= t.

(** The rows keep to the turn counter [turn]: none was extracted after it,
    and each one that was accessed was accessed at its source turn or later. *)
Definition rows_within (turn : Z) (rows : list Row) : Prop :=
  Forall (fun r => row_source_turn r <= turn /\ access_after_source r) rows.

(** ** Runs of the system *)

(** The operations of the pipeline. *)
Inductive operation : Type :=
| ProcessTurn (user_msg : string) (assistant_msg : option string) (should_extract : bool)
| RetrieveMemories (query : string) (types : option (list string)) (min_conf : R)
| MarkAccessed (memory_id : string) (turn_num : Z)
| Reset.

Section Runs.

Variable md5_hexdigest : string -> string.
Variable isoformat_now : nat -> string.
Variable json_scan : string -> option json_text.
Variable llm_client : option unit.
Variable embedding_model : option (string -> option (list R)).
Variable top_k : Z.
Variable auto_extract : bool.

(** A system and the number of clock readings made so far. *)
Definition state : Type := LongFormMemorySystem * nat.

Definition apply_operation (op : operation) (s : state) : state :=
  let (sys, n) := s in
  match op with
  | ProcessTurn user_msg assistant_msg should_extract =>
      let (r, n') := process_turn md5_hexdigest isoformat_now json_scan llm_client
                       embedding_model top_k auto_extract sys user_msg assistant_msg
                       should_extract n in
      (snd r, n')
  | RetrieveMemories query types min_conf =>
      (snd (retrieve_memories embedding_model top_k sys query types min_conf), n)
  | MarkAccessed memory_id turn_num =>
      (mkSystem (fst (mark_accessed (storage sys) memory_id turn_num))
                (turn_count sys) (history sys) (perf_metrics sys), n)
  | Reset => (reset sys, n)
  end.

(** The operations of [ops], one after the other. *)
Definition run (ops : list operation) (s : state) : state :=
  foldl (fun s op => apply_operation op s) s ops.

(** The states a system started on a new database reaches as long as its
    turn counter is not reset and [mark_accessed] is called, as [retrieve]
    calls it, with a turn that is not behind the counter. *)
Inductive reachable : state -> Prop :=
| reachable_init (n : nat) :
    reachable (init empty_storage, n)
| reachable_process_turn (s : state) user_msg assistant_msg should_extract :
    reachable s ->
    reachable (apply_operation (ProcessTurn user_msg assistant_msg should_extract) s)
| reachable_retrieve (s : state) query types min_conf :
    reachable s ->
    reachable (apply_operation (RetrieveMemories query types min_conf) s)
| reachable_mark_accessed (s : state) memory_id turn_num :
    reachable s ->
    turn_count (fst s) <= turn_num ->
    reachable (apply_operation (MarkAccessed memory_id turn_num) s).

End Runs.


(* ===================================================================== *)
(** * Sample data *)
(* ===================================================================== *)

Module Samples.

Definition stamp : string := "2025-01-01T10:00:00.000000".

(** A memory as the pattern strategy builds it. *)
Definition m_peanuts : Memory :=
  mkMemory "mem_1a2b3c4d" "fact" "user_peanuts" "peanuts" 2 0.8%R stamp None 0 None None.


(** [Memory(..., embedding=[0.5, 0.25])] *)
Definition m_embedded : Memory :=
  mkMemory "mem_9c0d1e2f" "preference" "preference_kannada" "kannada" 1 0.85%R stamp
           None 0 (Some (EList [0.5%R; 0.25%R])) None.

(** [m_embedded] as the store hands it back. *)
Definition m_embedded_read : Memory :=
  mkMemory "mem_9c0d1e2f" "preference" "preference_kannada" "kannada" 1 0.85%R stamp
           None 0 (Some (ENdarray [0.5%R; 0.25%R])) None.

Definition row_peanuts : Row :=
  mkRow "mem_1a2b3c4d" "fact" "user_peanuts" "peanuts" 2 0.8%R stamp None 0 None 1.

(** [save(m_peanuts)] on a new database *)
Definition st_peanuts : MemoryStorage := fst (save empty_storage m_peanuts).

(** [save(m_peanuts)] and then [deactivate("mem_1a2b3c4d")] *)
Definition st_deactivated : MemoryStorage := fst (deactivate st_peanuts "mem_1a2b3c4d").

(** A system whose store holds [m_embedded]. *)
Definition sys_embedded : LongFormMemorySystem :=
  mkSystem (fst (save empty_storage m_embedded)) 1 [] no_metrics.

(** An environment for the examples: a clock that stands still, a digest
    that is constant (no statement depends on the digest), and a scanner
    that reads the empty array. *)
Definition clock (n : nat) : string := stamp.
Definition digest (s : string) : string := "9e107d9d372bb6826bd81d3542a419d6".
Definition scan (s : string) : option json_text :=
  if String.eqb s "[]" then Some (JsonText (PList [])) else None.

(** A casual message, which the pattern strategy skips. *)
Definition msg_hello : string := "Hello there".

(** A message with one fact in it. *)
Definition msg_peanuts : string := "My doctor says allergic to peanuts daily".

(** Two turns; the second one extracts the fact. *)
Definition ops_two_turns : list operation :=
  [ ProcessTurn msg_hello None true;
    ProcessTurn msg_peanuts None true ].


(** The message of the end-to-end scenario. *)
Definition msg_rajesh : string :=
  "My name is Rajesh and I prefer to communicate in Kannada.".

End Samples.


(* ===================================================================== *)
(** * The rest of the modules *)
(* ===================================================================== *)

From stdpp Require Import sorting.

Local Open Scope string_scope.
Local Open Scope Z_scope.

(** ** memory_model.py: [Memory.from_dict] *)

Definition memory_fields : list string :=
  [ "memory_id"; "type"; "key"; "value"; "source_turn"; "confidence"; "created_at";
    "last_accessed_turn"; "access_count"; "embedding"; "metadata" ].

(** A list of floats, read element by element. *)
Fixpoint numbers (l : list pyval) : option (list R) :=
  match l with
  | [] => Some []
  | v :: l' =>
      match v, numbers l' with
      | PFloat x, Some xs => Some (x :: xs)
      | _, _ => None
      end
  end.

(** [Memory.from_dict], the class applied to the items of [data] as keyword
    arguments.  [None] is the [TypeError] of a key
    that is no field, or of a missing field that has no default; a value
    that is not of the declared type of its field has no [Memory] either. *)
Definition from_dict (data : pyval) : option Memory :=
  match data with
  | PDict d =>
      if forallb (fun kv => in_list (fst kv) memory_fields) d then
        match dict_get "memory_id" d, dict_get "type" d, dict_get "key" d,
              dict_get "value" d, dict_get "source_turn" d, dict_get "confidence" d,
              dict_get "created_at" d with
        | Some (PStr i), Some (PStr t), Some (PStr k), Some (PStr v), Some (PInt s),
          Some (PFloat c), Some (PStr cr) =>
            match
              match dict_get "last_accessed_turn" d with
              | None | Some PNone => Some None
              | Some (PInt n) => Some (Some n)
              | _ => None
              end,
              match dict_get "access_count" d with
              | None => Some 0
              | Some (PInt n) => Some n
              | _ => None
              end,
              match dict_get "embedding" d with
              | None | Some PNone => Some None
              | Some (PList l) => option_map (fun v => Some (EList v)) (numbers l)
              | Some (PNdarray v) => Some (Some (ENdarray v))
              | _ => None
              end,
              match dict_get "metadata" d with
              | None | Some PNone => Some None
              | Some (PDict m) => Some (Some m)
              | _ => None
              end
            with
            | Some la, Some ac, Some e, Some md => Some (mkMemory i t k v s c cr la ac e md)
            | _, _, _, _ => None
            end
        | _, _, _, _, _, _, _ => None
        end
      else None
  | _ => None
  end.

(** ** memory_storage.py: [search_by_key] and [get_stats] *)

(** The [LIKE] of SQLite: [%] stands for any run of characters, [_] for any
    one character, and letters match without regard to case. *)
Fixpoint like (p s : list ascii) {struct p} : bool :=
  match p with
  | [] => match s with [] => true | _ :: _ => false end
  | c :: p' =>
      if Ascii.eqb c "%" then
        (fix any (s : list ascii) : bool :=
           like p' s || match s with [] => false | _ :: s' => any s' end) s
      else
        match s with
        | [] => false
        | d :: s' =>
            (Ascii.eqb c "_" || Ascii.eqb (PyStr.lower_char c) (PyStr.lower_char d))
            && like p' s'
        end
  end.

(** [MemoryStorage.search_by_key]: [WHERE key LIKE '%search_key%' AND active = 1] *)
Definition search_by_key (st : MemoryStorage) (search_key : string) : list Memory :=
  let pattern := PyStr.chars ("%" ++ search_key ++ "%") in
  let ids := map row_memory_id
               (List.filter (fun r => like pattern (PyStr.chars (row_key r)) && is_active r)
                            (memories st)) in
  omap (get st) ids.

(** [round(x, ndigits)] on the reals: the nearest multiple of [10^-ndigits],
    a tie going to the even one. *)
Definition py_round (x : R) (ndigits : nat) : R :=
  let y := (x * 10 ^ ndigits)%R in
  let f := Int_part y in
  let d := (y - IZR f)%R in
  let n := if Rlt_dec d (1 / 2) then f
           else if Rlt_dec (1 / 2) d then f + 1
           else if Z.even f then f else f + 1 in
  (IZR n / 10 ^ ndigits)%R.

(** The dictionary [get_stats] returns. *)
Record StorageStats : Type := mkStats {
  total_memories : Z;
  by_type : gmap string Z;
  average_confidence : R;
  vector_store_size : Z
}.

(** The counts of [GROUP BY type], as a dict *)
Fixpoint count_by_type (rows : list Row) : gmap string Z :=
  match rows with
  | [] => ∅
  | r :: rows' =>
      let counts := count_by_type rows' in
      <[row_type r := default 0 (counts !! row_type r) + 1]> counts
  end.

(** [MemoryStorage.get_stats]; [AVG] of no row is NULL, which [or 0] turns
    into 0. *)
Definition get_stats (st : MemoryStorage) : StorageStats :=
  let active := List.filter is_active (memories st) in
  let total := Z.of_nat (length active) in
  let avg_conf :=
    match active with
    | [] => 0%R
    | _ => (py_sum (map row_confidence active) / IZR total)%R
    end in
  mkStats total (count_by_type active) (py_round avg_conf 3)
          (Z.of_nat (size (embeddings st))).

(** ** memory_retriever.py: [get_by_type] and [get_recent] *)

(** [recent.sort(key=lambda m: m.source_turn, reverse=True)] *)
Fixpoint insert_newest (x : Memory) (l : list Memory) : list Memory :=
  match l with
  | [] => [x]
  | y :: l' =>
      if source_turn x <? source_turn y then y :: insert_newest x l' else x :: l
  end.

Definition sort_newest (l : list Memory) : list Memory := foldr insert_newest [] l.

(** [MemoryRetriever.get_by_type] *)
Definition get_by_type (st : MemoryStorage) (mem_type : string) (current_turn : Z)
    (limit : Z) : list Memory :=
  let mems := find_by_type st mem_type in
  (* Score by recency + confidence *)
  let scored := map (fun m => (m, ((_recency_score m current_turn + confidence m) / 2)%R))
                    mems in
  let scored := sort_desc scored in
  map fst (slice_to limit scored).

(** [MemoryRetriever.get_recent] *)
Definition get_recent (max_results : Z) (st : MemoryStorage) (current_turn : Z)
    (window : Z) : list Memory :=
  let all_mems := get_all st true in
  let start_turn := Z.max 0 (current_turn - window) in
  let recent := List.filter (fun m => start_turn <=? source_turn m) all_mems in
  (* Sort by turn number (newest first) *)
  let recent := sort_newest recent in
  slice_to max_results recent.

(** ** long_form_memory.py: [format_for_prompt] *)

(** The newline *)
Definition nl : string := String "010" EmptyString.

Section FormatForPrompt.

(** [f"{x:.2f}"] *)
Variable format_2f : R -> string.

(** [format_for_prompt] *)
Definition format_for_prompt (memories : list Memory) (style : string) : string :=
  match memories with
  | [] => ""
  | _ =>
      if String.eqb style "natural" then
        let lines :=
          "Based on what I know about you:" ::
          map (fun mem =>
                 if String.eqb (type mem) "preference" then "- You prefer " ++ value mem
                 else if String.eqb (type mem) "fact" then "- " ++ value mem
                 else if String.eqb (type mem) "commitment"
                 then "- You have committed to: " ++ value mem
                 else if String.eqb (type mem) "constraint"
                 then "- Constraint: " ++ value mem
                 else if String.eqb (type mem) "instruction"
                 then "- Standing instruction: " ++ value mem
                 else "- " ++ key mem ++ ": " ++ value mem)
              memories in
        PyStr.join nl lines
      else (* structured *)
        let lines :=
          "Relevant context from conversation:" ::
          imap (fun i mem =>
                  PyStr.of_int (Z.of_nat i + 1) ++ ". [" ++ type mem ++ "] " ++ key mem
                  ++ ": " ++ value mem ++ " " ++
                  "(turn " ++ PyStr.of_int (source_turn mem) ++ ", conf: "
                  ++ format_2f (confidence mem) ++ ")")
               memories in
        PyStr.join nl lines
  end.

End FormatForPrompt.

(** ** Vocabulary of the further statements *)

(** The operations of a store that insert nothing: only [save] brings a
    deactivated id back. *)
Inductive access_operation : Type :=
| AccessMark (memory_id : string) (turn_num : Z)
| AccessDeactivate (memory_id : string).

Definition apply_access (st : MemoryStorage) (op : access_operation) : MemoryStorage :=
  match op with
  | AccessMark i t => fst (mark_accessed st i t)
  | AccessDeactivate i => fst (deactivate st i)
  end.

(** A search key without the wildcards of [LIKE]. *)
Definition no_wildcard (search_key : string) : bool :=
  forallb (fun c => negb (Ascii.eqb c "%") && negb (Ascii.eqb c "_"))
          (PyStr.chars search_key).

(** Whether [json] can encode the metadata, so that [save] succeeds. *)
Definition metadata_encodable (m : Memory) : bool :=
  match metadata m with
  | Some d => json_serializable (PDict d)
  | None => true
  end.

(** Whether [json] can encode the dictionary of a memory: no numpy array as
    its embedding, and metadata it can encode. *)
Definition to_dict_encodable (m : Memory) : bool :=
  match embedding m with
  | Some (ENdarray _) => false
  | _ => true
  end && metadata_encodable m.

(** The mean of a list of floats, 0 for no float: [AVG(...) or 0]. *)
Definition mean (l : list R) : R :=
  match l with
  | [] => 0%R
  | _ => (py_sum l / INR (length l))%R
  end.

(** The memories that pass the two filters of [retrieve]. *)
Definition eligible (all_mems : list Memory) (filter_types : option (list string))
    (min_confidence : R) : list Memory :=
  let all_mems :=
    match filter_types with
    | Some ((_ :: _) as types) => List.filter (fun m => in_list (type m) types) all_mems
    | _ => all_mems
    end in
  List.filter (fun m => bool_decide (min_confidence <= confidence m)%R) all_mems.

(** The order of a list sorted on its scores with [reverse=True]. *)
Definition score_order {A} (x y : A * R) : Prop := (snd y <= snd x)%R.

(** The order of a list sorted on [source_turn] with [reverse=True]. *)
Definition newest_order (x y : Memory) : Prop := source_turn y <= source_turn x.

(** The length of [l[:k]] for a list of [n] elements: a negative [k] counts
    from the end. *)
Definition slice_length (k : Z) (n : nat) : Z :=
  if k <? 0 then Z.max 0 (Z.of_nat n + k) else Z.min k (Z.of_nat n).

(** What every candidate of the pattern strategy looks like, beyond its
    confidence: an id of [mem_] and at most eight characters, one of three
    types, a value of more than two characters, the turn as its source, and
    the defaults of the dataclass elsewhere. *)
Definition candidate_shape (turn_num : Z) (m : Memory) : Prop :=
  PyStr.is_prefix (PyStr.chars "mem_") (PyStr.chars (memory_id m)) = true /\
  (String.length (memory_id m) <= 12)%nat /\
  In (type m) [MemoryType.PREFERENCE; MemoryType.FACT; MemoryType.COMMITMENT] /\
  2 < PyStr.len (value m) /\
  source_turn m = turn_num /\
  last_accessed_turn m = None /\ access_count m = 0 /\
  embedding m = None /\ metadata m = None.

(** The keys of the commitments number the candidates: a commitment at
    position [i] of the list has the key [commitment_i]. *)
Definition commitments_numbered (mems : list Memory) : Prop :=
  forall (i : nat) (m : Memory),
    mems !! i = Some m -> type m = MemoryType.COMMITMENT ->
    key m = "commitment_" ++ PyStr.of_int (Z.of_nat i).

(** The counters of a system agree with its history: the turn counter is
    the number of recorded turns, the turns are numbered from 1 in order,
    each turn made one retrieval, and at most one extraction. *)
Definition counters_agree (sys : LongFormMemorySystem) : Prop :=
  turn_count sys = Z.of_nat (length (history sys)) /\
  map turn_id (history sys) = map Z.of_nat (seq 1 (length (history sys))) /\
  total_retrieved (perf_metrics sys) = turn_count sys /\
  retrieval_times (perf_metrics sys) = length (history sys) /\
  (extraction_times (perf_metrics sys) <= length (history sys))%nat.

Definition in_unit_interval (x : R) : Prop := (0 <= x <= 1)%R.

(** A list of memories in the order of [retrieve]: no score below the next. *)
Fixpoint scores_descend (scores : list R) : Prop :=
  match scores with
  | x :: ((y :: _) as rest) => (y <= x)%R /\ scores_descend rest
  | _ => True
  end.

(** Newest first. *)
Fixpoint turns_descend (turns : list Z) : Prop :=
  match turns with
  | x :: ((y :: _) as rest) => y <= x /\ turns_descend rest
  | _ => True
  end.

(** More sample data. *)
Module MoreSamples.

Definition m_tea : Memory :=
  mkMemory "mem_0badcafe" "preference" "preference_green_tea" "green tea" 5 0.85%R
           Samples.stamp (Some 7) 3 (Some (EList [1%R; 0%R]))
           (Some [("rationale", PStr "stated")]).

(** A memory whose metadata [json] cannot encode. *)
Definition m_unencodable : Memory :=
  mkMemory "mem_deadbeef" "fact" "user_x" "x" 1 0.8%R Samples.stamp None 0 None
           (Some [("vector", PNdarray [1%R])]).

(** A new record for the id of [Samples.m_embedded], without embedding. *)
Definition m_kannada_again : Memory :=
  mkMemory "mem_9c0d1e2f" "preference" "preference_kannada" "kannada, always" 9 0.85%R
           Samples.stamp None 0 None None.

(** [save(m_embedded)] on a new database *)
Definition st_embedded : MemoryStorage := fst (save empty_storage Samples.m_embedded).

(** [save(m_peanuts)], then [save(m_tea)] *)
Definition st_two : MemoryStorage := fst (save Samples.st_peanuts m_tea).

End MoreSamples.
(* ===================================================================== *)
(** * Properties of the store *)
(* ===================================================================== *)


Lemma has_id_true (i : string) (r : Row) : has_id i r = true <-> row_memory_id r = i.
Proof. unfold has_id. apply String.eqb_eq. Qed.

Lemma has_id_false (i : string) (r : Row) : has_id i r = false <-> row_memory_id r <> i.
Proof. unfold has_id. apply String.eqb_neq. Qed.

Lemma has_id_self (r : Row) : has_id (row_memory_id r) r = true.
Proof. apply has_id_true. reflexivity. Qed.


Lemma touch_id (t : Z) (r : Row) : row_memory_id (touch t r) = row_memory_id r.
Proof. reflexivity. Qed.

Lemma set_active_id (a : Z) (r : Row) : row_memory_id (set_active a r) = row_memory_id r.
Proof. reflexivity. Qed.

Section UpdateWhereId.

Variable f : Row -> Row.
Hypothesis f_id : forall r, row_memory_id (f r) = row_memory_id r.

Lemma update_where_id_ids (i : string) (rows : list Row) :
  map row_memory_id (update_where_id i f rows) = map row_memory_id rows.
Proof using f_id.
  induction rows as [|r rows IH]; simpl; [reflexivity|].
  rewrite IH. destruct (has_id i r); [rewrite f_id|]; reflexivity.
Qed.


Lemma update_where_id_In (i : string) (rows : list Row) (r : Row) :
  In r rows -> row_memory_id r = i -> In (f r) (update_where_id i f rows).
Proof.
  intros Hin Hid. unfold update_where_id.
  apply in_map_iff. exists r. split; [|assumption].
  apply has_id_true in Hid. rewrite Hid. reflexivity.
Qed.


End UpdateWhereId.


(** A lookup by id finds nothing when every row of that id fails the test. *)
Lemma find_all_rejected (i : string) (p : Row -> bool) (rows : list Row) :
  (forall r, In r rows -> row_memory_id r = i -> p r = false) ->
  List.find (fun r => has_id i r && p r) rows = None.
Proof.
  induction rows as [|r rows IH]; simpl; intros H; [reflexivity|].
  destruct (has_id i r) eqn:E; simpl.
  - apply has_id_true in E. rewrite (H r); auto.
  - apply IH. intros r' Hin. apply H. auto.
Qed.

(** Under the primary key, a lookup by id finds the row that carries it. *)
Lemma find_unique (rows : list Row) (r : Row) (p : Row -> bool) :
  NoDup (map row_memory_id rows) -> In r rows -> p r = true ->
  List.find (fun r' => has_id (row_memory_id r) r' && p r') rows = Some r.
Proof.
  induction rows as [|r0 rows IH]; simpl; intros Hnd Hin Hp; [tauto|].
  apply NoDup_cons in Hnd as [Hni Hnd].
  destruct Hin as [->|Hin].
  - rewrite has_id_self, Hp. reflexivity.
  - destruct (has_id (row_memory_id r) r0) eqn:E.
    + apply has_id_true in E. exfalso. apply Hni. rewrite E.
      apply list_elem_of_In, in_map. assumption.
    + simpl. apply IH; assumption.
Qed.







(** ** The primary key *)

Lemma empty_unique_ids : unique_ids empty_storage.
Proof. apply NoDup_nil_2. Qed.

Lemma mark_accessed_unique_ids (st : MemoryStorage) (i : string) (t : Z) :
  unique_ids st -> unique_ids (fst (mark_accessed st i t)).
Proof.
  unfold unique_ids, row_ids. simpl. rewrite update_where_id_ids by apply touch_id. auto.
Qed.

Lemma deactivate_unique_ids (st : MemoryStorage) (i : string) :
  unique_ids st -> unique_ids (fst (deactivate st i)).
Proof.
  unfold unique_ids, row_ids. simpl.
  rewrite update_where_id_ids by apply set_active_id. auto.
Qed.

Lemma filter_other_ids (i : string) (rows : list Row) :
  NoDup (map row_memory_id rows) ->
  NoDup (map row_memory_id (List.filter (fun r => negb (has_id i r)) rows)) /\
  ~ In i (map row_memory_id (List.filter (fun r => negb (has_id i r)) rows)).
Proof.
  induction rows as [|r rows IH]; simpl; intros Hnd.
  - split; [apply NoDup_nil_2 | tauto].
  - apply NoDup_cons in Hnd as [Hni Hnd]. destruct (IH Hnd) as [IH1 IH2].
    destruct (has_id i r) eqn:E; simpl; [split; assumption|].
    split.
    + apply NoDup_cons. split; [|exact IH1].
      intros Hin. apply Hni. apply list_elem_of_In in Hin. apply list_elem_of_In.
      apply in_map_iff in Hin as (r' & Hid & Hr'). apply filter_In in Hr' as [Hr' _].
      apply in_map_iff. exists r'. split; assumption.
    + intros [Hid | Hin]; [|exact (IH2 Hin)].
      apply has_id_false in E. exact (E Hid).
Qed.

(** [INSERT OR REPLACE] keeps the primary key. *)
Lemma save_unique_ids (st : MemoryStorage) (m : Memory) :
  unique_ids st -> unique_ids (fst (save st m)).
Proof.
  intros Hu. unfold save.
  destruct (match metadata m with
            | Some ((_ :: _) as d) => _
            | _ => Some None
            end) as [meta|]; [|exact Hu].
  unfold unique_ids, row_ids. simpl. rewrite map_app. simpl.
  destruct (filter_other_ids (memory_id m) (memories st) Hu) as [H1 H2].
  apply NoDup_app. split; [exact H1|]. split; [|apply NoDup_singleton].
  intros x Hx Hx'. apply list_elem_of_In in Hx. apply list_elem_of_In in Hx'.
  destruct Hx' as [<- | []]. exact (H2 Hx).
Qed.

(** Every store built from a new database keeps the primary key. *)
Lemma store_reachable_unique_ids (st : MemoryStorage) :
  store_reachable st -> unique_ids st.
Proof.
  induction 1 as [| st m _ IH | st i t _ IH | st i _ IH].
  - apply empty_unique_ids.
  - apply save_unique_ids, IH.
  - apply mark_accessed_unique_ids, IH.
  - apply deactivate_unique_ids, IH.
Qed.

(** ** Soft deletion *)

Lemma get_inactive (st : MemoryStorage) (i : string) :
  (forall r, In r (memories st) -> row_memory_id r = i -> row_active r = 0) ->
  get st i = None.
Proof.
  intros H. unfold get. rewrite find_all_rejected; [reflexivity|].
  intros r Hin Hid. unfold is_active. rewrite (H r Hin Hid). reflexivity.
Qed.

Lemma get_active_row (st : MemoryStorage) (r : Row) :
  unique_ids st -> In r (memories st) -> is_active r = true ->
  get st (row_memory_id r) = Some (memory_of_row st r).
Proof.
  intros Hu Hin Ha. unfold get. rewrite (find_unique _ r); auto.
Qed.

(** Under the primary key, [get_all(active_only=True)] is the list of the
    active rows, each rebuilt as a [Memory]. *)
Lemma get_all_active (st : MemoryStorage) :
  unique_ids st ->
  get_all st true = map (memory_of_row st) (List.filter is_active (memories st)).
Proof.
  intros Hu. unfold get_all.
  assert (H : forall rows, (forall r, In r rows -> In r (memories st) /\ is_active r = true) ->
            omap (get st) (map row_memory_id rows) = map (memory_of_row st) rows).
  { induction rows as [|r rows IH]; intros Hrows; [reflexivity|].
    simpl. destruct (Hrows r (or_introl eq_refl)) as [Hin Ha].
    rewrite (get_active_row st r Hu Hin Ha). simpl. f_equal.
    apply IH. intros r' Hr'. apply Hrows. right. exact Hr'. }
  apply H. intros r Hr. apply filter_In in Hr. exact Hr.
Qed.

Lemma get_all_ids (st : MemoryStorage) (m : Memory) (active_only : bool) :
  In m (get_all st active_only) -> get st (memory_id m) = Some m.
Proof.
  unfold get_all. intros Hin.
  apply list_elem_of_In, list_elem_of_omap in Hin as (i & _ & Hget).
  assert (memory_id m = i) as ->; [|exact Hget].
  unfold get in Hget. destruct (List.find _ _) as [r|] eqn:E; [|discriminate].
  apply find_some in E as [_ E]. apply andb_prop in E as [E _].
  apply has_id_true in E. simpl in Hget. injection Hget as <-. exact E.
Qed.

(** Under the primary key a row is determined by its id. *)
Lemma unique_row (rows : list Row) (r r' : Row) :
  NoDup (map row_memory_id rows) -> In r rows -> In r' rows ->
  row_memory_id r = row_memory_id r' -> r = r'.
Proof.
  induction rows as [|r0 rows IH]; simpl; intros Hnd Hr Hr' Hid; [tauto|].
  apply NoDup_cons in Hnd as [Hni Hnd].
  destruct Hr as [->|Hr], Hr' as [->|Hr']; auto.
  - exfalso. apply Hni. rewrite Hid. apply list_elem_of_In, in_map, Hr'.
  - exfalso. apply Hni. rewrite <- Hid. apply list_elem_of_In, in_map, Hr.
Qed.



(** ** Saving and reading back *)

Lemma find_replaced (i : string) (rows : list Row) (row : Row) :
  row_memory_id row = i -> is_active row = true ->
  List.find (fun r => has_id i r && is_active r)
            (List.filter (fun r => negb (has_id i r)) rows ++ [row]) = Some row.
Proof.
  intros Hid Ha. induction rows as [|r rows IH]; simpl.
  - apply has_id_true in Hid. rewrite Hid, Ha. reflexivity.
  - destruct (has_id i r) eqn:E; simpl; [exact IH|].
    rewrite E. simpl. exact IH.
Qed.


Lemma save_ok (st : MemoryStorage) (m : Memory) :
  metadata_serializable m ->
  save st m =
  (mkStorage
     (List.filter (fun r => negb (has_id (memory_id m) r)) (memories st) ++
      [mkRow (memory_id m) (type m) (key m) (value m) (source_turn m) (confidence m)
             (created_at m) (last_accessed_turn m) (access_count m)
             (stored_metadata m) 1])
     (match embedding m with
      | Some e => <[memory_id m := vector e]> (embeddings st)
      | None => embeddings st
      end),
   true).
Proof.
  intros Hs. unfold save, stored_metadata.
  destruct (metadata m) as [[|kv d]|] eqn:E; try reflexivity.
  unfold json_dumps. rewrite (Hs _ E). reflexivity.
Qed.

(** [save] returns [True] exactly when [json] can encode the metadata;
    otherwise it leaves the store as it was. *)
Lemma save_true_serializable (st : MemoryStorage) (m : Memory) :
  snd (save st m) = true -> metadata_serializable m.
Proof.
  unfold save, metadata_serializable, json_dumps. intros H d Hd. rewrite Hd in H.
  destruct d as [|kv d]; [reflexivity|].
  destruct (json_serializable (PDict (kv :: d))); [reflexivity | discriminate].
Qed.

Lemma save_unencodable (st : MemoryStorage) (m : Memory) :
  ~ metadata_serializable m -> save st m = (st, false).
Proof.
  intros H. destruct (save st m) as [st' ok] eqn:E. destruct ok.
  - exfalso. apply H, (save_true_serializable st). rewrite E. reflexivity.
  - unfold save, json_dumps in E.
    destruct (metadata m) as [[|kv d]|]; try discriminate.
    destruct (json_serializable (PDict (kv :: d))); [discriminate|].
    injection E as <-. reflexivity.
Qed.




(** ** Exporting *)

Lemma get_all_embedding (st : MemoryStorage) (m : Memory) (active_only : bool) :
  In m (get_all st active_only) ->
  embedding m = ENdarray <$> embeddings st !! memory_id m.
Proof.
  intros Hin. apply get_all_ids in Hin. unfold get in Hin.
  destruct (List.find _ _) as [r|]; [|discriminate].
  simpl in Hin. injection Hin as <-. reflexivity.
Qed.

Lemma to_dict_ndarray (m : Memory) (v : list R) :
  embedding m = Some (ENdarray v) -> json_serializable (to_dict m) = false.
Proof.
  intros E. unfold to_dict. rewrite E. simpl.
  destruct (opt_int (last_accessed_turn m)) eqn:El;
    destruct (last_accessed_turn m); try discriminate; reflexivity.
Qed.

Lemma forallb_false_In {A} (p : A -> bool) (l : list A) (x : A) :
  In x l -> p x = false -> forallb p l = false.
Proof.
  intros Hin Hp. destruct (forallb p l) eqn:E; [|reflexivity].
  rewrite forallb_forall in E. rewrite (E x Hin) in Hp. discriminate.
Qed.

(** [Memory.to_json], unlike the export, sets the embedding of the record
    to [None] before it encodes it. *)
Lemma to_json_nulls_embedding (m : Memory) :
  metadata_serializable m ->
  exists d, to_json m = Some (JsonText (PDict d)) /\ dict_get "embedding" d = Some PNone.
Proof.
  intros Hs. unfold to_json, to_dict. simpl. unfold json_dumps.
  eexists. split.
  - replace (json_serializable _) with true; [reflexivity|].
    symmetry. simpl. destruct (metadata m) as [d|] eqn:E.
    + rewrite (Hs d E). destruct (last_accessed_turn m); reflexivity.
    + destruct (last_accessed_turn m); reflexivity.
  - reflexivity.
Qed.

(** C1 at its failing input: when an active memory has an embedding in the
    side-table, [export_memories] returns [False] although the file can be
    written: [to_dict] leaves the numpy array in the record, and [json.dump]
    raises on it. *)
Theorem export_fails_on_embedding (isoformat_now : nat -> string)
    (sys : LongFormMemorySystem) (m : Memory) (n : nat) :
  In m (get_all (storage sys) true) ->
  is_Some (embeddings (storage sys) !! memory_id m) ->
  dict_get "embedding" (match to_dict m with PDict d => d | _ => [] end) <> Some PNone /\
  fst (export_memories isoformat_now sys true n) = (false, None).
Proof.
  intros Hin [v Hv].
  assert (E : embedding m = Some (ENdarray v)).
  { rewrite (get_all_embedding _ _ _ Hin), Hv. reflexivity. }
  split.
  - unfold to_dict. rewrite E. simpl. discriminate.
  - unfold export_memories, bind, now, ret. simpl.
    unfold json_dumps.
    replace (json_serializable _) with false; [reflexivity|].
    symmetry. simpl. rewrite andb_true_r.
    apply (forallb_false_In _ _ (to_dict m)).
    + apply in_map. exact Hin.
    + apply (to_dict_ndarray m v E).
Qed.

(** When no exported memory carries an embedding and each record can be
    encoded, the export succeeds and every record has a null embedding. *)
Lemma export_without_embeddings (isoformat_now : nat -> string)
    (sys : LongFormMemorySystem) (n : nat) :
  (forall m, In m (get_all (storage sys) true) ->
             embedding m = None /\ metadata_serializable m) ->
  exists records,
    fst (export_memories isoformat_now sys true n) =
      (true, Some (JsonText (PDict [ ("export_timestamp", PStr (isoformat_now n));
                                     ("total_turns", PInt (turn_count sys));
                                     ("memories", PList records) ]))) /\
    records = map to_dict (get_all (storage sys) true) /\
    Forall (fun rec => exists d, rec = PDict d /\ dict_get "embedding" d = Some PNone)
           records.
Proof.
  intros H. eexists. split; [|split; [reflexivity|]].
  - unfold export_memories, bind, now, ret. simpl. unfold json_dumps.
    replace (json_serializable _) with true; [reflexivity|].
    symmetry. simpl. rewrite andb_true_r. apply forallb_forall.
    intros rec Hrec. apply in_map_iff in Hrec as (m & <- & Hm).
    destruct (H m Hm) as [He Hmeta]. unfold to_dict. rewrite He.
    destruct (metadata m) as [d|] eqn:Ed.
    + specialize (Hmeta d Ed). simpl in *. rewrite Hmeta.
      destruct (last_accessed_turn m); reflexivity.
    + simpl. destruct (last_accessed_turn m); reflexivity.
  - apply Forall_forall. intros rec Hrec.
    apply list_elem_of_In, in_map_iff in Hrec as (m & <- & Hm).
    destruct (H m Hm) as [He _]. eexists. split; [reflexivity|].
    rewrite He. reflexivity.
Qed.

Lemma export_fails_on_embedding_witness :
  dict_get "embedding" (match to_dict Samples.m_embedded_read with PDict d => d | _ => [] end)
    <> Some PNone /\
  fst (export_memories (fun _ => Samples.stamp) Samples.sys_embedded true 0%nat) = (false, None).
Proof.
  apply (export_fails_on_embedding (fun _ => Samples.stamp) Samples.sys_embedded
           Samples.m_embedded_read 0%nat).
  - left. reflexivity.
  - eexists. reflexivity.
Defined.

(* ===================================================================== *)
(** * Properties of the extractor *)
(* ===================================================================== *)

(** What holds of the loop state before a [for] loop holds after it, when
    every run of the body keeps it, whatever the clock reads. *)
Lemma for_each_invariant {A S} (I : S -> Prop) (body : A -> S -> Clock S) (xs : list A) :
  (forall x s n, I s -> I (fst (body x s n))) ->
  forall s n, I s -> I (fst (for_each xs body s n)).
Proof.
  intros Hbody. induction xs as [|x xs IH]; intros s n Hs; simpl.
  - exact Hs.
  - unfold bind. specialize (Hbody x s n Hs).
    destruct (body x s n) as [s' n']. apply IH. exact Hbody.
Qed.

Section PatternStrategy.

Variable md5_hexdigest : string -> string.
Variable isoformat_now : nat -> string.

Lemma single_group_matches_shape (P : Memory -> Prop) (patterns : list Re.regex)
    (text : string) (min_len : Z) (id_prefix key_prefix mem_type : string) (conf : R)
    (turn_num : Z) (memories : list Memory) (n : nat) :
  (forall mem_id key value created,
      P (new_memory mem_id mem_type key value turn_num conf created None)) ->
  Forall P memories ->
  Forall P
    (fst (single_group_matches md5_hexdigest isoformat_now patterns text min_len
            id_prefix key_prefix mem_type conf turn_num memories n)).
Proof.
  intros HP. revert memories n. unfold single_group_matches.
  apply for_each_invariant. intros pattern mems n.
  apply for_each_invariant. clear mems n. intros match_ mems n Hmems.
  destruct (min_len <? PyStr.len (PyStr.strip match_)); [|exact Hmems].
  unfold bind, _make_memory_id, now, ret, bind. simpl.
  apply Forall_app. split; [exact Hmems|].
  apply Forall_cons. split; [apply HP | apply Forall_nil_2].
Qed.

Lemma commitment_matches_shape (P : Memory -> Prop) (text : string) (turn_num : Z)
    (memories : list Memory) (n : nat) :
  (forall mem_id key value created,
      P (new_memory mem_id MemoryType.COMMITMENT key value turn_num 0.75%R created None)) ->
  Forall P memories ->
  Forall P (fst (commitment_matches md5_hexdigest isoformat_now text turn_num memories n)).
Proof.
  intros HP. revert memories n. unfold commitment_matches.
  apply for_each_invariant. intros pattern mems n.
  apply for_each_invariant. clear mems n. intros match_ mems n Hmems.
  destruct (2 <? PyStr.len (PyStr.strip (PyStr.join " " match_))); [|exact Hmems].
  unfold bind, _make_memory_id, now, ret, bind. simpl.
  apply Forall_app. split; [exact Hmems|].
  apply Forall_cons. split; [apply HP | apply Forall_nil_2].
Qed.

(** Every candidate of the pattern strategy is a [pattern_memory] of the
    turn. *)
Lemma extract_with_patterns_shape (user_msg asst_msg : string) (turn_num : Z) (n : nat) :
  Forall (pattern_memory turn_num)
    (fst (_extract_with_patterns md5_hexdigest isoformat_now user_msg asst_msg turn_num n)).
Proof.
  unfold _extract_with_patterns.
  destruct (_ <? 5); [apply Forall_nil_2|].
  destruct (existsb _ _); [apply Forall_nil_2|].
  unfold bind at 1.
  pose proof (single_group_matches_shape (pattern_memory turn_num) Patterns.pref_patterns
                (PyStr.lower user_msg) 3 "pref_" "preference_" MemoryType.PREFERENCE
                0.85%R turn_num [] n (pattern_preference turn_num) (Forall_nil_2 _)) as H1.
  destruct (single_group_matches _ _ Patterns.pref_patterns _ _ _ _ _ _ _ _ _) as [mems1 n1].
  unfold bind at 1.
  pose proof (single_group_matches_shape (pattern_memory turn_num) Patterns.fact_patterns
                (PyStr.lower user_msg) 2 "fact_" "user_" MemoryType.FACT
                0.8%R turn_num mems1 n1 (pattern_fact turn_num) H1) as H2.
  destruct (single_group_matches _ _ Patterns.fact_patterns _ _ _ _ _ _ _ _ _) as [mems2 n2].
  apply commitment_matches_shape; [apply pattern_commitment | exact H2].
Qed.

End PatternStrategy.

Lemma pattern_memory_confidence (turn_num : Z) (m : Memory) :
  pattern_memory turn_num m -> confidence_in_range m.
Proof.
  intros []; unfold confidence_in_range; simpl; lra.
Qed.

Section ExtractionConfidence.

Variable md5_hexdigest : string -> string.
Variable isoformat_now : nat -> string.
Variable json_scan : string -> option json_text.
Variable llm_client : option unit.

(** [json.loads("[]") == []] *)
Hypothesis json_scan_empty_array : json_scan "[]" = Some (JsonText (PList [])).

Lemma extract_with_patterns_confidence (user_msg asst_msg : string) (turn_num : Z) (n : nat) :
  Forall confidence_in_range
    (fst (_extract_with_patterns md5_hexdigest isoformat_now user_msg asst_msg turn_num n)).
Proof.
  eapply Forall_impl; [apply extract_with_patterns_shape|].
  apply pattern_memory_confidence.
Qed.

(** The placeholder [_call_llm] answers the empty array, so the
    external-model strategy produces no candidate. *)
Lemma extract_with_llm_empty (client : unit) (user_msg asst_msg : string)
    (turn_num : Z) (n : nat) :
  llm_client = Some client ->
  _extract_with_llm md5_hexdigest isoformat_now json_scan llm_client
    user_msg asst_msg turn_num n = ([], n).
Proof.
  intros Hc. unfold _extract_with_llm, _call_llm. rewrite Hc.
  unfold _parse_llm_response.
  replace (Re.search Patterns.json_array "[]") with (Some "[]") by (vm_compute; reflexivity).
  rewrite json_scan_empty_array. reflexivity.
Qed.

(** C2: every candidate that [extract_memories] produces, on the
    external-model strategy and on the pattern strategy, for every text, turn
    and reading of the clock, has [0 <= confidence <= 1]. *)
Theorem extract_memories_confidence (user_msg assistant_msg : string) (turn_num : Z)
    (use_llm : bool) (n : nat) :
  Forall confidence_in_range
    (fst (extract_memories md5_hexdigest isoformat_now json_scan llm_client
            user_msg assistant_msg turn_num use_llm n)).
Proof.
  unfold extract_memories.
  destruct (use_llm && bool_decide (is_Some llm_client)) eqn:E.
  - apply andb_prop in E as [_ E]. apply bool_decide_eq_true in E as [client Hc].
    rewrite (extract_with_llm_empty client _ _ _ _ Hc). apply Forall_nil_2.
  - apply extract_with_patterns_confidence.
Qed.

End ExtractionConfidence.

Lemma extract_memories_confidence_witness :
  Forall confidence_in_range
    (fst (extract_memories Samples.digest Samples.clock Samples.scan None
            Samples.msg_rajesh "" 1 true 0%nat)).
Proof.
  apply (extract_memories_confidence Samples.digest Samples.clock Samples.scan None).
  reflexivity.
Defined.

(** The end-to-end scenario of the specification: the message yields two
    preferences and one fact, with the confidence of their families,
    whatever the digest and the clock. *)
Example extract_rajesh (md5_hexdigest : string -> string) (isoformat_now : nat -> string)
    (n : nat) :
  map (fun m => (type m, key m, value m, confidence m))
      (fst (_extract_with_patterns md5_hexdigest isoformat_now Samples.msg_rajesh "" 1 n)) =
  [ ("preference", "preference_communicate_in_kanna", "communicate in kannada", 0.85%R);
    ("preference", "preference_kannada", "kannada", 0.85%R);
    ("fact", "user_rajesh_and_i_prefer_",
     "rajesh and i prefer to communicate in kannada", 0.8%R) ].
Proof. vm_compute. reflexivity. Qed.

(** The matcher on the patterns of the code: lazy and greedy repetition,
    alternation, [$], and a pattern with two groups. *)
Example findall_preferences :
  map (fun p => Re.findall1 p
                  "i always drink coffee, never tea. my language is english and i speak french")
      Patterns.pref_patterns =
  [ []; ["drink coffee"; "tea"]; ["english"; "french"] ].
Proof. vm_compute. reflexivity. Qed.

Example findall_facts :
  map (fun p => Re.findall1 p
                  "i'm a senior software engineer and i work at acme corp from berlin")
      Patterns.fact_patterns =
  [ ["a senior software engineer and i work at acme corp from berlin"];
    ["berlin"]; ["acme corp from berlin"]; []; [] ].
Proof. vm_compute. reflexivity. Qed.

Example findall_commitments :
  map (fun p => Re.findall (fst p) (snd p)
                  "every monday we have a team call at 10 am and each friday lunch 12pm")
      Patterns.commitment_patterns =
  [ [["10 am"]]; [["monday"; "10 am"]; ["friday"; "12pm"]]; [] ].
Proof. vm_compute. reflexivity. Qed.

(** A message of fewer than five words, or with a phrase of the stoplist,
    yields no candidate. *)
Example extract_short_or_boring (md5_hexdigest : string -> string)
    (isoformat_now : nat -> string) (n : nat) :
  fst (_extract_with_patterns md5_hexdigest isoformat_now "I am Bob Smith" "" 1 n) = [] /\
  fst (_extract_with_patterns md5_hexdigest isoformat_now
         "Thanks, my name is Bob and I live in Berlin" "" 1 n) = [].
Proof. split; reflexivity. Qed.

(** The conversion of a parsed item does not clamp: were the model to answer
    an item with confidence 7, the memory would carry 7.  The bound on the
    external-model strategy rests on the placeholder in [_call_llm]. *)
Example memory_of_item_unclamped (md5_hexdigest : string -> string)
    (isoformat_now : nat -> string) (n : nat) :
  option_map confidence
    (fst (memory_of_item md5_hexdigest isoformat_now
            (PDict [("type", PStr "fact"); ("key", PStr "k"); ("value", PStr "v");
                    ("confidence", PInt 7)]) 1 n)) = Some 7%R.
Proof. reflexivity. Qed.

(* ===================================================================== *)
(** * Properties of the score *)
(* ===================================================================== *)

Local Open Scope R_scope.

Lemma fold_left_Rplus_acc (l : list R) (a : R) :
  fold_left Rplus l a = a + fold_left Rplus l 0.
Proof.
  revert a. induction l as [|x l IH]; intros a; simpl; [lra|].
  rewrite (IH (a + x)), (IH (0 + x)). lra.
Qed.

Lemma py_sum_cons (x : R) (l : list R) : py_sum (x :: l) = x + py_sum l.
Proof.
  unfold py_sum. simpl. rewrite fold_left_Rplus_acc. lra.
Qed.

Lemma py_sum_nil : py_sum [] = 0.
Proof. reflexivity. Qed.

Lemma py_sum_scaled (l : list R) (t : R) :
  py_sum (map (fun w => w / t) l) = py_sum l / t.
Proof.
  induction l as [|x l IH]; simpl.
  - rewrite py_sum_nil. unfold Rdiv. lra.
  - rewrite !py_sum_cons, IH. unfold Rdiv. lra.
Qed.

(** Weights that do not sum to zero sum to one once renormalized. *)
Lemma renormalized_sum (weights : list R) :
  py_sum weights <> 0 -> py_sum (renormalized weights) = 1.
Proof.
  intros H. unfold renormalized. rewrite py_sum_scaled. field. exact H.
Qed.

(** Without the semantic factor the lists of [_score_relevance] hold the
    four other factors and their weights. *)
Lemma score_relevance_four_factors (embedding_model : option (string -> option (list R)))
    (mem : Memory) (query : string) (turn : Z) :
  embedding mem = None \/ embedding_model = None ->
  _score_relevance embedding_model mem query turn =
  weighted_average [ _keyword_match query mem; _recency_score mem turn;
                     _frequency_score mem; confidence mem ]
                   [0.3; 0.15; 0.1; 0.15].
Proof.
  intros Hno. unfold _score_relevance.
  replace (bool_decide (is_Some (embedding mem)) && bool_decide (is_Some embedding_model))
    with false; [reflexivity|].
  symmetry. apply andb_false_iff.
  destruct Hno as [-> | ->]; [left | right];
    apply bool_decide_eq_false; intros [x Hx]; discriminate.
Qed.

(** C5: when the memory has no embedding or no embedding model is
    configured, the score is the sum of the four remaining factors, each
    times its weight divided by the sum of the remaining weights, and these
    renormalized weights add up to 1; the weighted average of the scores 1.0
    and 0.0 under the weights 0.3 and 0.7 is 0.3. *)
Theorem score_without_semantic (embedding_model : option (string -> option (list R)))
    (mem : Memory) (query : string) (turn : Z) :
  embedding mem = None \/ embedding_model = None ->
  let factors := [ _keyword_match query mem; _recency_score mem turn;
                   _frequency_score mem; confidence mem ] in
  let weights := renormalized [0.3; 0.15; 0.1; 0.15] in
  _score_relevance embedding_model mem query turn = py_sum (zip_with Rmult factors weights) /\
  py_sum weights = 1 /\
  weighted_average [1; 0] [0.3; 0.7] = 0.3.
Proof.
  intros Hno factors weights. split; [|split].
  - rewrite (score_relevance_four_factors _ _ _ _ Hno). reflexivity.
  - apply renormalized_sum. rewrite !py_sum_cons, py_sum_nil. lra.
  - unfold weighted_average. simpl. rewrite !py_sum_cons, py_sum_nil.
    replace (0.3 + (0.7 + 0)) with 1 by lra. lra.
Qed.

Lemma score_without_semantic_witness :
  _score_relevance None Samples.m_peanuts "peanuts" 3 =
    py_sum (zip_with Rmult
              [ _keyword_match "peanuts" Samples.m_peanuts;
                _recency_score Samples.m_peanuts 3;
                _frequency_score Samples.m_peanuts;
                confidence Samples.m_peanuts ]
              (renormalized [0.3; 0.15; 0.1; 0.15])) /\
  py_sum (renormalized [0.3; 0.15; 0.1; 0.15]) = 1 /\
  weighted_average [1; 0] [0.3; 0.7] = 0.3.
Proof.
  apply (score_without_semantic None Samples.m_peanuts "peanuts" 3).
  left. reflexivity.
Defined.

(** In binary64 arithmetic the two computations come out exactly: the
    average of 1.0 and 0.0 under the weights 0.3 and 0.7 is the float 0.3,
    and the four renormalized weights add up to the float 1.0. *)
Example weighted_average_binary64 :
  Binary64.weighted_average [1; 0]%float [0.3; 0.7]%float = 0.3%float /\
  Binary64.py_sum
    (map (fun w => (w / Binary64.py_sum [0.3; 0.15; 0.1; 0.15])%float)
         [0.3; 0.15; 0.1; 0.15]%float) = 1%float.
Proof. split; vm_compute; reflexivity. Qed.


(** ** Recency *)

Lemma exp_le (x y : R) : x <= y -> exp x <= exp y.
Proof.
  intros [H | ->]; [left; apply exp_increasing, H | right; reflexivity].
Qed.

Lemma clamp_le (x y : R) : x <= y -> Rmax 0 (Rmin 1 x) <= Rmax 0 (Rmin 1 y).
Proof.
  intros H. apply Rle_max_compat_l, Rle_min_compat_l, H.
Qed.

(** The clamp leaves a value of [[0, 1]] as it is. *)
Lemma clamp_id (x : R) : 0 <= x <= 1 -> Rmax 0 (Rmin 1 x) = x.
Proof.
  intros [H0 H1]. rewrite Rmin_right by exact H1. apply Rmax_right, H0.
Qed.

(** Squaring a pair of bounds on [exp x] bounds [exp (2 x)]. *)
Lemma exp_double_bounds (x l u : R) :
  0 <= l -> l <= exp x <= u -> l * l <= exp (2 * x) <= u * u.
Proof.
  intros Hl [H1 H2]. replace (2 * x) with (x + x) by lra. rewrite exp_plus.
  pose proof (exp_pos x). split; nra.
Qed.

(** [exp(-0.693)] lies within 0.01 of one half: from [1 + x <= exp x] at
    [x = -0.693/32] and at [x = 0.693/32], squared five times. *)
Lemma exp_half_life : 0.49 <= exp (- 0.693) <= 0.51.
Proof.
  set (a := 0.693 / 32).
  assert (H0 : 0.9783 <= exp (- a) <= 0.97881).
  { split.
    - pose proof (exp_ineq1_le (- a)). unfold a in *. lra.
    - pose proof (exp_ineq1_le a) as H. rewrite exp_Ropp.
      assert (Hp : 1.02165 <= exp a) by (unfold a in *; lra).
      apply Rle_trans with (/ 1.02165).
      + apply Rinv_le_contravar; lra.
      + lra. }
  apply exp_double_bounds in H0; [|lra].
  assert (H1 : 0.957 <= exp (2 * - a) <= 0.95807) by lra.
  apply exp_double_bounds in H1; [|lra].
  assert (H2 : 0.9158 <= exp (2 * (2 * - a)) <= 0.9179) by lra.
  apply exp_double_bounds in H2; [|lra].
  assert (H3 : 0.8386 <= exp (2 * (2 * (2 * - a))) <= 0.84255) by lra.
  apply exp_double_bounds in H3; [|lra].
  assert (H4 : 0.7032 <= exp (2 * (2 * (2 * (2 * - a)))) <= 0.7099) by lra.
  apply exp_double_bounds in H4; [|lra].
  replace (2 * (2 * (2 * (2 * (2 * - a))))) with (- 0.693) in H4 by (unfold a; lra).
  lra.
Qed.

Lemma recency_score_unfold (mem : Memory) (current_turn : Z) :
  _recency_score mem current_turn =
  Rmax 0 (Rmin 1 (exp (- (0.693 / 100) * IZR (current_turn - source_turn mem)))).
Proof. reflexivity. Qed.

(** C6: the recency score does not increase when the gap
    [current_turn - source_turn] grows, is 1 at a gap of 0, and is within
    0.01 of 0.5 at a gap of 100. *)
Theorem recency_score_decay :
  (forall (m1 m2 : Memory) (t1 t2 : Z),
      (t1 - source_turn m1 <= t2 - source_turn m2)%Z ->
      _recency_score m2 t2 <= _recency_score m1 t1) /\
  (forall (m : Memory) (t : Z),
      (t - source_turn m = 0)%Z -> _recency_score m t = 1) /\
  (forall (m : Memory) (t : Z),
      (t - source_turn m = 100)%Z -> Rabs (_recency_score m t - 0.5) <= 0.01).
Proof.
  split; [|split].
  - intros m1 m2 t1 t2 Hgap. rewrite !recency_score_unfold.
    apply clamp_le, exp_le. apply IZR_le in Hgap.
    assert (0 <= 0.693 / 100) by lra. nra.
  - intros m t Hgap. rewrite recency_score_unfold, Hgap.
    replace (- (0.693 / 100) * 0) with 0 by lra. rewrite exp_0.
    apply clamp_id. lra.
  - intros m t Hgap. rewrite recency_score_unfold, Hgap.
    replace (- (0.693 / 100) * 100) with (- 0.693) by lra.
    pose proof exp_half_life as [Hl Hu].
    rewrite clamp_id by lra. apply Rabs_le. lra.
Qed.

Lemma recency_score_decay_witness :
  _recency_score Samples.m_peanuts 102 <= _recency_score Samples.m_peanuts 2 /\
  _recency_score Samples.m_peanuts 2 = 1 /\
  Rabs (_recency_score Samples.m_peanuts 102 - 0.5) <= 0.01.
Proof.
  destruct recency_score_decay as (Hmono & Hzero & Hhalf).
  split; [|split].
  - apply (Hmono Samples.m_peanuts Samples.m_peanuts 2%Z 102%Z). simpl. lia.
  - apply (Hzero Samples.m_peanuts 2%Z). reflexivity.
  - apply (Hhalf Samples.m_peanuts 102%Z). reflexivity.
Defined.

Local Close Scope R_scope.

(* ===================================================================== *)
(** * Properties of retrieval *)
(* ===================================================================== *)

(** ** The result is drawn from the memories read *)

Lemma insert_desc_perm {A} (x : A * R) (l : list (A * R)) : insert_desc x l ≡ₚ x :: l.
Proof.
  induction l as [|y l IH]; simpl; [reflexivity|].
  destruct (Rlt_dec (snd x) (snd y)); [|reflexivity].
  rewrite IH. apply perm_swap.
Qed.

Lemma sort_desc_perm {A} (l : list (A * R)) : sort_desc l ≡ₚ l.
Proof.
  induction l as [|x l IH]; simpl; [reflexivity|].
  rewrite insert_desc_perm, IH. reflexivity.
Qed.

Lemma filter_sublist {A} (p : A -> bool) (l : list A) : List.filter p l `sublist_of` l.
Proof.
  induction l as [|x l IH]; simpl; [constructor|].
  destruct (p x); [apply sublist_skip | apply sublist_cons]; exact IH.
Qed.

Lemma slice_to_sublist {A} (k : Z) (l : list A) : slice_to k l `sublist_of` l.
Proof.
  unfold slice_to. destruct (k <? 0); apply sublist_take.
Qed.


Section Select.

Variable embedding_model : option (string -> option (list R)).
Variable max_results : Z.

Lemma select_submseteq (all_mems : list Memory) (query : string) (current_turn : Z)
    (filter_types : option (list string)) (min_confidence : R) :
  select embedding_model max_results all_mems query current_turn filter_types min_confidence
    ⊆+ all_mems.
Proof.
  unfold select.
  set (typed := match filter_types with
                | Some ((_ :: _) as types) => List.filter _ all_mems
                | _ => all_mems
                end).
  assert (Htyped : typed ⊆+ all_mems).
  { subst typed. destruct filter_types as [[|ty types]|]; try reflexivity.
    apply sublist_submseteq, filter_sublist. }
  set (kept := List.filter _ typed).
  assert (Hkept : kept ⊆+ all_mems).
  { etransitivity; [|exact Htyped]. apply sublist_submseteq, filter_sublist. }
  destruct kept as [|m kept']; [apply submseteq_nil_l|].
  set (score := fun mem => (mem, _score_relevance embedding_model mem query current_turn)).
  etransitivity; [|exact Hkept].
  replace (m :: kept') with (map fst (map score (m :: kept'))) at 2.
  - apply (fmap_submseteq fst).
    etransitivity; [apply sublist_submseteq, filter_sublist|].
    etransitivity; [apply sublist_submseteq, slice_to_sublist|].
    apply Permutation_submseteq, sort_desc_perm.
  - rewrite map_map. simpl. f_equal. apply map_id.
Qed.

Lemma select_In (all_mems : list Memory) (query : string) (current_turn : Z)
    (filter_types : option (list string)) (min_confidence : R) (m : Memory) :
  In m (select embedding_model max_results all_mems query current_turn filter_types
               min_confidence) ->
  In m all_mems.
Proof.
  intros H. apply list_elem_of_In. apply list_elem_of_In in H.
  eapply elem_of_submseteq; [exact H | apply select_submseteq].
Qed.

End Select.


(** ** The access tracking *)

Lemma in_list_In (s : string) (l : list string) : in_list s l = true <-> In s l.
Proof.
  unfold in_list. rewrite existsb_exists. split.
  - intros (x & Hx & E). apply String.eqb_eq in E. subst. exact Hx.
  - intros H. exists s. split; [exact H | apply String.eqb_refl].
Qed.




(** ** Soft deletion and retrieval *)

(** C8: after [deactivate(id)] of a saved id, no memory of that id is in
    [get_all(active_only=True)] or in any result of [retrieve], [get(id)]
    reports "not found", and the table still holds a row of that id, now
    inactive, and has as many rows as before. *)
Theorem deactivate_hides_memory (st : MemoryStorage) (i : string) :
  In i (row_ids st) ->
  let st' := fst (deactivate st i) in
  snd (deactivate st i) = true /\
  (forall m, In m (get_all st' true) -> memory_id m <> i) /\
  (forall embedding_model max_results query current_turn filter_types min_confidence m,
     In m (fst (retrieve embedding_model max_results st' query current_turn
                         filter_types min_confidence)) ->
     memory_id m <> i) /\
  get st' i = None /\
  (exists r, In r (memories st') /\ row_memory_id r = i /\ row_active r = 0) /\
  length (memories st') = length (memories st).
Proof.
  intros Hsaved st'.
  assert (Hget : get st' i = None).
  { apply get_inactive. subst st'. simpl. intros r' Hr' Hid.
    apply in_map_iff in Hr' as (r & <- & Hr).
    destruct (has_id i r) eqn:E; [reflexivity|].
    apply has_id_false in E. contradiction. }
  assert (Hall : forall m, In m (get_all st' true) -> memory_id m <> i).
  { intros m Hm Hid. apply get_all_ids in Hm. rewrite Hid, Hget in Hm. discriminate. }
  split; [reflexivity|]. split; [exact Hall|]. split; [|split; [exact Hget|split]].
  - intros model k query t types c m Hm. apply Hall.
    unfold retrieve in Hm. simpl in Hm. eapply select_In. exact Hm.
  - apply in_map_iff in Hsaved as (r & Hid & Hr).
    exists (set_active 0 r). split; [|split; [exact Hid | reflexivity]].
    subst st'. simpl. apply update_where_id_In; [exact Hr | exact Hid].
  - subst st'. simpl. apply length_map.
Qed.

Lemma deactivate_hides_memory_witness :
  let st' := fst (deactivate Samples.st_peanuts "mem_1a2b3c4d") in
  snd (deactivate Samples.st_peanuts "mem_1a2b3c4d") = true /\
  (forall m, In m (get_all st' true) -> memory_id m <> "mem_1a2b3c4d") /\
  (forall embedding_model max_results query current_turn filter_types min_confidence m,
     In m (fst (retrieve embedding_model max_results st' query current_turn
                         filter_types min_confidence)) ->
     memory_id m <> "mem_1a2b3c4d") /\
  get st' "mem_1a2b3c4d" = None /\
  (exists r, In r (memories st') /\ row_memory_id r = "mem_1a2b3c4d" /\ row_active r = 0) /\
  length (memories st') = length (memories Samples.st_peanuts).
Proof.
  apply (deactivate_hides_memory Samples.st_peanuts "mem_1a2b3c4d").
  simpl. left. reflexivity.
Defined.

(** ** Retrieval from a single row *)

Local Open Scope R_scope.

Lemma keyword_match_nonneg (query : string) (mem : Memory) : 0 <= _keyword_match query mem.
Proof.
  unfold _keyword_match.
  destruct (decide _); [lra|]. destruct (decide _); [lra|].
  apply Rmult_le_pos; [apply pos_INR|].
  destruct (Req_dec (INR (size (list_to_set (_tokenize (PyStr.lower query)) ∪
                               list_to_set (_tokenize (PyStr.lower (key mem ++ " " ++ value mem)))
                               : gset string))) 0) as [-> | Hne].
  - rewrite Rinv_0. lra.
  - left. apply Rinv_0_lt_compat.
    pose proof (pos_INR (size (list_to_set (_tokenize (PyStr.lower query)) ∪
                               list_to_set (_tokenize (PyStr.lower (key mem ++ " " ++ value mem)))
                               : gset string))).
    lra.
Qed.

Lemma recency_score_nonneg (mem : Memory) (turn : Z) : 0 <= _recency_score mem turn.
Proof. unfold _recency_score. apply Rmax_l. Qed.

Lemma frequency_score_nonneg (mem : Memory) :
  (0 <= access_count mem)%Z -> 0 <= _frequency_score mem.
Proof.
  intros Hc. unfold _frequency_score.
  destruct (access_count mem =? 0)%Z; [lra|].
  apply Rmin_glb; [lra|].
  apply Rmult_le_pos.
  - rewrite <- ln_1. apply IZR_le in Hc.
    destruct (Req_dec (IZR (access_count mem)) 0) as [-> | Hne].
    + right. f_equal. lra.
    + left. apply ln_increasing; lra.
  - left. apply Rinv_0_lt_compat. rewrite <- ln_1. apply ln_increasing; lra.
Qed.

(** Without the semantic factor, a memory of positive confidence and
    non-negative access count has a positive score. *)
Lemma score_positive (embedding_model : option (string -> option (list R)))
    (mem : Memory) (query : string) (turn : Z) :
  embedding mem = None \/ embedding_model = None ->
  0 < confidence mem -> (0 <= access_count mem)%Z ->
  0 < _score_relevance embedding_model mem query turn.
Proof.
  intros Hno Hconf Hcount.
  rewrite (score_relevance_four_factors _ _ _ _ Hno).
  pose proof (keyword_match_nonneg query mem).
  pose proof (recency_score_nonneg mem turn).
  pose proof (frequency_score_nonneg mem Hcount).
  unfold weighted_average. simpl. rewrite !py_sum_cons, !py_sum_nil.
  replace (0.3 + (0.15 + (0.1 + (0.15 + 0)))) with 0.7 by lra.
  assert (0 < 0.3 / 0.7) by (apply Rdiv_lt_0_compat; lra).
  assert (0 < 0.15 / 0.7) by (apply Rdiv_lt_0_compat; lra).
  assert (0 < 0.1 / 0.7) by (apply Rdiv_lt_0_compat; lra).
  nra.
Qed.

Local Close Scope R_scope.

Lemma retrieve_empty (embedding_model : option (string -> option (list R)))
    (max_results : Z) (st : MemoryStorage) (query : string) (current_turn : Z)
    (filter_types : option (list string)) (min_confidence : R) :
  memories st = [] ->
  retrieve embedding_model max_results st query current_turn filter_types min_confidence
  = ([], st).
Proof.
  intros Hrows. unfold retrieve, get_all. rewrite Hrows. simpl.
  replace (select _ _ [] _ _ _ _) with (@nil Memory); [reflexivity|].
  unfold select. destruct filter_types as [[|ty types]|]; reflexivity.
Qed.

(** A table of one active row without embedding: [retrieve] without a type
    filter returns its memory and touches the row. *)
Lemma retrieve_single (embedding_model : option (string -> option (list R)))
    (max_results : Z) (st : MemoryStorage) (r : Row) (query : string) (current_turn : Z)
    (min_confidence : R) :
  memories st = [r] ->
  is_active r = true ->
  embeddings st !! row_memory_id r = None ->
  (min_confidence <= row_confidence r)%R ->
  (0 < row_confidence r)%R ->
  0 <= row_access_count r ->
  1 <= max_results ->
  retrieve embedding_model max_results st query current_turn None min_confidence
  = ([memory_of_row st r], mkStorage [touch current_turn r] (embeddings st)).
Proof.
  intros Hrows Ha He Hmin Hconf Hcount Hmax.
  assert (Hu : unique_ids st).
  { unfold unique_ids, row_ids. rewrite Hrows. apply NoDup_singleton. }
  unfold retrieve. rewrite (get_all_active st Hu), Hrows. simpl List.filter. rewrite Ha.
  set (m := memory_of_row st r).
  assert (Hsel : select embedding_model max_results (map (memory_of_row st) [r]) query
                        current_turn None min_confidence = [m]).
  { unfold select. simpl.
    rewrite (bool_decide_eq_true_2 _ Hmin). simpl.
    unfold slice_to. destruct (max_results <? 0) eqn:E; [lia|].
    destruct (Z.to_nat max_results) as [|k] eqn:Ek; [lia|]. simpl.
    rewrite bool_decide_eq_true_2; [rewrite take_nil; reflexivity|].
    apply score_positive; [left|assumption..].
    unfold m, memory_of_row. simpl. rewrite He. reflexivity. }
  rewrite Hsel. simpl. unfold mark_accessed. simpl. rewrite Hrows. simpl.
  rewrite has_id_self. reflexivity.
Qed.

(** The store of the samples: the query finds the memory of the one row and
    leaves the row with one access, at the turn of the query. *)
Example retrieve_peanuts :
  retrieve None 5 Samples.st_peanuts "peanuts" 3 None 0.5%R =
  ([Samples.m_peanuts], mkStorage [touch 3 Samples.row_peanuts] ∅).
Proof.
  rewrite (retrieve_single None 5 Samples.st_peanuts Samples.row_peanuts "peanuts" 3 0.5%R);
    try reflexivity; simpl; try lra; lia.
Qed.

(* ===================================================================== *)
(** * Access turns and source turns *)
(* ===================================================================== *)

Lemma rows_within_mono (turn turn' : Z) (rows : list Row) :
  turn <= turn' -> rows_within turn rows -> rows_within turn' rows.
Proof.
  intros Hle H. unfold rows_within in *. eapply Forall_impl; [exact H|].
  intros r [H1 H2]. split; [lia | exact H2].
Qed.

Lemma touch_within (turn t : Z) (r : Row) :
  turn <= t -> row_source_turn r <= turn ->
  row_source_turn (touch t r) <= turn /\ access_after_source (touch t r).
Proof.
  intros Ht Hr. split; [exact Hr|].
  intros t' E. simpl in E. injection E as <-. simpl. lia.
Qed.

Lemma mark_accessed_within (turn t : Z) (st : MemoryStorage) (i : string) :
  turn <= t -> rows_within turn (memories st) ->
  rows_within turn (memories (fst (mark_accessed st i t))).
Proof.
  intros Ht H. unfold rows_within in *. simpl. unfold update_where_id.
  apply Forall_fmap. eapply Forall_impl; [exact H|].
  intros r [H1 H2]. simpl. destruct (has_id i r); [|split; assumption].
  apply touch_within; assumption.
Qed.

Lemma retrieve_within (embedding_model : option (string -> option (list R)))
    (max_results turn : Z) (st : MemoryStorage) (query : string) (current_turn : Z)
    (filter_types : option (list string)) (min_confidence : R) :
  turn <= current_turn -> rows_within turn (memories st) ->
  rows_within turn
    (memories (snd (retrieve embedding_model max_results st query current_turn
                             filter_types min_confidence))).
Proof.
  intros Ht. unfold retrieve. simpl snd.
  generalize (select embedding_model max_results (get_all st true) query current_turn
                     filter_types min_confidence).
  intros mems. revert st. induction mems as [|m mems IH]; intros st H; simpl; [exact H|].
  apply IH. apply mark_accessed_within; assumption.
Qed.

Lemma save_within (turn : Z) (st : MemoryStorage) (m : Memory) :
  source_turn m <= turn -> last_accessed_turn m = None ->
  rows_within turn (memories st) ->
  rows_within turn (memories (fst (save st m))).
Proof.
  intros Hs Hl H. unfold save.
  destruct (match metadata m with
            | Some ((_ :: _) as d) => _
            | _ => Some None
            end) as [meta|]; [|exact H].
  simpl. unfold rows_within. apply Forall_app. split.
  - unfold rows_within in H. rewrite Forall_forall in H. apply Forall_forall.
    intros r Hr. apply H. apply list_elem_of_In in Hr. apply list_elem_of_In.
    apply filter_In in Hr. tauto.
  - apply Forall_cons. split; [|apply Forall_nil_2].
    simpl. split; [exact Hs|]. intros t E. simpl in E. congruence.
Qed.

Lemma save_batch_within (turn : Z) (mems : list Memory) (st : MemoryStorage) :
  Forall (fun m => source_turn m <= turn /\ last_accessed_turn m = None) mems ->
  rows_within turn (memories st) ->
  rows_within turn (memories (fst (save_batch st mems))).
Proof.
  revert st. induction mems as [|m mems IH]; intros st Hm H; simpl; [exact H|].
  apply Forall_cons in Hm as [[Hs Hl] Hm].
  pose proof (save_within turn st m Hs Hl H) as H1.
  destruct (save st m) as [st1 ok]. simpl in H1.
  specialize (IH st1 Hm H1). destruct (save_batch st1 mems) as [st2 saved]. exact IH.
Qed.

Section SystemRuns.

Variable md5_hexdigest : string -> string.
Variable isoformat_now : nat -> string.
Variable json_scan : string -> option json_text.
Variable llm_client : option unit.
Variable embedding_model : option (string -> option (list R)).
Variable top_k : Z.
Variable auto_extract : bool.

(** What a turn does to the store and to the counter: the retrieval at the
    new turn, then the batch of the candidates extracted at that turn. *)
Lemma process_turn_effect (sys : LongFormMemorySystem) (user_msg : string)
    (assistant_msg : option string) (should_extract : bool) (n : nat) :
  let turn := turn_count sys + 1 in
  let sys' := snd (fst (process_turn md5_hexdigest isoformat_now json_scan llm_client
                          embedding_model top_k auto_extract sys user_msg assistant_msg
                          should_extract n)) in
  let st1 := snd (retrieve embedding_model top_k (storage sys) user_msg turn None 0.5%R) in
  turn_count sys' = turn /\
  storage sys' =
    if should_extract && auto_extract
    then fst (save_batch st1
                (fst (extract_memories md5_hexdigest isoformat_now json_scan llm_client
                        user_msg (default "" assistant_msg) turn false n)))
    else st1.
Proof.
  unfold process_turn, retrieve_memories, bind, ret, now.
  cbn [turn_count storage history perf_metrics].
  destruct (retrieve embedding_model top_k (storage sys) user_msg (turn_count sys + 1)
                     None 0.5%R) as [mems st1].
  cbn [turn_count storage history perf_metrics fst snd].
  destruct (should_extract && auto_extract).
  - destruct (extract_memories _ _ _ _ _ _ _ _ _) as [new_mems n1]. cbn [fst snd].
    destruct (save_batch st1 new_mems) as [st2 saved]. cbn [fst snd storage turn_count].
    split; reflexivity.
  - cbn [fst snd storage turn_count]. split; reflexivity.
Qed.

Lemma process_turn_within (sys : LongFormMemorySystem) (user_msg : string)
    (assistant_msg : option string) (should_extract : bool) (n : nat) :
  rows_within (turn_count sys) (memories (storage sys)) ->
  let sys' := snd (fst (process_turn md5_hexdigest isoformat_now json_scan llm_client
                          embedding_model top_k auto_extract sys user_msg assistant_msg
                          should_extract n)) in
  rows_within (turn_count sys') (memories (storage sys')).
Proof.
  intros H sys'.
  destruct (process_turn_effect sys user_msg assistant_msg should_extract n) as [Ht Hs].
  fold sys' in Ht, Hs. rewrite Ht, Hs.
  assert (H1 : rows_within (turn_count sys + 1)
                 (memories (snd (retrieve embedding_model top_k (storage sys) user_msg
                                          (turn_count sys + 1) None 0.5%R)))).
  { apply retrieve_within; [lia|]. apply (rows_within_mono (turn_count sys)); [lia | exact H]. }
  destruct (should_extract && auto_extract); [|exact H1].
  apply save_batch_within; [|exact H1].
  unfold extract_memories. simpl.
  eapply Forall_impl; [apply extract_with_patterns_shape|].
  intros m []; simpl; split; (lia || reflexivity).
Qed.

(** The store and the counter after one [process_turn] of a run. *)
Lemma apply_process_turn (sys : LongFormMemorySystem) (n : nat) (user_msg : string)
    (assistant_msg : option string) (should_extract : bool) :
  let s' := apply_operation md5_hexdigest isoformat_now json_scan llm_client
              embedding_model top_k auto_extract
              (ProcessTurn user_msg assistant_msg should_extract) (sys, n) in
  let turn := turn_count sys + 1 in
  let st1 := snd (retrieve embedding_model top_k (storage sys) user_msg turn None 0.5%R) in
  turn_count (fst s') = turn /\
  storage (fst s') =
    if should_extract && auto_extract
    then fst (save_batch st1
                (fst (extract_memories md5_hexdigest isoformat_now json_scan llm_client
                        user_msg (default "" assistant_msg) turn false n)))
    else st1.
Proof.
  pose proof (process_turn_effect sys user_msg assistant_msg should_extract n) as H.
  unfold apply_operation.
  destruct (process_turn _ _ _ _ _ _ _ sys user_msg assistant_msg should_extract n)
    as [[res sys'] n'].
  exact H.
Qed.


End SystemRuns.

(** ** A reset between turns *)

Section ResetScenario.

Variable md5_hexdigest : string -> string.
Variable isoformat_now : nat -> string.
Variable json_scan : string -> option json_text.
Variable llm_client : option unit.
Variable embedding_model : option (string -> option (list R)).

Lemma extract_hello (turn_num : Z) (n : nat) :
  fst (extract_memories md5_hexdigest isoformat_now json_scan llm_client
         Samples.msg_hello "" turn_num false n) = [].
Proof. reflexivity. Qed.

Lemma extract_peanuts (turn_num : Z) (n : nat) :
  exists mem_id created,
    fst (extract_memories md5_hexdigest isoformat_now json_scan llm_client
           Samples.msg_peanuts "" turn_num false n) =
    [new_memory mem_id MemoryType.FACT "user_peanuts" "peanuts" turn_num 0.8%R created None].
Proof.
  eexists (fst (_make_memory_id md5_hexdigest isoformat_now "fact_peanuts" turn_num n)).
  exists (isoformat_now (S n)).
  vm_compute. reflexivity.
Qed.

(** After the two turns the table holds one row, the fact extracted at
    turn 2, never accessed; the counter is at 2. *)
Lemma state_after_two_turns :
  exists sys n mem_id created,
    run md5_hexdigest isoformat_now json_scan llm_client embedding_model 5 true
        Samples.ops_two_turns (init empty_storage, 0%nat) = (sys, n) /\
    turn_count sys = 2 /\
    storage sys =
      mkStorage [mkRow mem_id MemoryType.FACT "user_peanuts" "peanuts" 2 0.8%R
                       created None 0 None 1] ∅.
Proof.
  unfold run, Samples.ops_two_turns. cbn [foldl].
  (* turn 1: a casual message *)
  destruct (apply_process_turn md5_hexdigest isoformat_now json_scan llm_client
              embedding_model 5 true (init empty_storage) 0%nat
              Samples.msg_hello None true) as [Ht1 Hs1].
  destruct (apply_operation _ _ _ _ _ _ _ (ProcessTurn Samples.msg_hello None true)
              (init empty_storage, 0%nat)) as [sys1 n1].
  cbn [fst snd andb init storage turn_count default] in Ht1, Hs1.
  rewrite retrieve_empty, extract_hello in Hs1 by reflexivity.
  cbn [fst snd save_batch] in Hs1.
  (* turn 2: the fact is extracted *)
  destruct (apply_process_turn md5_hexdigest isoformat_now json_scan llm_client
              embedding_model 5 true sys1 n1 Samples.msg_peanuts None true) as [Ht2 Hs2].
  destruct (apply_operation _ _ _ _ _ _ _ (ProcessTurn Samples.msg_peanuts None true)
              (sys1, n1)) as [sys2 n2].
  cbn [fst snd andb default] in Ht2, Hs2. rewrite Ht1, Hs1 in *.
  rewrite retrieve_empty in Hs2 by reflexivity.
  destruct (extract_peanuts (0 + 1 + 1) n1) as (mem_id & created & Hex).
  rewrite Hex in Hs2. cbn in Hs2.
  exists sys2, n2, mem_id, created. split; [reflexivity|]. split; assumption.
Qed.


(** Two turns, then [mark_accessed] on the row with a turn behind the
    counter: the row is recorded as accessed at turn 1, before its source
    turn. *)
Lemma rows_after_early_mark :
  exists memory_id r,
    memories (storage (fst (run md5_hexdigest isoformat_now json_scan llm_client
                                embedding_model 5 true
                                (Samples.ops_two_turns ++ [MarkAccessed memory_id 1])
                                (init empty_storage, 0%nat)))) = [r] /\
    row_source_turn r = 2 /\
    row_last_accessed_turn r = Some 1.
Proof.
  destruct state_after_two_turns as (sys2 & n2 & mem_id & created & Hrun & Ht2 & Hs2).
  exists mem_id. unfold run in *. rewrite foldl_app, Hrun. cbn [foldl].
  unfold apply_operation. cbn [fst storage]. rewrite Hs2.
  unfold mark_accessed, update_where_id. cbn [memories map fst storage].
  unfold has_id. cbn [row_memory_id]. rewrite String.eqb_refl.
  eexists. split; [reflexivity|]. split; reflexivity.
Qed.

End ResetScenario.



(* ===================================================================== *)
(** * Further properties of the store *)
(* ===================================================================== *)

(** ** [save] next to the other ids *)

Lemma find_filter_other (i j : string) (p : Row -> bool) (rows : list Row) (row : Row) :
  j <> i -> row_memory_id row = i ->
  List.find (fun r => has_id j r && p r)
            (List.filter (fun r => negb (has_id i r)) rows ++ [row]) =
  List.find (fun r => has_id j r && p r) rows.
Proof.
  intros Hne Hrow. induction rows as [|r rows IH]; simpl.
  - replace (has_id j row) with false; [reflexivity|].
    symmetry. apply has_id_false. congruence.
  - destruct (has_id i r) eqn:Ei; simpl.
    + replace (has_id j r) with false; [exact IH|].
      symmetry. apply has_id_false. apply has_id_true in Ei. congruence.
    + destruct (has_id j r && p r); [reflexivity | exact IH].
Qed.

Lemma save_false_unchanged (st : MemoryStorage) (m : Memory) :
  snd (save st m) = false -> fst (save st m) = st.
Proof.
  unfold save, json_dumps.
  destruct (metadata m) as [[|kv d]|]; cbn [fst snd]; intros H; try discriminate H.
  destruct (json_serializable (PDict (kv :: d))); cbn [fst snd] in *;
    [discriminate H | reflexivity].
Qed.

(** X1: [save(memory)] changes nothing for the other ids: [get] of an id
    other than the saved one returns what it returned before, embedding
    included. *)
Theorem save_keeps_other_ids (st : MemoryStorage) (m : Memory) (j : string) :
  j <> memory_id m ->
  get (fst (save st m)) j = get st j.
Proof.
  intros Hne. destruct (snd (save st m)) eqn:Hok.
  - rewrite (save_ok st m (save_true_serializable st m Hok)). simpl.
    unfold get. simpl. rewrite find_filter_other by (auto; reflexivity).
    destruct (List.find _ (memories st)) as [r|] eqn:E; [|reflexivity].
    simpl. apply find_some in E as [_ E]. apply andb_prop in E as [E _].
    apply has_id_true in E. unfold memory_of_row. simpl. rewrite E.
    destruct (embedding m); [|reflexivity].
    rewrite lookup_insert_ne by congruence. reflexivity.
  - rewrite (save_false_unchanged st m Hok). reflexivity.
Qed.

Lemma save_keeps_other_ids_witness :
  get (fst (save Samples.st_peanuts MoreSamples.m_tea)) "mem_1a2b3c4d"
  = get Samples.st_peanuts "mem_1a2b3c4d".
Proof.
  apply (save_keeps_other_ids Samples.st_peanuts MoreSamples.m_tea "mem_1a2b3c4d").
  discriminate.
Defined.

(** ** Insert or replace *)

Lemma filter_other_length (i : string) (rows : list Row) :
  NoDup (map row_memory_id rows) ->
  length rows =
  (length (List.filter (fun r => negb (has_id i r)) rows)
   + if in_list i (map row_memory_id rows) then 1 else 0)%nat.
Proof.
  induction rows as [|r rows IH]; simpl; intros Hnd; [reflexivity|].
  apply NoDup_cons in Hnd as [Hni Hnd]. specialize (IH Hnd).
  unfold has_id at 1. rewrite (String.eqb_sym (row_memory_id r) i).
  destruct (String.eqb i (row_memory_id r)) eqn:E; simpl.
  - apply String.eqb_eq in E. subst i.
    replace (in_list (row_memory_id r) (map row_memory_id rows)) with false in IH; [lia|].
    symmetry. apply not_true_is_false. intros H. apply in_list_In in H.
    apply Hni, list_elem_of_In, H.
  - lia.
Qed.

Lemma filter_id_after_save (i : string) (rows : list Row) (row : Row) :
  row_memory_id row = i ->
  List.filter (has_id i) (List.filter (fun r => negb (has_id i r)) rows ++ [row]) = [row].
Proof.
  intros Hid. induction rows as [|r rows IH]; simpl.
  - apply has_id_true in Hid. rewrite Hid. reflexivity.
  - destruct (has_id i r) eqn:E; simpl; [exact IH|]. rewrite E. exact IH.
Qed.

(** X2: [save] is an insert-or-replace.  When it returns [True] on a table
    with unique ids, the table holds exactly one row of the saved id, an
    active one, and one row more than before if the id was new, as many as
    before if the id was there, deactivated or not. *)
Theorem save_insert_or_replace (st : MemoryStorage) (m : Memory) :
  unique_ids st ->
  snd (save st m) = true ->
  let st' := fst (save st m) in
  (exists row, List.filter (has_id (memory_id m)) (memories st') = [row] /\
               row_active row = 1) /\
  length (memories st') =
    if in_list (memory_id m) (row_ids st) then length (memories st)
    else S (length (memories st)).
Proof.
  intros Hu Hok st'. subst st'.
  rewrite (save_ok st m (save_true_serializable st m Hok)). simpl. split.
  - eexists. split; [apply filter_id_after_save; reflexivity | reflexivity].
  - rewrite length_app. simpl.
    pose proof (filter_other_length (memory_id m) (memories st) Hu) as H.
    unfold row_ids. destruct (in_list _ _); lia.
Qed.

Lemma save_insert_or_replace_witness :
  (exists row, List.filter (has_id "mem_1a2b3c4d")
                 (memories (fst (save Samples.st_deactivated Samples.m_peanuts))) = [row] /\
               row_active row = 1) /\
  length (memories (fst (save Samples.st_deactivated Samples.m_peanuts))) =
    if in_list "mem_1a2b3c4d" (row_ids Samples.st_deactivated)
    then length (memories Samples.st_deactivated)
    else S (length (memories Samples.st_deactivated)).
Proof.
  apply (save_insert_or_replace Samples.st_deactivated Samples.m_peanuts).
  - unfold unique_ids. simpl. apply NoDup_singleton.
  - reflexivity.
Defined.

(** ** The side-table *)

(** X3: the embedding of the side-table outlives a replacement: when a
    memory is saved without an embedding over an id that has one in the
    side-table, [get] hands the old vector back with the new record. *)
Theorem save_keeps_stale_embedding (st : MemoryStorage) (m : Memory) (v : list R) :
  embedding m = None ->
  snd (save st m) = true ->
  embeddings st !! memory_id m = Some v ->
  exists m', get (fst (save st m)) (memory_id m) = Some m' /\
             embedding m' = Some (ENdarray v) /\
             value m' = value m.
Proof.
  intros He Hok Hv.
  rewrite (save_ok st m (save_true_serializable st m Hok)). simpl.
  unfold get. simpl. rewrite find_replaced by reflexivity.
  eexists. split; [reflexivity|]. unfold memory_of_row. simpl.
  rewrite He, Hv. split; reflexivity.
Qed.

Lemma save_keeps_stale_embedding_witness :
  exists m', get (fst (save MoreSamples.st_embedded MoreSamples.m_kannada_again))
                 "mem_9c0d1e2f" = Some m' /\
             embedding m' = Some (ENdarray [0.5%R; 0.25%R]) /\
             value m' = "kannada, always".
Proof.
  apply (save_keeps_stale_embedding MoreSamples.st_embedded MoreSamples.m_kannada_again
           [0.5%R; 0.25%R]); reflexivity.
Defined.

(** ** Batches *)






(** A batch of three with an unencodable memory in the middle: two are
    saved, the one before and the one after. *)
Example save_batch_skips_unencodable :
  save_batch empty_storage [MoreSamples.m_tea; MoreSamples.m_unencodable; Samples.m_peanuts]
  = (fst (save (fst (save empty_storage MoreSamples.m_tea)) Samples.m_peanuts), 2).
Proof. reflexivity. Qed.

(** ** Reads *)

(** Under the primary key, looking the ids of rows of the table up one by one
    gives the memories of the active ones among them. *)
Lemma omap_get_rows (st : MemoryStorage) (rows : list Row) :
  unique_ids st ->
  (forall r, In r rows -> In r (memories st)) ->
  omap (get st) (map row_memory_id rows) =
  map (memory_of_row st) (List.filter is_active rows).
Proof.
  intros Hu. induction rows as [|r rows IH]; intros Hrows; [reflexivity|].
  assert (Hr : In r (memories st)) by (apply Hrows; left; reflexivity).
  assert (IH' := IH (fun r' Hr' => Hrows r' (or_intror Hr'))).
  cbn [map omap list_omap List.filter]. destruct (is_active r) eqn:Ha.
  - rewrite (get_active_row st r Hu Hr Ha). cbn [map]. f_equal. exact IH'.
  - replace (get st (row_memory_id r)) with (@None Memory); [exact IH'|].
    symmetry. unfold get. rewrite find_all_rejected; [reflexivity|].
    intros r' Hr' Hid. rewrite (unique_row _ r' r Hu Hr' Hr Hid). exact Ha.
Qed.

Lemma filter_In_table (p : Row -> bool) (rows : list Row) (r : Row) :
  In r (List.filter p rows) -> In r rows.
Proof. intros H. apply filter_In in H. tauto. Qed.

Lemma filter_and (A : Type) (p q : A -> bool) (l : list A) :
  List.filter q (List.filter p l) = List.filter (fun x => p x && q x) l.
Proof.
  induction l as [|x l IH]; [reflexivity|]. simpl.
  destruct (p x); simpl; [destruct (q x)|]; rewrite IH; reflexivity.
Qed.

Lemma filter_map_comm (A B : Type) (f : A -> B) (p : B -> bool) (l : list A) :
  List.filter p (map f l) = map f (List.filter (fun x => p (f x)) l).
Proof.
  induction l as [|x l IH]; [reflexivity|]. simpl.
  destruct (p (f x)); simpl; rewrite IH; reflexivity.
Qed.

Lemma st_peanuts_unique_ids : unique_ids Samples.st_peanuts.
Proof. unfold unique_ids. simpl. apply NoDup_singleton. Qed.

Lemma st_two_unique_ids : unique_ids MoreSamples.st_two.
Proof. apply save_unique_ids, st_peanuts_unique_ids. Qed.



(** X6: under the primary key, [find_by_type] returns the memories of
    [get_all()] that have the type, in the same order. *)
Theorem find_by_type_filters_get_all (st : MemoryStorage) (mem_type : string) :
  unique_ids st ->
  find_by_type st mem_type =
  List.filter (fun m => String.eqb (type m) mem_type) (get_all st true).
Proof.
  intros Hu. rewrite (get_all_active st Hu). unfold find_by_type.
  rewrite (omap_get_rows st _ Hu) by apply filter_In_table.
  rewrite filter_map_comm, !filter_and. f_equal.
  apply filter_ext. intros r. cbn [memory_of_row type].
  destruct (is_active r), (String.eqb (row_type r) mem_type); reflexivity.
Qed.

Lemma find_by_type_filters_get_all_witness :
  find_by_type MoreSamples.st_two "preference" =
  List.filter (fun m => String.eqb (type m) "preference") (get_all MoreSamples.st_two true).
Proof.
  apply (find_by_type_filters_get_all MoreSamples.st_two "preference").
  apply st_two_unique_ids.
Defined.

(** ** Search by key *)

Lemma chars_app (a b : string) :
  PyStr.chars (a ++ b) = (PyStr.chars a ++ PyStr.chars b)%list.
Proof. induction a as [|c a IH]; simpl; [reflexivity | rewrite IH; reflexivity]. Qed.

Lemma chars_lower (s : string) :
  PyStr.chars (PyStr.lower s) = map PyStr.lower_char (PyStr.chars s).
Proof. unfold PyStr.lower. apply list_ascii_of_string_of_list_ascii. Qed.

Lemma like_percent_cons (p s : list ascii) :
  like ("%"%char :: p) s =
  like p s || match s with [] => false | _ :: s' => like ("%"%char :: p) s' end.
Proof. destruct s; reflexivity. Qed.

Lemma like_percent (s : list ascii) : like ["%"%char] s = true.
Proof.
  induction s as [|d s IH]; [reflexivity|].
  rewrite like_percent_cons. exact IH.
Qed.

(** A pattern that ends in [%] and has no other wildcard matches the strings
    that start with it, letters compared without regard to case. *)
Lemma like_prefix (p s : list ascii) :
  forallb (fun c => negb (Ascii.eqb c "%") && negb (Ascii.eqb c "_")) p = true ->
  like (p ++ ["%"%char]) s =
  PyStr.is_prefix (map PyStr.lower_char p) (map PyStr.lower_char s).
Proof.
  revert s. induction p as [|c p IH]; intros s Hp.
  - apply like_percent.
  - simpl in Hp. apply andb_prop in Hp as [Hc Hp]. apply andb_prop in Hc as [Hc1 Hc2].
    apply negb_true_iff in Hc1, Hc2.
    cbn [app like map PyStr.is_prefix]. rewrite Hc1.
    destruct s as [|d s]; [reflexivity|]. cbn [map]. rewrite Hc2, (IH s Hp).
    reflexivity.
Qed.

Lemma like_substring (p s : list ascii) :
  forallb (fun c => negb (Ascii.eqb c "%") && negb (Ascii.eqb c "_")) p = true ->
  like ("%"%char :: p ++ ["%"%char]) s =
  PyStr.contains_chars (map PyStr.lower_char p) (map PyStr.lower_char s).
Proof.
  intros Hp. induction s as [|d s IH]; rewrite like_percent_cons.
  - rewrite (like_prefix p [] Hp). reflexivity.
  - rewrite (like_prefix p (d :: s) Hp), IH. reflexivity.
Qed.

Lemma search_by_key_like (st : MemoryStorage) (search_key : string) :
  unique_ids st ->
  search_by_key st search_key =
  List.filter (fun m => like (PyStr.chars ("%" ++ search_key ++ "%")) (PyStr.chars (key m)))
              (get_all st true).
Proof.
  intros Hu. rewrite (get_all_active st Hu). unfold search_by_key.
  rewrite (omap_get_rows st _ Hu) by apply filter_In_table.
  rewrite filter_map_comm, !filter_and. f_equal.
  apply filter_ext. intros r. cbn [memory_of_row key].
  destruct (is_active r), (like _ _); reflexivity.
Qed.

(** X7: under the primary key, [search_by_key] with a key that holds neither
    [%] nor [_] returns the memories of [get_all()] whose key contains the
    search key, letters compared without regard to case, in the same order. *)
Theorem search_by_key_substring (st : MemoryStorage) (search_key : string) :
  unique_ids st -> no_wildcard search_key = true ->
  search_by_key st search_key =
  List.filter (fun m => PyStr.contains (PyStr.lower search_key) (PyStr.lower (key m)))
              (get_all st true).
Proof.
  intros Hu Hw. rewrite (search_by_key_like st search_key Hu).
  apply filter_ext. intros m. unfold PyStr.contains.
  rewrite !chars_lower. change ("%" ++ search_key ++ "%")
    with (String "%" (search_key ++ "%")).
  cbn [list_ascii_of_string]. rewrite chars_app.
  apply (like_substring _ _ Hw).
Qed.

Lemma search_by_key_substring_witness :
  search_by_key MoreSamples.st_two "Green" =
  List.filter (fun m => PyStr.contains (PyStr.lower "Green") (PyStr.lower (key m)))
              (get_all MoreSamples.st_two true).
Proof.
  apply (search_by_key_substring MoreSamples.st_two "Green").
  - apply st_two_unique_ids.
  - reflexivity.
Defined.

(** An underscore in the search key is a wildcard, not a character: with
    the key [_], [search_by_key] returns every memory of [get_all()] whose key
    is not empty. *)
Lemma search_by_key_underscore (st : MemoryStorage) :
  unique_ids st ->
  search_by_key st "_" =
  List.filter (fun m => negb (String.eqb (key m) "")) (get_all st true).
Proof.
  intros Hu. rewrite (search_by_key_like st "_" Hu).
  apply filter_ext. intros m. destruct (key m) as [|c k]; [reflexivity|].
  change (PyStr.chars ("%" ++ "_" ++ "%")) with ["%"%char; "_"%char; "%"%char].
  cbn [list_ascii_of_string]. rewrite like_percent_cons.
  cbn [like]. change (Ascii.eqb "_" "%") with false. cbn iota.
  change (Ascii.eqb "_" "_") with true. cbn [orb andb].
  change ((fix any (s : list ascii) : bool :=
             like [] s || match s with [] => false | _ :: s' => any s' end)
            (PyStr.chars k))
    with (like ["%"%char] (PyStr.chars k)).
  rewrite like_percent. reflexivity.
Qed.


(** ** Access tracking and soft deletion, read back *)


(** An update that lets no row pass a test it failed before leaves a search
    without result as it is. *)
Lemma find_map_none (p : Row -> bool) (g : Row -> Row) (rows : list Row) :
  (forall r, p r = false -> p (g r) = false) ->
  List.find p rows = None -> List.find p (map g rows) = None.
Proof.
  intros Hp. induction rows as [|r rows IH]; [reflexivity|].
  simpl. destruct (p r) eqn:E; [discriminate|].
  intros H. rewrite (Hp r E). exact (IH H).
Qed.


Lemma apply_access_keeps_inactive (st : MemoryStorage) (op : access_operation)
    (i : string) :
  get st i = None -> get (apply_access st op) i = None.
Proof.
  unfold get. intros H.
  destruct (List.find _ (memories st)) as [r|] eqn:E; [discriminate|].
  destruct op as [k t | k]; cbn [apply_access fst mark_accessed deactivate memories];
    unfold update_where_id; rewrite find_map_none; try reflexivity; try exact E;
    intros r Hr; destruct (has_id k r); try exact Hr.
  (* a row that [deactivate] wrote *)
  apply andb_false_r.
Qed.

(** X9: deactivation is not undone by [mark_accessed] or [deactivate]: an id
    that [get] does not find stays not found through any sequence of these
    two operations, on any ids. *)
Theorem deactivation_is_permanent (st : MemoryStorage) (ops : list access_operation)
    (i : string) :
  get st i = None -> get (foldl apply_access st ops) i = None.
Proof.
  revert st. induction ops as [|op ops IH]; intros st H; [exact H|].
  simpl. apply IH, apply_access_keeps_inactive, H.
Qed.

Lemma deactivation_is_permanent_witness :
  get (foldl apply_access Samples.st_deactivated
         [AccessMark "mem_1a2b3c4d" 9; AccessDeactivate "mem_5e6f7a8b";
          AccessMark "mem_1a2b3c4d" 12])
      "mem_1a2b3c4d" = None.
Proof.
  apply (deactivation_is_permanent Samples.st_deactivated). reflexivity.
Defined.

(** ** Statistics *)

Lemma count_by_type_lookup (rows : list Row) (t : string) :
  count_by_type rows !! t =
  match List.filter (fun r => String.eqb (row_type r) t) rows with
  | [] => None
  | l => Some (Z.of_nat (length l))
  end.
Proof.
  induction rows as [|r rows IH]; [reflexivity|].
  cbn [count_by_type List.filter]. destruct (String.eqb (row_type r) t) eqn:E.
  - apply String.eqb_eq in E. subst t. rewrite lookup_insert_eq, IH.
    destruct (List.filter _ rows) as [|r0 l]; cbn [default from_option]; f_equal;
      unfold Datatypes.id; rewrite ?length_cons; lia.
  - apply String.eqb_neq in E. rewrite lookup_insert_ne by exact E. exact IH.
Qed.

(** X10: under the primary key, the statistics agree with the reads:
    [total_memories] is the length of [get_all()], and [by_type] has an entry
    for exactly the types [find_by_type] finds a memory of, which is the
    number of memories it finds. *)
Theorem get_stats_counts (st : MemoryStorage) :
  unique_ids st ->
  total_memories (get_stats st) = Z.of_nat (length (get_all st true)) /\
  forall t, by_type (get_stats st) !! t =
            match find_by_type st t with
            | [] => None
            | l => Some (Z.of_nat (length l))
            end.
Proof.
  intros Hu. split.
  - rewrite (get_all_active st Hu), length_map. reflexivity.
  - intros t. unfold find_by_type.
    rewrite (omap_get_rows st _ Hu) by apply filter_In_table.
    cbn [get_stats by_type]. rewrite count_by_type_lookup, !filter_and.
    replace (List.filter (fun x => (String.eqb (row_type x) t && is_active x) && is_active x)
                         (memories st))
      with (List.filter (fun x => is_active x && String.eqb (row_type x) t) (memories st)).
    2:{ apply filter_ext. intros r.
        destruct (is_active r), (String.eqb (row_type r) t); reflexivity. }
    destruct (List.filter _ (memories st)) as [|r l]; [reflexivity|].
    cbn [map length]. rewrite length_map. reflexivity.
Qed.

Lemma get_stats_counts_witness :
  total_memories (get_stats MoreSamples.st_two) =
    Z.of_nat (length (get_all MoreSamples.st_two true)) /\
  forall t, by_type (get_stats MoreSamples.st_two) !! t =
            match find_by_type MoreSamples.st_two t with
            | [] => None
            | l => Some (Z.of_nat (length l))
            end.
Proof. apply (get_stats_counts MoreSamples.st_two), st_two_unique_ids. Defined.

Local Open Scope R_scope.

(** [round(x, 3)] is within half a thousandth of [x]. *)
Lemma py_round_3_close (x : R) : Rabs (py_round x 3 - x) <= 1 / 2000.
Proof.
  unfold py_round.
  replace (10 ^ 3) with 1000 by (simpl; lra).
  set (y := x * 1000).
  destruct (base_Int_part y) as [Hlo Hhi].
  set (f := Int_part y) in *.
  assert (Hx : x = y / 1000) by (unfold y; lra).
  apply Rabs_le.
  destruct (Rlt_dec (y - IZR f) (1 / 2)) as [H1 | H1].
  - split; lra.
  - destruct (Rlt_dec (1 / 2) (y - IZR f)) as [H2 | H2].
    + rewrite plus_IZR. split; lra.
    + destruct (Z.even f); [|rewrite plus_IZR]; split; lra.
Qed.

Lemma py_round_0 (n : nat) : py_round 0 n = 0.
Proof.
  unfold py_round. rewrite Rmult_0_l.
  replace (Int_part 0) with 0%Z.
  2:{ apply (Int_part_spec 0 0%Z). lra. }
  rewrite Rminus_diag. destruct (Rlt_dec 0 (1 / 2)) as [|H]; [|exfalso; lra].
  unfold Rdiv. apply Rmult_0_l.
Qed.

(** X11: under the primary key, [average_confidence] of [get_stats] is the
    mean confidence of the memories of [get_all()] rounded to three places:
    it is within 0.0005 of that mean, and it is 0 when no memory is active. *)
Theorem get_stats_average (st : MemoryStorage) :
  unique_ids st ->
  Rabs (average_confidence (get_stats st) - mean (map confidence (get_all st true)))
    <= 1 / 2000 /\
  (get_all st true = [] -> average_confidence (get_stats st) = 0).
Proof.
  intros Hu. rewrite (get_all_active st Hu). unfold get_stats.
  cbn [average_confidence].
  destruct (List.filter is_active (memories st)) as [|r l] eqn:E.
  - cbn [map mean]. rewrite py_round_0, Rminus_diag, Rabs_R0. split; [lra | reflexivity].
  - split; [|intros H; discriminate H].
    rewrite map_map. cbn [memory_of_row confidence].
    replace (mean (map (fun x => row_confidence x) (r :: l)))
      with (py_sum (map row_confidence (r :: l)) / IZR (Z.of_nat (length (r :: l)))).
    + apply py_round_3_close.
    + unfold mean. cbn [map]. rewrite <- INR_IZR_INZ. cbn [length].
      rewrite length_map. reflexivity.
Qed.

Lemma get_stats_average_witness :
  Rabs (average_confidence (get_stats MoreSamples.st_two)
        - mean (map confidence (get_all MoreSamples.st_two true))) <= 1 / 2000 /\
  (get_all MoreSamples.st_two true = [] ->
   average_confidence (get_stats MoreSamples.st_two) = 0).
Proof. apply (get_stats_average MoreSamples.st_two), st_two_unique_ids. Defined.

Local Close Scope R_scope.


(* ===================================================================== *)
(** * Further properties of retrieval *)
(* ===================================================================== *)

Local Open Scope R_scope.

(** ** The sort *)

Lemma insert_desc_sorted {A} (x : A * R) (l : list (A * R)) :
  StronglySorted score_order l -> StronglySorted score_order (insert_desc x l).
Proof.
  induction l as [|y l IH]; intros Hs; simpl.
  - apply SSorted_cons; [apply SSorted_nil | apply Forall_nil_2].
  - apply StronglySorted_inv in Hs as [Hs Hy].
    destruct (Rlt_dec (snd x) (snd y)) as [Hlt | Hge].
    + apply SSorted_cons; [apply IH, Hs|].
      rewrite insert_desc_perm. apply Forall_cons. split; [|exact Hy].
      unfold score_order. lra.
    + apply SSorted_cons; [apply SSorted_cons; assumption|].
      apply Forall_cons. split; [unfold score_order; lra|].
      eapply Forall_impl; [exact Hy|]. unfold score_order. intros z Hz. lra.
Qed.

Lemma sort_desc_sorted {A} (l : list (A * R)) : StronglySorted score_order (sort_desc l).
Proof.
  induction l as [|x l IH]; simpl; [apply SSorted_nil | apply insert_desc_sorted, IH].
Qed.

Lemma Forall_sublist_of {A} (P : A -> Prop) (k l : list A) :
  k `sublist_of` l -> Forall P l -> Forall P k.
Proof.
  induction 1 as [|x k l _ IH|x k l _ IH]; intros H; [exact H| |].
  - apply Forall_cons in H as [Hx H]. apply Forall_cons. split; [exact Hx | exact (IH H)].
  - apply Forall_cons in H as [_ H]. exact (IH H).
Qed.

Lemma StronglySorted_sublist_of {A} (R : relation A) (k l : list A) :
  k `sublist_of` l -> StronglySorted R l -> StronglySorted R k.
Proof.
  induction 1 as [|x k l Hkl IH|x k l _ IH]; intros H; [exact H| |].
  - apply StronglySorted_inv in H as [H Hx].
    apply SSorted_cons; [exact (IH H) | exact (Forall_sublist_of _ _ _ Hkl Hx)].
  - apply StronglySorted_inv in H as [H _]. exact (IH H).
Qed.

Lemma scores_descend_sorted (l : list R) :
  StronglySorted (fun x y => y <= x) l -> scores_descend l.
Proof.
  induction 1 as [|x l _ IH Hx]; [exact I|].
  destruct l as [|y l]; [exact I|]. split; [|exact IH].
  apply Forall_cons in Hx as [Hy _]. exact Hy.
Qed.

Lemma slice_to_take {A} (k : Z) (l : list A) : exists n, slice_to k l = take n l.
Proof. unfold slice_to. destruct (k <? 0)%Z; eexists; reflexivity. Qed.

(** ** The selection *)

Section Selection.

Variable embedding_model : option (string -> option (list R)).
Variable max_results : Z.
Variable query : string.
Variable current_turn : Z.

Let score (m : Memory) : R := _score_relevance embedding_model m query current_turn.
Let scored (mems : list Memory) : list (Memory * R) := map (fun m => (m, score m)) mems.

Lemma select_unfold (all_mems : list Memory) (filter_types : option (list string))
    (min_confidence : R) :
  select embedding_model max_results all_mems query current_turn filter_types
         min_confidence =
  map fst (List.filter (fun ms => bool_decide (0 < snd ms))
             (slice_to max_results
                (sort_desc (scored (eligible all_mems filter_types min_confidence))))).
Proof.
  unfold select, eligible, scored, score.
  destruct (List.filter _ _) as [|m l] eqn:E; [|reflexivity].
  simpl. destruct (slice_to_take max_results (@nil (Memory * R))) as [n ->].
  rewrite take_nil. reflexivity.
Qed.

Lemma scored_snd (mems : list Memory) (x : Memory * R) :
  In x (sort_desc (scored mems)) -> snd x = score (fst x) /\ In (fst x) mems.
Proof.
  intros H. apply list_elem_of_In in H. rewrite sort_desc_perm in H.
  apply list_elem_of_In, in_map_iff in H as (m & <- & Hm). split; [reflexivity | exact Hm].
Qed.

Lemma eligible_In (all_mems : list Memory) (filter_types : option (list string))
    (min_confidence : R) (m : Memory) :
  In m (eligible all_mems filter_types min_confidence) ->
  In m all_mems /\ min_confidence <= confidence m /\
  match filter_types with
  | Some ((_ :: _) as types) => In (type m) types
  | _ => True
  end.
Proof.
  unfold eligible. intros H. apply filter_In in H as [H Hc].
  apply bool_decide_eq_true in Hc.
  destruct filter_types as [[|t types]|]; try (split; [exact H | split; [exact Hc | exact I]]).
  apply filter_In in H as [H Ht]. apply in_list_In in Ht. auto.
Qed.

Lemma select_ranked (all_mems : list Memory) (filter_types : option (list string))
    (min_confidence : R) :
  let result := select embedding_model max_results all_mems query current_turn
                       filter_types min_confidence in
  scores_descend (map score result) /\
  Forall (fun m' => In m' result \/ Forall (fun m => score m' <= score m) result)
         (eligible all_mems filter_types min_confidence).
Proof.
  intros result. subst result. rewrite select_unfold.
  set (mems := eligible all_mems filter_types min_confidence).
  set (sorted := sort_desc (scored mems)).
  destruct (slice_to_take max_results sorted) as [n Hn]. rewrite Hn.
  pose proof (sort_desc_sorted (scored mems)) as Hsorted. fold sorted in Hsorted.
  assert (Hform : forall x, In x sorted -> snd x = score (fst x) /\ In (fst x) mems)
    by apply scored_snd.
  assert (Htop : forall x, In x (take n sorted) -> In x sorted).
  { intros x Hx. apply list_elem_of_In. apply list_elem_of_In in Hx.
    exact (subseteq_take n sorted x Hx). }
  split.
  - apply scores_descend_sorted.
    replace (map score (map fst (List.filter (fun ms => bool_decide (0 < snd ms))
                                             (take n sorted))))
      with (map snd (List.filter (fun ms : Memory * R => bool_decide (0 < snd ms))
                                 (take n sorted))).
    2:{ rewrite map_map. apply map_ext_in. intros x Hx. apply filter_In in Hx as [Hx _].
        apply (Hform x (Htop x Hx)). }
    apply (StronglySorted_fmap snd score_order); [intros x y H; exact H|].
    apply (StronglySorted_sublist_of _ _ sorted); [|exact Hsorted].
    etransitivity; [apply filter_sublist | apply sublist_take].
  - apply Forall_forall. intros m' Hm'.
    assert (Hin : In (m', score m') sorted).
    { apply list_elem_of_In. unfold sorted. rewrite sort_desc_perm.
      apply list_elem_of_In, in_map_iff. exists m'. split; [reflexivity|].
      apply list_elem_of_In. exact Hm'. }
    rewrite <- (take_drop n sorted) in Hin. apply in_app_or in Hin as [Hin | Hin].
    + destruct (Rlt_dec 0 (score m')) as [Hpos | Hneg].
      * left. apply in_map_iff. exists (m', score m'). split; [reflexivity|].
        apply filter_In. split; [exact Hin|]. apply bool_decide_eq_true. exact Hpos.
      * right. apply Forall_forall. intros m Hm. apply list_elem_of_In in Hm.
        apply in_map_iff in Hm as (x & <- & Hx). apply filter_In in Hx as [Hx Hp].
        apply bool_decide_eq_true in Hp. destruct (Hform x (Htop x Hx)) as [<- _]. lra.
    + right. apply Forall_forall. intros m Hm. apply list_elem_of_In in Hm.
      apply in_map_iff in Hm as (x & <- & Hx). apply filter_In in Hx as [Hx _].
      destruct (Hform x (Htop x Hx)) as [<- _].
      rewrite <- (take_drop n sorted) in Hsorted.
      apply (StronglySorted_app_1_elem_of _ _ _ x (m', score m') Hsorted);
        apply list_elem_of_In; assumption.
Qed.

Lemma select_eligible (all_mems : list Memory) (filter_types : option (list string))
    (min_confidence : R) :
  let result := select embedding_model max_results all_mems query current_turn
                       filter_types min_confidence in
  Forall (fun m => In m (eligible all_mems filter_types min_confidence) /\ 0 < score m)
         result /\
  (0 <= max_results -> Z.of_nat (length result) <= max_results)%Z.
Proof.
  intros result. subst result. rewrite select_unfold.
  set (sorted := sort_desc (scored (eligible all_mems filter_types min_confidence))).
  split.
  - apply Forall_forall. intros m Hm. apply list_elem_of_In in Hm.
    apply in_map_iff in Hm as (x & <- & Hx). apply filter_In in Hx as [Hx Hp].
    apply bool_decide_eq_true in Hp.
    assert (Hs : In x sorted).
    { apply list_elem_of_In. apply list_elem_of_In in Hx.
      pose proof (slice_to_sublist max_results sorted) as Hsub.
      apply sublist_submseteq in Hsub. exact (elem_of_submseteq _ _ _ Hx Hsub). }
    destruct (scored_snd _ x Hs) as [E Hin]. rewrite <- E. split; [exact Hin | exact Hp].
  - intros Hk. rewrite length_map.
    pose proof (List.filter_length_le (fun ms : Memory * R => bool_decide (0 < snd ms))
                  (slice_to max_results sorted)) as H1.
    assert (H2 : (length (slice_to max_results sorted) <= Z.to_nat max_results)%nat).
    { unfold slice_to. destruct (max_results <? 0)%Z eqn:E; [lia|]. apply firstn_le_length. }
    lia.
Qed.

End Selection.

(** X12: every memory that [retrieve] returns is an active memory of the
    store, has a confidence of at least [min_confidence], has one of the
    types of [filter_types] when that list is given and not empty, and has a
    positive score. *)
Theorem retrieve_results_pass_filters
    (embedding_model : option (string -> option (list R))) (max_results : Z)
    (st : MemoryStorage) (query : string) (current_turn : Z)
    (filter_types : option (list string)) (min_confidence : R) :
  Forall (fun m =>
            In m (get_all st true) /\
            min_confidence <= confidence m /\
            match filter_types with
            | Some ((_ :: _) as types) => In (type m) types
            | _ => True
            end /\
            0 < _score_relevance embedding_model m query current_turn)
         (fst (retrieve embedding_model max_results st query current_turn filter_types
                        min_confidence)).
Proof.
  cbn [retrieve fst].
  destruct (select_eligible embedding_model max_results query current_turn
              (get_all st true) filter_types min_confidence) as [H _].
  eapply Forall_impl; [exact H|]. cbv beta. intros m [Hm Hpos].
  apply eligible_In in Hm as (H1 & H2 & H3). auto.
Qed.

(** X13: with a [max_results] that is not negative, [retrieve] returns at
    most [max_results] memories. *)
Theorem retrieve_at_most_max_results
    (embedding_model : option (string -> option (list R))) (max_results : Z)
    (st : MemoryStorage) (query : string) (current_turn : Z)
    (filter_types : option (list string)) (min_confidence : R) :
  (0 <= max_results)%Z ->
  (Z.of_nat (length (fst (retrieve embedding_model max_results st query current_turn
                                   filter_types min_confidence))) <= max_results)%Z.
Proof.
  cbn [retrieve fst].
  apply (select_eligible embedding_model max_results query current_turn
           (get_all st true) filter_types min_confidence).
Qed.

Lemma retrieve_at_most_max_results_witness :
  (Z.of_nat (length (fst (retrieve None 1 MoreSamples.st_two "green tea and peanuts" 8
                                   None 0.5))) <= 1)%Z.
Proof.
  apply (retrieve_at_most_max_results None 1 MoreSamples.st_two "green tea and peanuts" 8
           None 0.5).
  lia.
Defined.

(** X14: [retrieve] returns its memories by descending score, and it returns
    the best: an active memory that passes the two filters and is not
    returned scores no more than any memory that is returned. *)
Theorem retrieve_ranked
    (embedding_model : option (string -> option (list R))) (max_results : Z)
    (st : MemoryStorage) (query : string) (current_turn : Z)
    (filter_types : option (list string)) (min_confidence : R) :
  let score m := _score_relevance embedding_model m query current_turn in
  let result := fst (retrieve embedding_model max_results st query current_turn
                              filter_types min_confidence) in
  scores_descend (map score result) /\
  Forall (fun m' => In m' result \/ Forall (fun m => score m' <= score m) result)
         (eligible (get_all st true) filter_types min_confidence).
Proof.
  cbn [retrieve fst].
  apply (select_ranked embedding_model max_results query current_turn
           (get_all st true) filter_types min_confidence).
Qed.

(** ** The factors of the score *)

Lemma ln_le_compat (x y : R) : 0 < x -> x <= y -> ln x <= ln y.
Proof.
  intros Hx [Hlt | ->]; [left; apply ln_increasing; assumption | right; reflexivity].
Qed.

Lemma ln_21_bound : ln (1 + 20) <= 10 * ln 2.
Proof.
  replace (10 * ln 2) with (INR 10 * ln 2) by (simpl; lra).
  rewrite <- ln_pow by lra. apply ln_le_compat; lra.
Qed.

Lemma ln_2_pos : 0 < ln 2.
Proof. rewrite <- ln_1. apply ln_increasing; lra. Qed.

Lemma ln_21_pos : 0 < ln (1 + 20).
Proof. rewrite <- ln_1. apply ln_increasing; lra. Qed.

(** The logarithmic branch of [_frequency_score], for a count of at least 1. *)
Lemma frequency_log_bounds (c : Z) :
  (1 <= c)%Z -> 0.1 <= Rmin 1 (ln (1 + IZR c) / ln (1 + 20)) <= 1.
Proof.
  intros Hc. split; [|apply Rmin_l].
  apply Rmin_glb; [lra|].
  pose proof ln_21_bound. pose proof ln_2_pos. pose proof ln_21_pos as H21.
  assert (Hl : ln 2 <= ln (1 + IZR c)).
  { apply ln_le_compat; [lra|]. apply IZR_le in Hc. lra. }
  apply (Rmult_le_reg_r (ln (1 + 20))); [exact H21|].
  unfold Rdiv. rewrite Rmult_assoc, Rinv_l by lra. lra.
Qed.

Lemma frequency_log_mono (c c' : Z) :
  (0 <= c <= c')%Z ->
  Rmin 1 (ln (1 + IZR c) / ln (1 + 20)) <= Rmin 1 (ln (1 + IZR c') / ln (1 + 20)).
Proof.
  intros [H0 Hc]. apply Rle_min_compat_l.
  pose proof ln_21_pos as H21.
  apply Rmult_le_compat_r; [left; apply Rinv_0_lt_compat, H21|].
  apply IZR_le in H0, Hc. apply ln_le_compat; lra.
Qed.

(** X15: on access counts that are not negative, [_frequency_score] does not
    decrease with the count, stays between the baseline 0.1 of a memory that
    was never accessed and 1, and is 1 from 20 accesses on. *)
Theorem frequency_score_profile (m m' : Memory) :
  (0 <= access_count m <= access_count m')%Z ->
  0.1 <= _frequency_score m /\
  _frequency_score m <= _frequency_score m' /\
  _frequency_score m' <= 1 /\
  ((20 <= access_count m)%Z -> _frequency_score m = 1).
Proof.
  intros [H0 Hle]. unfold _frequency_score.
  destruct (Z.eqb_spec (access_count m) 0) as [E | E];
    destruct (Z.eqb_spec (access_count m') 0) as [E' | E'].
  - repeat split; try lra. intros; lia.
  - destruct (frequency_log_bounds (access_count m')) as [Hlo Hhi]; [lia|].
    repeat split; try lra. intros; lia.
  - lia.
  - destruct (frequency_log_bounds (access_count m)) as [Hlo Hhi]; [lia|].
    destruct (frequency_log_bounds (access_count m')) as [Hlo' Hhi']; [lia|].
    pose proof (frequency_log_mono (access_count m) (access_count m') (conj H0 Hle)).
    repeat split; try lra.
    intros H20. apply Rmin_left.
    pose proof ln_21_pos as H21.
    apply (Rmult_le_reg_r (ln (1 + 20))); [exact H21|].
    unfold Rdiv. rewrite Rmult_assoc, Rinv_l by lra.
    rewrite Rmult_1_l, Rmult_1_r. apply IZR_le in H20. apply ln_le_compat; lra.
Qed.

Lemma frequency_score_profile_witness :
  0.1 <= _frequency_score Samples.m_peanuts /\
  _frequency_score Samples.m_peanuts <= _frequency_score MoreSamples.m_tea /\
  _frequency_score MoreSamples.m_tea <= 1 /\
  ((20 <= access_count Samples.m_peanuts)%Z -> _frequency_score Samples.m_peanuts = 1).
Proof.
  apply (frequency_score_profile Samples.m_peanuts MoreSamples.m_tea). simpl. lia.
Defined.

Lemma keyword_match_le_1 (query : string) (mem : Memory) : _keyword_match query mem <= 1.
Proof.
  unfold _keyword_match.
  destruct (decide _); [lra|]. destruct (decide _) as [|Hne]; [lra|].
  set (X := list_to_set (_tokenize (PyStr.lower query)) : gset string) in *.
  set (Y := list_to_set (_tokenize (PyStr.lower (key mem ++ " " ++ value mem)))
            : gset string) in *.
  assert (Hsub : (size (X ∩ Y) <= size (X ∪ Y))%nat).
  { apply subseteq_size. etransitivity;
      [apply intersection_subseteq_l | apply union_subseteq_l]. }
  assert (Hpos : (0 < size (X ∪ Y))%nat).
  { destruct (size (X ∪ Y)) eqn:E; [|lia]. apply size_empty_inv in E.
    exfalso. apply Hne. apply leibniz_equiv. exact E. }
  apply le_INR in Hsub. apply lt_INR in Hpos. simpl in Hpos.
  apply (Rmult_le_reg_r (INR (size (X ∪ Y)))); [exact Hpos|].
  unfold Rdiv. rewrite Rmult_assoc, Rinv_l by lra. lra.
Qed.

Lemma recency_score_le_1 (mem : Memory) (turn : Z) : _recency_score mem turn <= 1.
Proof. unfold _recency_score. apply Rmax_lub; [lra | apply Rmin_l]. Qed.

(** *** The cosine *)

Lemma sum_squares_nonneg (u : list R) : 0 <= py_sum (map (fun a => a * a) u).
Proof.
  induction u as [|a u IH]; simpl; [rewrite py_sum_nil; lra|].
  rewrite py_sum_cons. nra.
Qed.

(** The sum of the squares of [a t + b] over the pairs of two vectors. *)
Lemma dot_quadratic (u v : list R) (d t : R) :
  np_dot u v = Some d ->
  0 <= py_sum (map (fun a => a * a) u) * (t * t) + 2 * d * t
       + py_sum (map (fun a => a * a) v).
Proof.
  revert v d. induction u as [|a u IH]; intros [|b v] d H; simpl in H; try discriminate.
  - injection H as <-. simpl. rewrite py_sum_nil. lra.
  - destruct (np_dot u v) as [d'|] eqn:E; [|discriminate]. simpl in H. injection H as <-.
    specialize (IH v d' E). simpl. rewrite !py_sum_cons.
    pose proof (Rle_0_sqr (a * t + b)) as Hsq. unfold Rsqr in Hsq. nra.
Qed.

(** The inequality of Cauchy and Schwarz. *)
Lemma dot_square_bound (u v : list R) (d : R) :
  np_dot u v = Some d ->
  d * d <= py_sum (map (fun a => a * a) u) * py_sum (map (fun a => a * a) v).
Proof.
  intros H.
  set (U := py_sum (map (fun a => a * a) u)). set (V := py_sum (map (fun a => a * a) v)).
  pose proof (sum_squares_nonneg u) as HU. pose proof (sum_squares_nonneg v) as HV.
  fold U in HU. fold V in HV.
  destruct (Req_dec U 0) as [E | E].
  - rewrite E, Rmult_0_l.
    destruct (Req_dec d 0) as [-> | Hd]; [lra|]. exfalso.
    pose proof (dot_quadratic u v d (- (V + 1) / (2 * d)) H) as Hq.
    fold U V in Hq. rewrite E in Hq.
    replace (2 * d * (- (V + 1) / (2 * d))) with (- (V + 1)) in Hq by (field; exact Hd).
    lra.
  - pose proof (dot_quadratic u v d (- d / U) H) as Hq. fold U V in Hq.
    replace (U * (- d / U * (- d / U)) + 2 * d * (- d / U) + V)
      with (V - d * d / U) in Hq by (field; exact E).
    assert (HUpos : 0 < U) by lra.
    assert (Hdiv : d * d / U <= V) by lra.
    apply (Rmult_le_compat_r U) in Hdiv; [|lra].
    unfold Rdiv in Hdiv. rewrite Rmult_assoc, Rinv_l, Rmult_1_r in Hdiv by exact E. lra.
Qed.

Lemma dot_norm_bound (u v : list R) (d : R) :
  np_dot u v = Some d -> Rabs d <= np_norm u * np_norm v.
Proof.
  intros H. unfold np_norm.
  rewrite <- sqrt_mult by apply sum_squares_nonneg.
  rewrite <- sqrt_Rsqr_abs. apply sqrt_le_1_alt. unfold Rsqr.
  apply dot_square_bound, H.
Qed.

Lemma semantic_match_bounds
    (embedding_model : option (string -> option (list R))) (query : string)
    (mem : Memory) :
  0 <= _semantic_match embedding_model query mem <= 1.
Proof.
  unfold _semantic_match.
  destruct (embedding mem) as [e|]; [|lra].
  destruct embedding_model as [encode|]; [|lra].
  destruct (encode query) as [query_vec|]; [|lra].
  destruct (np_dot query_vec (vector e)) as [d|] eqn:Hdot; [|lra].
  destruct (decide _) as [|Hne]; [lra|].
  pose proof (dot_norm_bound _ _ _ Hdot) as Hb.
  pose proof (sqrt_pos (py_sum (map (fun a => a * a) query_vec))) as Hq.
  pose proof (sqrt_pos (py_sum (map (fun a => a * a) (vector e)))) as Hm.
  fold (np_norm query_vec) in Hq. fold (np_norm (vector e)) in Hm.
  assert (Hpos : 0 < np_norm query_vec * np_norm (vector e)).
  { apply Rmult_lt_0_compat.
    - destruct Hq as [Hq | Hq]; [exact Hq | exfalso; apply Hne; left; congruence].
    - destruct Hm as [Hm | Hm]; [exact Hm | exfalso; apply Hne; right; congruence]. }
  set (N := np_norm query_vec * np_norm (vector e)) in *.
  pose proof (Rle_abs d) as Hd. pose proof (Rle_abs (- d)) as Hd'.
  rewrite Rabs_Ropp in Hd'.
  assert (Hsim : -1 <= d / N <= 1).
  { split; apply (Rmult_le_reg_r N); try exact Hpos;
      unfold Rdiv; rewrite Rmult_assoc, Rinv_l by lra; lra. }
  lra.
Qed.

(** X16: [_semantic_match] is a number of [[0, 1]]: the cosine of the two
    vectors lies in [[-1, 1]] and is mapped to [[0, 1]]; without embedding or
    model, when [encode] raises, when the shapes differ and when a norm is 0,
    the result is 0. *)
Theorem semantic_match_in_unit_interval
    (embedding_model : option (string -> option (list R))) (query : string)
    (mem : Memory) :
  in_unit_interval (_semantic_match embedding_model query mem).
Proof. apply semantic_match_bounds. Qed.

(** X17: for a memory with a confidence in [[0, 1]] and an access count that
    is not negative, the score of [_score_relevance] lies in [[0, 1]], with
    and without the semantic factor. *)
Theorem score_in_unit_interval
    (embedding_model : option (string -> option (list R))) (mem : Memory)
    (query : string) (turn : Z) :
  confidence_in_range mem -> (0 <= access_count mem)%Z ->
  in_unit_interval (_score_relevance embedding_model mem query turn).
Proof.
  intros [Hc0 Hc1] Hcount. unfold in_unit_interval.
  pose proof (keyword_match_nonneg query mem).
  pose proof (keyword_match_le_1 query mem).
  pose proof (recency_score_nonneg mem turn).
  pose proof (recency_score_le_1 mem turn).
  pose proof (frequency_score_nonneg mem Hcount).
  assert (_frequency_score mem <= 1).
  { unfold _frequency_score. destruct (access_count mem =? 0)%Z; [lra | apply Rmin_l]. }
  pose proof (semantic_match_bounds embedding_model query mem) as [Hs0 Hs1].
  unfold _score_relevance.
  destruct (bool_decide (is_Some (embedding mem)) && bool_decide (is_Some embedding_model));
    unfold weighted_average; simpl; rewrite !py_sum_cons, !py_sum_nil.
  - replace (0.3 + (0.3 + (0.15 + (0.1 + (0.15 + 0))))) with 1 by lra.
    unfold Rdiv. rewrite Rinv_1, !Rmult_1_r. nra.
  - replace (0.3 + (0.15 + (0.1 + (0.15 + 0)))) with 0.7 by lra.
    assert (0.3 / 0.7 + 0.15 / 0.7 + 0.1 / 0.7 + 0.15 / 0.7 = 1) by lra.
    assert (0 < 0.3 / 0.7) by (apply Rdiv_lt_0_compat; lra).
    assert (0 < 0.15 / 0.7) by (apply Rdiv_lt_0_compat; lra).
    assert (0 < 0.1 / 0.7) by (apply Rdiv_lt_0_compat; lra).
    nra.
Qed.

Lemma score_in_unit_interval_witness :
  in_unit_interval (_score_relevance None MoreSamples.m_tea "green tea" 8).
Proof.
  apply (score_in_unit_interval None MoreSamples.m_tea "green tea" 8).
  - unfold confidence_in_range. simpl. lra.
  - simpl. lia.
Defined.

Local Close Scope R_scope.

(** ** The other two queries of the retriever *)

Lemma slice_to_length {A} (k : Z) (l : list A) :
  Z.of_nat (length (slice_to k l)) = slice_length k (length l).
Proof.
  unfold slice_to, slice_length. destruct (k <? 0) eqn:E; rewrite length_take; lia.
Qed.

(** What a sorted list has beyond a prefix does not come before anything of
    the prefix. *)
Lemma take_sorted_best {A} (R : relation A) (l : list A) (n : nat) (x : A) :
  StronglySorted R l -> In x l ->
  In x (take n l) \/ Forall (fun y => R y x) (take n l).
Proof.
  intros Hs Hx. rewrite <- (take_drop n l) in Hx, Hs.
  apply in_app_or in Hx as [Hx | Hx]; [left; exact Hx | right].
  apply Forall_forall. intros y Hy.
  apply (StronglySorted_app_1_elem_of _ _ _ y x Hs); [exact Hy|].
  apply list_elem_of_In. exact Hx.
Qed.

Lemma slice_sorted_best {A} (R : relation A) (l : list A) (k : Z) (x : A) :
  StronglySorted R l -> In x l ->
  In x (slice_to k l) \/ Forall (fun y => R y x) (slice_to k l).
Proof.
  destruct (slice_to_take k l) as [n ->]. apply take_sorted_best.
Qed.

Lemma insert_newest_perm (x : Memory) (l : list Memory) : insert_newest x l ≡ₚ x :: l.
Proof.
  induction l as [|y l IH]; simpl; [reflexivity|].
  destruct (source_turn x <? source_turn y); [|reflexivity].
  rewrite IH. apply perm_swap.
Qed.

Lemma sort_newest_perm (l : list Memory) : sort_newest l ≡ₚ l.
Proof.
  induction l as [|x l IH]; simpl; [reflexivity|].
  rewrite insert_newest_perm, IH. reflexivity.
Qed.

Lemma insert_newest_sorted (x : Memory) (l : list Memory) :
  StronglySorted newest_order l -> StronglySorted newest_order (insert_newest x l).
Proof.
  induction l as [|y l IH]; intros Hs; simpl.
  - apply SSorted_cons; [apply SSorted_nil | apply Forall_nil_2].
  - apply StronglySorted_inv in Hs as [Hs Hy].
    destruct (Z.ltb_spec (source_turn x) (source_turn y)) as [Hlt | Hge].
    + apply SSorted_cons; [apply IH, Hs|].
      rewrite insert_newest_perm. apply Forall_cons. split; [|exact Hy].
      unfold newest_order. lia.
    + apply SSorted_cons; [apply SSorted_cons; assumption|].
      apply Forall_cons. split; [unfold newest_order; lia|].
      eapply Forall_impl; [exact Hy|]. unfold newest_order. intros z Hz. lia.
Qed.

Lemma sort_newest_sorted (l : list Memory) : StronglySorted newest_order (sort_newest l).
Proof.
  induction l as [|x l IH]; simpl; [apply SSorted_nil | apply insert_newest_sorted, IH].
Qed.

Lemma turns_descend_sorted (l : list Z) :
  StronglySorted (fun x y => y <= x) l -> turns_descend l.
Proof.
  induction 1 as [|x l _ IH Hx]; [exact I|].
  destruct l as [|y l]; [exact I|]. split; [|exact IH].
  apply Forall_cons in Hx as [Hy _]. exact Hy.
Qed.

(** X18: [get_recent] returns active memories whose source turn is at least
    [max(0, current_turn - window)], newest first; it returns as many as the
    slice [[:max_results]] keeps of those in the window, and a memory of the
    window that is left out is no newer than any that is returned. *)
Theorem get_recent_window (max_results : Z) (st : MemoryStorage) (current_turn window : Z) :
  let start_turn := Z.max 0 (current_turn - window) in
  let recent := List.filter (fun m => start_turn <=? source_turn m) (get_all st true) in
  let result := get_recent max_results st current_turn window in
  Forall (fun m => In m (get_all st true) /\ start_turn <= source_turn m) result /\
  turns_descend (map source_turn result) /\
  Z.of_nat (length result) = slice_length max_results (length recent) /\
  Forall (fun m' => In m' result \/
                    Forall (fun m => source_turn m' <= source_turn m) result) recent.
Proof.
  intros start_turn recent result. subst result. unfold get_recent.
  fold start_turn. fold recent.
  pose proof (sort_newest_sorted recent) as Hsorted.
  pose proof (slice_to_sublist max_results (sort_newest recent)) as Hsub.
  split; [|split; [|split]].
  - apply Forall_forall. intros m Hm.
    apply (sublist_submseteq _ _) in Hsub.
    pose proof (elem_of_submseteq _ _ _ Hm Hsub) as Hin.
    rewrite sort_newest_perm in Hin. apply list_elem_of_In, filter_In in Hin as [Hin Ht].
    split; [exact Hin | apply Z.leb_le, Ht].
  - apply turns_descend_sorted.
    apply (StronglySorted_fmap source_turn newest_order); [intros x y H; exact H|].
    exact (StronglySorted_sublist_of _ _ _ Hsub Hsorted).
  - rewrite slice_to_length. f_equal. apply Permutation_length, sort_newest_perm.
  - apply Forall_forall. intros m' Hm'.
    apply (slice_sorted_best newest_order _ max_results m' Hsorted).
    apply list_elem_of_In. rewrite sort_newest_perm. exact Hm'.
Qed.

(** X19: [get_by_type] returns memories that [find_by_type] finds, by
    descending mean of recency and confidence; it returns as many as the slice
    [[:limit]] keeps of them, whatever their score, and a memory that is left
    out has no higher mean than any that is returned. *)
Theorem get_by_type_ranked (st : MemoryStorage) (mem_type : string) (current_turn limit : Z) :
  let score m := ((_recency_score m current_turn + confidence m) / 2)%R in
  let result := get_by_type st mem_type current_turn limit in
  result ⊆+ find_by_type st mem_type /\
  scores_descend (map score result) /\
  Z.of_nat (length result) = slice_length limit (length (find_by_type st mem_type)) /\
  Forall (fun m' => In m' result \/ Forall (fun m => (score m' <= score m)%R) result)
         (find_by_type st mem_type).
Proof.
  intros score result. subst result. unfold get_by_type.
  set (mems := find_by_type st mem_type).
  set (scored := map (fun m => (m, score m)) mems).
  assert (Hscored : sort_desc scored = sort_desc (map (fun m => (m, score m)) mems))
    by reflexivity.
  change (map (fun m => (m, ((_recency_score m current_turn + confidence m) / 2)%R)) mems)
    with scored.
  pose proof (sort_desc_sorted scored) as Hsorted.
  pose proof (slice_to_sublist limit (sort_desc scored)) as Hsub.
  assert (Hform : forall x, In x (sort_desc scored) -> snd x = score (fst x)).
  { intros x Hx. apply list_elem_of_In in Hx. rewrite sort_desc_perm in Hx.
    apply list_elem_of_In, in_map_iff in Hx as (m & <- & _). reflexivity. }
  assert (Hfst : map fst scored = mems).
  { unfold scored. rewrite map_map. apply map_id. }
  split; [|split; [|split]].
  - rewrite <- Hfst. apply (fmap_submseteq fst).
    etransitivity; [apply sublist_submseteq, Hsub|]. rewrite sort_desc_perm. reflexivity.
  - apply scores_descend_sorted.
    replace (map score (map fst (slice_to limit (sort_desc scored))))
      with (map snd (slice_to limit (sort_desc scored))).
    2:{ rewrite map_map. apply map_ext_in. intros x Hx. apply Hform.
        apply list_elem_of_In. apply list_elem_of_In in Hx.
        exact (elem_of_submseteq _ _ _ Hx (sublist_submseteq _ _ Hsub)). }
    apply (StronglySorted_fmap snd score_order); [intros x y H; exact H|].
    exact (StronglySorted_sublist_of _ _ _ Hsub Hsorted).
  - rewrite length_map, slice_to_length. f_equal.
    rewrite (Permutation_length (sort_desc_perm scored)). unfold scored.
    apply length_map.
  - apply Forall_forall. intros m' Hm'.
    assert (Hin : In (m', score m') (sort_desc scored)).
    { apply list_elem_of_In. rewrite sort_desc_perm.
      apply list_elem_of_In, in_map_iff. exists m'. split; [reflexivity|].
      apply list_elem_of_In, Hm'. }
    destruct (slice_sorted_best score_order _ limit _ Hsorted Hin) as [H | H].
    + left. apply in_map_iff. exists (m', score m'). split; [reflexivity | exact H].
    + right. apply Forall_forall. intros m Hm. apply list_elem_of_In, in_map_iff in Hm.
      destruct Hm as (x & <- & Hx). rewrite Forall_forall in H.
      specialize (H x (proj2 (list_elem_of_In _ _) Hx)). unfold score_order in H.
      cbn [snd] in H. rewrite <- (Hform x); [exact H|].
      apply list_elem_of_In. apply list_elem_of_In in Hx.
      exact (elem_of_submseteq _ _ _ Hx (sublist_submseteq _ _ Hsub)).
Qed.

(* ===================================================================== *)
(** * Further properties of the records *)
(* ===================================================================== *)

Lemma numbers_floats (v : list R) : numbers (map PFloat v) = Some v.
Proof. induction v as [|x v IH]; simpl; [reflexivity | rewrite IH; reflexivity]. Qed.

(** X20: [Memory.from_dict] undoes [Memory.to_dict]: the dictionary of a
    memory holds each field once under its name, and the class called on its
    items builds the same memory. *)
Theorem from_dict_to_dict (m : Memory) : from_dict (to_dict m) = Some m.
Proof.
  destruct m as [i t k v s c cr la ac e md].
  unfold to_dict, from_dict. cbn [memory_id type key value source_turn confidence created_at
    last_accessed_turn access_count embedding metadata].
  replace (forallb _ _) with true by (vm_compute; reflexivity).
  cbn [dict_get String.eqb Ascii.eqb Bool.eqb]. cbv iota.
  destruct la as [n|], e as [[w|w]|], md as [d|];
    cbn [opt_int option_map]; rewrite ?numbers_floats; reflexivity.
Qed.


(* ===================================================================== *)
(** * Further properties of the extraction *)
(* ===================================================================== *)

Section CandidateShape.

Variable md5_hexdigest : string -> string.
Variable isoformat_now : nat -> string.

Lemma take_length (n : nat) (s : string) : (String.length (PyStr.take n s) <= n)%nat.
Proof.
  unfold PyStr.take. revert s. induction n as [|n IH]; intros s; [simpl; lia|].
  destruct s as [|c s]; simpl; [lia|]. specialize (IH s). lia.
Qed.

Lemma make_memory_id_shape (key : string) (turn : Z) (n : nat) :
  let mem_id := fst (_make_memory_id md5_hexdigest isoformat_now key turn n) in
  PyStr.is_prefix (PyStr.chars "mem_") (PyStr.chars mem_id) = true /\
  (String.length mem_id <= 12)%nat.
Proof.
  unfold _make_memory_id, bind, now, ret. cbn [fst]. split; [reflexivity|].
  pose proof (take_length 8 (md5_hexdigest
    (key ++ "_" ++ PyStr.of_int turn ++ "_" ++ isoformat_now n))) as H.
  change (S (S (S (S (String.length (PyStr.take 8 (md5_hexdigest
    (key ++ "_" ++ PyStr.of_int turn ++ "_" ++ isoformat_now n))))))) <= 12)%nat.
  lia.
Qed.

Lemma single_group_matches_candidates (patterns : list Re.regex) (text : string)
    (min_len : Z) (id_prefix key_prefix mem_type : string) (conf : R) (turn_num : Z)
    (memories : list Memory) (n : nat) :
  2 <= min_len ->
  In mem_type [MemoryType.PREFERENCE; MemoryType.FACT; MemoryType.COMMITMENT] ->
  Forall (candidate_shape turn_num) memories ->
  Forall (candidate_shape turn_num)
    (fst (single_group_matches md5_hexdigest isoformat_now patterns text min_len
            id_prefix key_prefix mem_type conf turn_num memories n)).
Proof.
  intros Hmin Htype. revert memories n. unfold single_group_matches.
  apply for_each_invariant. intros pattern mems n.
  apply for_each_invariant. clear mems n. intros match_ mems n Hmems.
  destruct (Z.ltb_spec min_len (PyStr.len (PyStr.strip match_))) as [Hlen|]; [|exact Hmems].
  pose proof (make_memory_id_shape (id_prefix ++ match_) turn_num n) as [Hid1 Hid2].
  unfold bind. destruct (_make_memory_id _ _ _ _ _) as [mem_id n1]. cbn [fst] in Hid1, Hid2.
  unfold now, ret. cbn [fst].
  apply Forall_app. split; [exact Hmems|].
  apply Forall_cons. split; [|apply Forall_nil_2].
  unfold candidate_shape, new_memory.
  cbn [memory_id type value source_turn last_accessed_turn access_count embedding metadata].
  split; [exact Hid1|]. split; [exact Hid2|]. split; [exact Htype|].
  split; [lia|]. repeat split; reflexivity.
Qed.

Lemma commitment_matches_candidates (text : string) (turn_num : Z)
    (memories : list Memory) (n : nat) :
  Forall (candidate_shape turn_num) memories ->
  Forall (candidate_shape turn_num)
    (fst (commitment_matches md5_hexdigest isoformat_now text turn_num memories n)).
Proof.
  revert memories n. unfold commitment_matches.
  apply for_each_invariant. intros pattern mems n.
  apply for_each_invariant. clear mems n. intros match_ mems n Hmems.
  destruct (Z.ltb_spec 2 (PyStr.len (PyStr.strip (PyStr.join " " match_)))) as [Hlen|];
    [|exact Hmems].
  pose proof (make_memory_id_shape ("commitment_" ++ PyStr.join " " match_) turn_num n)
    as [Hid1 Hid2].
  unfold bind. destruct (_make_memory_id _ _ _ _ _) as [mem_id n1]. cbn [fst] in Hid1, Hid2.
  unfold now, ret. cbn [fst].
  apply Forall_app. split; [exact Hmems|].
  apply Forall_cons. split; [|apply Forall_nil_2].
  unfold candidate_shape, new_memory.
  cbn [memory_id type value source_turn last_accessed_turn access_count embedding metadata].
  split; [exact Hid1|]. split; [exact Hid2|].
  split; [right; right; left; reflexivity|].
  split; [lia|]. repeat split; reflexivity.
Qed.

(** X22: every candidate of the pattern strategy has an id made of [mem_]
    and at most eight more characters, the type preference, fact or
    commitment, a value of more than two characters, the turn of the call as
    its source turn, and no access, embedding or metadata. *)
Theorem extract_with_patterns_candidates (user_msg asst_msg : string) (turn_num : Z)
    (n : nat) :
  Forall (candidate_shape turn_num)
    (fst (_extract_with_patterns md5_hexdigest isoformat_now user_msg asst_msg turn_num n)).
Proof.
  unfold _extract_with_patterns.
  destruct (_ <? 5); [apply Forall_nil_2|].
  destruct (existsb _ _); [apply Forall_nil_2|].
  unfold bind at 1.
  pose proof (single_group_matches_candidates Patterns.pref_patterns
                (PyStr.lower user_msg) 3 "pref_" "preference_" MemoryType.PREFERENCE
                0.85%R turn_num [] n ltac:(lia) ltac:(left; reflexivity) (Forall_nil_2 _))
    as H1.
  destruct (single_group_matches _ _ Patterns.pref_patterns _ _ _ _ _ _ _ _ _) as [mems1 n1].
  unfold bind at 1.
  pose proof (single_group_matches_candidates Patterns.fact_patterns
                (PyStr.lower user_msg) 2 "fact_" "user_" MemoryType.FACT
                0.8%R turn_num mems1 n1 ltac:(lia) ltac:(right; left; reflexivity) H1) as H2.
  destruct (single_group_matches _ _ Patterns.fact_patterns _ _ _ _ _ _ _ _ _) as [mems2 n2].
  apply commitment_matches_candidates. exact H2.
Qed.

Lemma commitments_numbered_app (mems : list Memory) (m : Memory) :
  commitments_numbered mems ->
  (type m = MemoryType.COMMITMENT ->
   key m = "commitment_" ++ PyStr.of_int (Z.of_nat (length mems))) ->
  commitments_numbered (mems ++ [m]).
Proof.
  intros Hmems Hm i m' Hi Ht.
  destruct (lookup_app_Some mems [m] i m') as [Hcases _].
  destruct (Hcases Hi) as [Hi' | [Hge Hi']].
  - exact (Hmems i m' Hi' Ht).
  - destruct (i - length mems)%nat as [|j] eqn:E; [|discriminate].
    injection Hi' as <-. replace i with (length mems) by lia. exact (Hm Ht).
Qed.

Lemma single_group_matches_numbered (patterns : list Re.regex) (text : string)
    (min_len : Z) (id_prefix key_prefix mem_type : string) (conf : R) (turn_num : Z)
    (memories : list Memory) (n : nat) :
  mem_type <> MemoryType.COMMITMENT ->
  commitments_numbered memories ->
  commitments_numbered
    (fst (single_group_matches md5_hexdigest isoformat_now patterns text min_len
            id_prefix key_prefix mem_type conf turn_num memories n)).
Proof.
  intros Htype. revert memories n. unfold single_group_matches.
  apply for_each_invariant. intros pattern mems n.
  apply for_each_invariant. clear mems n. intros match_ mems n Hmems.
  destruct (min_len <? PyStr.len (PyStr.strip match_)); [|exact Hmems].
  unfold bind. destruct (_make_memory_id _ _ _ _ _) as [mem_id n1].
  unfold now, ret. cbn [fst].
  apply commitments_numbered_app; [exact Hmems|].
  cbn. intros H. contradiction.
Qed.

(** X23: the key of a commitment numbers it among all the candidates of the
    call, preferences and facts included: the candidate at position [i] of
    the list, when it is a commitment, has the key [commitment_i]. *)
Theorem commitment_keys_number_candidates (user_msg asst_msg : string) (turn_num : Z)
    (n : nat) :
  commitments_numbered
    (fst (_extract_with_patterns md5_hexdigest isoformat_now user_msg asst_msg turn_num n)).
Proof.
  assert (Hnil : commitments_numbered []) by (intros i m H; discriminate).
  unfold _extract_with_patterns.
  destruct (_ <? 5); [exact Hnil|].
  destruct (existsb _ _); [exact Hnil|].
  unfold bind at 1.
  pose proof (single_group_matches_numbered Patterns.pref_patterns
                (PyStr.lower user_msg) 3 "pref_" "preference_" MemoryType.PREFERENCE
                0.85%R turn_num [] n ltac:(discriminate) Hnil) as H1.
  destruct (single_group_matches _ _ Patterns.pref_patterns _ _ _ _ _ _ _ _ _) as [mems1 n1].
  unfold bind at 1.
  pose proof (single_group_matches_numbered Patterns.fact_patterns
                (PyStr.lower user_msg) 2 "fact_" "user_" MemoryType.FACT
                0.8%R turn_num mems1 n1 ltac:(discriminate) H1) as H2.
  destruct (single_group_matches _ _ Patterns.fact_patterns _ _ _ _ _ _ _ _ _) as [mems2 n2].
  revert mems2 n2 H2. unfold commitment_matches.
  apply (for_each_invariant commitments_numbered). intros pattern mems k.
  apply (for_each_invariant commitments_numbered). clear mems k.
  intros match_ mems k Hmems.
  destruct (2 <? PyStr.len (PyStr.strip (PyStr.join " " match_))); [|exact Hmems].
  unfold bind. destruct (_make_memory_id _ _ _ _ _) as [mem_id k1].
  unfold now, ret. cbn [fst].
  apply commitments_numbered_app; [exact Hmems|]. intros _. reflexivity.
Qed.

End CandidateShape.

(* ===================================================================== *)
(** * Further properties of the pipeline *)
(* ===================================================================== *)

Section Pipeline.

Variable md5_hexdigest : string -> string.
Variable isoformat_now : nat -> string.
Variable json_scan : string -> option json_text.
Variable llm_client : option unit.
Variable embedding_model : option (string -> option (list R)).
Variable top_k : Z.
Variable auto_extract : bool.

(** What one [process_turn] returns and records. *)
Lemma process_turn_record (sys : LongFormMemorySystem) (user_msg : string)
    (assistant_msg : option string) (should_extract : bool) (n : nat) :
  let r := fst (process_turn md5_hexdigest isoformat_now json_scan llm_client
                  embedding_model top_k auto_extract sys user_msg assistant_msg
                  should_extract n) in
  let turn := turn_count sys + 1 in
  result_turn_id (fst r) = turn /\
  result_retrieved_memories (fst r) =
    fst (retrieve embedding_model top_k (storage sys) user_msg turn None 0.5%R) /\
  turn_count (snd r) = turn /\
  (exists t, history (snd r) = (history sys ++ [t])%list /\ turn_id t = turn /\
             user_message t = user_msg /\
             retrieved_memories t = Some (map memory_id (result_retrieved_memories (fst r))) /\
             extracted_memories t = Some (map memory_id (result_extracted_memories (fst r)))) /\
  total_retrieved (perf_metrics (snd r)) = total_retrieved (perf_metrics sys) + 1 /\
  retrieval_times (perf_metrics (snd r)) = S (retrieval_times (perf_metrics sys)) /\
  extraction_times (perf_metrics (snd r)) =
    (if should_extract && auto_extract then S (extraction_times (perf_metrics sys))
     else extraction_times (perf_metrics sys)).
Proof.
  unfold process_turn, retrieve_memories, bind, ret, now.
  cbn [turn_count storage history perf_metrics].
  destruct (retrieve embedding_model top_k (storage sys) user_msg (turn_count sys + 1)
                     None 0.5%R) as [mems st1].
  cbn [turn_count storage history perf_metrics fst snd].
  destruct (should_extract && auto_extract).
  - destruct (extract_memories _ _ _ _ _ _ _ _ _) as [new_mems n1]. cbn [fst snd].
    destruct (save_batch st1 new_mems) as [st2 saved].
    cbn [fst snd storage turn_count history perf_metrics result_turn_id
         result_retrieved_memories result_extracted_memories total_retrieved
         retrieval_times extraction_times].
    repeat split; try reflexivity. eexists. repeat split; reflexivity.
  - cbn [fst snd storage turn_count history perf_metrics result_turn_id
         result_retrieved_memories result_extracted_memories total_retrieved
         retrieval_times extraction_times].
    repeat split; try reflexivity. eexists. repeat split; reflexivity.
Qed.

(** X24: [process_turn] never consults the language-model client:
    it asks for the pattern strategy, so the client and the scanner of the
    model's answer have no effect on its result, its state or the clock. *)
Theorem process_turn_ignores_client (json_scan' : string -> option json_text)
    (llm_client' : option unit) (sys : LongFormMemorySystem) (user_msg : string)
    (assistant_msg : option string) (should_extract : bool) (n : nat) :
  process_turn md5_hexdigest isoformat_now json_scan llm_client embedding_model top_k
               auto_extract sys user_msg assistant_msg should_extract n =
  process_turn md5_hexdigest isoformat_now json_scan' llm_client' embedding_model top_k
               auto_extract sys user_msg assistant_msg should_extract n.
Proof.
  unfold process_turn, extract_memories. cbn [andb]. reflexivity.
Qed.

Lemma seq_snoc (start len : nat) : seq start (S len) = (seq start len ++ [(start + len)%nat])%list.
Proof. rewrite seq_S. reflexivity. Qed.

Lemma apply_operation_counters (op : operation) (s : state) :
  counters_agree (fst s) ->
  counters_agree (fst (apply_operation md5_hexdigest isoformat_now json_scan llm_client
                         embedding_model top_k auto_extract op s)).
Proof.
  destruct s as [sys n]. cbn [fst]. intros (H1 & H2 & H3 & H4 & H5).
  destruct op as [u a e | q ty c | i t |]; unfold apply_operation.
  - pose proof (process_turn_record sys u a e n)
      as (_ & _ & Ht & (t & Hh & Hid & _) & Hr & Hrt & Het).
    destruct (process_turn _ _ _ _ _ _ _ sys u a e n) as [[res sys'] n'].
    cbn [fst snd] in *. unfold counters_agree.
    rewrite Ht, Hh, Hr, Hrt, Het, length_app, map_app. cbn [length map].
    replace (length (history sys) + 1)%nat with (S (length (history sys))) by lia.
    rewrite seq_snoc, map_app, <- H2, Hid. cbn [map].
    repeat split; try lia.
    + do 2 f_equal. lia.
    + destruct (e && auto_extract); lia.
  - unfold retrieve_memories. destruct (retrieve _ _ _ _ _ _ _) as [mems st1].
    cbn [fst snd]. unfold counters_agree.
    cbn [turn_count history perf_metrics]. auto.
  - cbn [fst]. unfold counters_agree. cbn [turn_count history perf_metrics]. auto.
  - cbn [fst]. unfold counters_agree, reset, no_metrics.
    cbn [turn_count history perf_metrics total_retrieved retrieval_times extraction_times
         length map seq]. repeat split; reflexivity || lia.
Qed.

(** X25: through every sequence of [process_turn], [retrieve_memories],
    [mark_accessed] and [reset] on a new system, on any database, the
    counters agree with the history: [turn_count] is the number of recorded
    turns, their ids are 1, 2, ... in order, [total_retrieved] equals
    [turn_count] (a direct [retrieve_memories] is not counted), and there are
    as many retrieval timings as turns and no more extraction timings. *)
Theorem run_keeps_counters (ops : list operation) (st : MemoryStorage) (n : nat) :
  counters_agree (fst (run md5_hexdigest isoformat_now json_scan llm_client
                           embedding_model top_k auto_extract ops (init st, n))).
Proof.
  assert (H : forall s, counters_agree (fst s) ->
                        counters_agree (fst (run md5_hexdigest isoformat_now json_scan
                                               llm_client embedding_model top_k
                                               auto_extract ops s))).
  { induction ops as [|op ops IH]; intros s Hs; [exact Hs|].
    unfold run. cbn [foldl]. apply IH, apply_operation_counters, Hs. }
  apply H. unfold counters_agree, init, no_metrics.
  cbn [fst turn_count history perf_metrics total_retrieved retrieval_times
       extraction_times length map seq]. repeat split; reflexivity || lia.
Qed.

Lemma get_all_rows (st : MemoryStorage) (active_only : bool) (m : Memory) :
  In m (get_all st active_only) ->
  exists r, In r (memories st) /\ m = memory_of_row st r.
Proof.
  intros H. apply get_all_ids in H. unfold get in H.
  destruct (List.find _ (memories st)) as [r|] eqn:E; [|discriminate].
  apply find_some in E as [Hr _]. injection H as <-. exists r. split; [exact Hr | reflexivity].
Qed.

Lemma reachable_rows_within (s : state) :
  reachable md5_hexdigest isoformat_now json_scan llm_client embedding_model top_k
            auto_extract s ->
  rows_within (turn_count (fst s)) (memories (storage (fst s))).
Proof.
  induction 1 as [n | [sys n] u a e _ IH | [sys n] q ty c _ IH | [sys n] i t _ IH Ht];
    cbn [fst] in *.
  - apply Forall_nil_2.
  - unfold apply_operation.
    pose proof (process_turn_within md5_hexdigest isoformat_now json_scan llm_client
                  embedding_model top_k auto_extract sys u a e n IH) as H.
    destruct (process_turn _ _ _ _ _ _ _ sys u a e n) as [[res sys'] n']. exact H.
  - unfold apply_operation, retrieve_memories.
    pose proof (retrieve_within embedding_model top_k (turn_count sys) (storage sys) q
                  (turn_count sys) ty c ltac:(lia) IH) as H.
    destruct (retrieve _ _ _ _ _ _ _) as [mems st1]. exact H.
  - unfold apply_operation. cbn [fst storage turn_count].
    apply mark_accessed_within; assumption.
Qed.

(** X26: retrieval comes before extraction, so a turn never retrieves what it
    extracts: in a run without reset from a new database, every memory that
    [process_turn] returns as retrieved has a source turn below the id of the
    turn. *)
Theorem retrieved_memories_predate_turn (s : state) (user_msg : string)
    (assistant_msg : option string) (should_extract : bool) :
  reachable md5_hexdigest isoformat_now json_scan llm_client embedding_model top_k
            auto_extract s ->
  let res := fst (fst (process_turn md5_hexdigest isoformat_now json_scan llm_client
                         embedding_model top_k auto_extract (fst s) user_msg
                         assistant_msg should_extract (snd s))) in
  Forall (fun m => source_turn m < result_turn_id res) (result_retrieved_memories res).
Proof.
  intros Hreach res. subst res.
  pose proof (reachable_rows_within s Hreach) as Hrows.
  pose proof (process_turn_record (fst s) user_msg assistant_msg should_extract (snd s))
    as (Hid & Hret & _).
  cbv zeta in Hid, Hret. rewrite Hid, Hret.
  apply Forall_forall. intros m Hm. apply list_elem_of_In in Hm.
  cbn [retrieve fst] in Hm. apply select_In, get_all_rows in Hm as (r & Hr & ->).
  unfold rows_within in Hrows. rewrite Forall_forall in Hrows.
  destruct (Hrows r (proj2 (list_elem_of_In _ _) Hr)) as [Hsrc _].
  cbn [memory_of_row source_turn]. lia.
Qed.

End Pipeline.

Lemma retrieved_memories_predate_turn_witness :
  let s := apply_operation Samples.digest Samples.clock Samples.scan None None 5 true
             (ProcessTurn Samples.msg_peanuts None true) (init empty_storage, 0%nat) in
  let res := fst (fst (process_turn Samples.digest Samples.clock Samples.scan None None 5
                         true (fst s) "what about peanuts?" None true (snd s))) in
  Forall (fun m => source_turn m < result_turn_id res) (result_retrieved_memories res).
Proof.
  apply (retrieved_memories_predate_turn Samples.digest Samples.clock Samples.scan None None
           5 true).
  apply reachable_process_turn, reachable_init.
Defined.

(** ** The export *)

Lemma to_dict_serializable (m : Memory) :
  json_serializable (to_dict m) = to_dict_encodable m.
Proof.
  destruct m as [i t k v s c cr la ac e md].
  unfold to_dict_encodable, metadata_encodable. simpl.
  destruct la; destruct e as [[w|w]|]; destruct md as [d|]; simpl;
    rewrite ?andb_true_r; try reflexivity.
  - induction w as [|x w IH]; [reflexivity | exact IH].
  - induction w as [|x w IH]; [reflexivity | exact IH].
  - induction w as [|x w IH]; [reflexivity | exact IH].
  - induction w as [|x w IH]; [reflexivity | exact IH].
Qed.

(** X27: [export_memories] returns [True] exactly when the file can be opened
    and [json] can encode the dictionary of every active memory, that is, no
    active memory has an embedding in the side-table or metadata [json]
    rejects; it reads the clock once in either case, and what it writes on
    success lists the active memories only. *)
Theorem export_memories_succeeds_iff (isoformat_now : nat -> string)
    (sys : LongFormMemorySystem) (writable : bool) (n : nat) :
  let mems := get_all (storage sys) true in
  let ok := writable && forallb to_dict_encodable mems in
  export_memories isoformat_now sys writable n =
  ((ok,
    if ok then Some (JsonText (PDict [ ("export_timestamp", PStr (isoformat_now n));
                                       ("total_turns", PInt (turn_count sys));
                                       ("memories", PList (map to_dict mems)) ]))
    else None),
   S n).
Proof.
  intros mems ok. subst ok. unfold export_memories, bind, now, ret. fold mems.
  destruct writable; [|reflexivity]. cbn [andb]. unfold json_dumps.
  replace (json_serializable _) with (forallb to_dict_encodable mems).
  - destruct (forallb to_dict_encodable mems); reflexivity.
  - cbn [json_serializable forallb snd andb]. rewrite andb_true_r.
    induction mems as [|m l IH]; [reflexivity|].
    cbn [map forallb]. rewrite <- IH, <- to_dict_serializable. reflexivity.
Qed.

(** ** The prompt *)

Lemma join_head_nonempty (sep : string) (c : ascii) (x : string) (l : list string) :
  PyStr.join sep (String c x :: l) <> "".
Proof. destruct l; simpl; discriminate. Qed.

(** X28: [format_for_prompt] returns the empty string for an empty list and
    for no other list, and every style other than [natural] is formatted as
    [structured]. *)
Theorem format_for_prompt_styles (format_2f : R -> string) (memories : list Memory)
    (style : string) :
  (format_for_prompt format_2f memories style = "" <-> memories = []) /\
  format_for_prompt format_2f memories style =
    if String.eqb style "natural" then format_for_prompt format_2f memories "natural"
    else format_for_prompt format_2f memories "structured".
Proof.
  split.
  - split; [|intros ->; reflexivity].
    destruct memories as [|m l]; [reflexivity|]. unfold format_for_prompt.
    destruct (String.eqb style "natural"); intros H; exfalso; revert H;
      apply join_head_nonempty.
  - destruct (String.eqb style "natural") eqn:E.
    + apply String.eqb_eq in E. rewrite E. reflexivity.
    + unfold format_for_prompt. rewrite E. destruct memories; reflexivity.
Qed.
